(** * at-server.py: a shallow embedding and its checked properties

    The development follows the layout of
    [at-webserver/files/usr/bin/at-server.py]:

    - [Py]          the fragment of Python the program relies on (text,
                    bytes, integers, exceptions, indexing and slices);
    - [Pdu]         the PDU decoder ([decode_7bit], [decode_ucs2],
                    [decode_timestamp], [decode_number], [read_incoming_sms]);
    - [Dict]        dictionaries in insertion order;
    - [Effects]     calls to the notification manager and the WebSocket
                    server, recorded as effects;
    - [Client]      [ATClient._handle_partial_sms] and its store;
    - [Logging], [Connection]   [ATConnection.send_command];
    - [Calls]       [CallHandler];
    - [WeChat]      [WeChatNotification._do_send];
    - [Schedule]    [ScheduleFrequencyLock.check_network_status],
                    [set_frequency_lock] and a round of [monitor_loop];
    - [PduData]     shapes of PDU data that the properties of the decoder
                    are stated with;
    - [Processor]   [MessageProcessor.process], the [can_handle] tests of
                    the handlers and [MemoryFullHandler];
    - [WeChatQueue] [WeChatNotification._process_queue] and
                    [_combine_messages];
    - [FrequencyLock]  [is_night_time], [get_current_mode] and the
                    command builders of [ScheduleFrequencyLock];
    - [Reconnect]   [ATClient.connect];
    - [SmsParser]   [ATClient._parse_sms];
    - [Signal]      [NetworkSignalHandler.handle].

    Python [str] is a sequence of code points ([list N]); [bytes] and
    [bytearray] are [list byte]; Python integers are [Z].  Readings of
    [time.time()] are integers (seconds); the rounding of floating-point
    clock readings is not modelled.  The definitions come first, the
    properties after them. *)

From Stdlib Require Import ZArith Lia Strings.Byte Strings.Ascii Strings.String DecimalString.
From stdpp Require Import base list strings gmap numbers.

Open Scope Z_scope.

(* ===================================================================== *)
(** ** The Python fragment *)
(* ===================================================================== *)

Module Py.

(** Text: a Python [str] is a sequence of Unicode code points. *)
Abbreviation pystr := (list N).

(** Bytes objects. *)
Abbreviation bytes := (list byte).

#[global] Instance byte_eq_decision : EqDecision byte := Byte.byte_eq_dec.

(** The integer a byte stands for when a [bytes] object is indexed. *)
Definition byte_val (b : byte) : Z := Z.of_N (Byte.to_N b).

(** [bytes([n])] for [0 <= n < 256]. *)
Definition byte_of_Z (n : Z) : byte :=
  match Byte.of_N (Z.to_N (n mod 256)) with
  | Some b => b
  | None => "000"%byte
  end.

(** Source literals are written in UTF-8; [u] reads one as code points. *)
Fixpoint utf8_decode (bs : list N) : pystr :=
  match bs with
  | [] => []
  | b :: rest =>
      if (b <? 128)%N then b :: utf8_decode rest
      else if (b <? 224)%N then
        match rest with
        | c :: rest' => ((b - 192) * 64 + (c - 128))%N :: utf8_decode rest'
        | _ => []
        end
      else if (b <? 240)%N then
        match rest with
        | c :: d :: rest' =>
            ((b - 224) * 4096 + (c - 128) * 64 + (d - 128))%N :: utf8_decode rest'
        | _ => []
        end
      else
        match rest with
        | c :: d :: e :: rest' =>
            ((b - 240) * 262144 + (c - 128) * 4096 + (d - 128) * 64 + (e - 128))%N
              :: utf8_decode rest'
        | _ => []
        end
  end.

Definition u (s : string) : pystr :=
  utf8_decode (map N_of_ascii (list_ascii_of_string s)).

(** An ASCII literal as a [bytes] object ([b'...']). *)
Definition b_ (s : string) : bytes := list_byte_of_string s.

(** [str(n)] for an integer. *)
Definition str_of_Z (n : Z) : pystr := u (NilZero.string_of_int (Z.to_int n)).

(** [len(x)] as a Python integer. *)
Definition len {A} (l : list A) : Z := Z.of_nat (List.length l).

(** [c * n] for a one-character string [c]. *)
Definition str_repeat (c : N) (n : Z) : pystr := replicate (Z.to_nat n) c.

(** [l.startswith(pre)] and [sub in l], for text and for bytes alike. *)
Fixpoint startswith {A} `{EqDecision A} (pre l : list A) : bool :=
  match pre, l with
  | [], _ => true
  | _ :: _, [] => false
  | p :: pre', x :: l' => bool_decide (p = x) && startswith pre' l'
  end.

Fixpoint contains {A} `{EqDecision A} (sub l : list A) : bool :=
  startswith sub l ||
  match l with
  | [] => false
  | _ :: l' => contains sub l'
  end.

(** Exceptions.  [KeyboardInterrupt] and [CancelledError]
    ([asyncio.CancelledError], raised at an [await] of a task that has been
    cancelled, as [main] does with its tasks when it shuts down) derive
    from [BaseException] only: [except Exception] does not catch them.  The
    others derive from [Exception].  A bare [except] catches them all. *)
Inductive exn : Type :=
  | KeyboardInterrupt
  | CancelledError
  | IndexError
  | KeyError
  | ValueError
  | TypeError
  | AttributeError
  | UnicodeDecodeError
  | ConnectionError
  | TimeoutError
  | OSError
  | JSONDecodeError
  | GenericException.

#[global] Instance exn_eq_decision : EqDecision exn.
Proof. solve_decision. Defined.

Definition is_Exception (e : exn) : bool :=
  match e with
  | KeyboardInterrupt | CancelledError => false
  | _ => true
  end.

(** The outcome of evaluating an expression or running a statement. *)
Inductive result (A : Type) : Type :=
  | Ok (a : A)
  | Raise (e : exn).
Arguments Ok {A} a.
Arguments Raise {A} e.

(** Sequencing: the first exception raised ends the computation. *)
#[global] Instance result_ret : MRet result := fun A a => Ok a.
#[global] Instance result_bind : MBind result := fun A B k m =>
  match m with
  | Ok a => k a
  | Raise e => Raise e
  end.

(** [try: m  except: h] with a bare [except], which catches everything. *)
Definition try_except_all {A} (m : result A) (h : exn -> result A) : result A :=
  match m with
  | Ok a => Ok a
  | Raise e => h e
  end.

(** [try: m  except Exception as e: h e]. *)
Definition try_except_Exception {A} (m : result A) (h : exn -> result A) : result A :=
  match m with
  | Ok a => Ok a
  | Raise e => if is_Exception e then h e else Raise e
  end.

(** [l[i]]: negative indices count from the end; out of range raises. *)
Definition getitem {A} (l : list A) (i : Z) : result A :=
  let j := if i <? 0 then i + len l else i in
  if j <? 0 then Raise IndexError
  else match l !! Z.to_nat j with
       | Some x => Ok x
       | None => Raise IndexError
       end.

(** Slice bounds are clamped to the sequence, never raising. *)
Definition clamp_index {A} (l : list A) (i : Z) : nat :=
  let j := if i <? 0 then i + len l else i in
  Z.to_nat (Z.max 0 (Z.min j (len l))).

(** [l[a:b]], [l[a:]] and [l[:b]]. *)
Definition slice {A} (l : list A) (a b : Z) : list A :=
  let i := clamp_index l a in
  let j := clamp_index l b in
  take (j - i)%nat (drop i l).

Definition slice_from {A} (l : list A) (a : Z) : list A :=
  drop (clamp_index l a) l.

Definition slice_to {A} (l : list A) (b : Z) : list A :=
  take (clamp_index l b) l.

End Py.

Import Py.

(* ===================================================================== *)
(** ** The PDU decoder *)
(* ===================================================================== *)

Module Pdu.

(** [GSM_7BIT_ALPHABET]: the 128 characters of the GSM default alphabet. *)
Definition GSM_7BIT_ALPHABET : pystr :=
  u "@£$¥èéùìòÇ" ++ [10%N] ++ u "Øø" ++ [13%N] ++ u "ÅåΔ_ΦΓΛΩΠΨΣΘΞ" ++ [27%N]
    ++ u "ÆæßÉ !" ++ [34%N] ++ u "#¤%&'()*+,-./0123456789:;<=>?"
    ++ u "¡ABCDEFGHIJKLMNOPQRSTUVWXYZÄÖÑÜ§¿abcdefghijklmnopqrstuvwxyzäöñüà".

Definition question_mark : N := 63%N.

(** The loop state of [decode_7bit]: [result], [shift], [tmp]. *)
Abbreviation septet_state := (list Z * Z * Z)%type.

(** [while shift >= 7: result.append(tmp & 0x7F); tmp >>= 7; shift -= 7].
    Every round lowers [shift] by 7, so [shift] rounds of fuel are enough. *)
Fixpoint septets_while (fuel : nat) (st : septet_state) : septet_state :=
  match fuel with
  | O => st
  | S fuel' =>
      let '(result, shift, tmp) := st in
      if shift >=? 7
      then septets_while fuel' (result ++ [Z.land tmp 127], shift - 7, Z.shiftr tmp 7)
      else st
  end.

(** One round of [for byte in encoded_bytes]. *)
Definition septets_step (st : septet_state) (b : byte) : septet_state :=
  let '(result, shift, tmp) := st in
  let tmp := Z.lor tmp (Z.shiftl (byte_val b) shift) in
  let shift := shift + 8 in
  septets_while (Z.to_nat shift) (result, shift, tmp).

Definition gsm_char (b : Z) : N :=
  if b <? len GSM_7BIT_ALPHABET
  then default question_mark (GSM_7BIT_ALPHABET !! Z.to_nat b)
  else question_mark.

Definition decode_7bit (encoded_bytes : bytes) (length : Z) : pystr :=
  let '(result, shift, tmp) := fold_left septets_step encoded_bytes ([], 0, 0) in
  let result :=
    if (shift >? 0) && (len result <? length)
    then result ++ [Z.land tmp 127]
    else result in
  map gsm_char (slice_to result length).

(** [bytes.decode('utf-16-be')], strict: the 16-bit units, big-endian ... *)
Fixpoint utf16_be_units (bs : bytes) : result (list Z) :=
  match bs with
  | [] => Ok []
  | [_] => Raise UnicodeDecodeError
  | hi :: lo :: rest =>
      us ← utf16_be_units rest;
      Ok ((byte_val hi * 256 + byte_val lo) :: us)
  end.

Definition is_high_surrogate (c : Z) : bool := (0xD800 <=? c) && (c <=? 0xDBFF).
Definition is_low_surrogate (c : Z) : bool := (0xDC00 <=? c) && (c <=? 0xDFFF).

(** ... and the code points they spell; a surrogate without its partner is
    an error. *)
Fixpoint utf16_code_points (us : list Z) : result pystr :=
  match us with
  | [] => Ok []
  | c :: rest =>
      if is_high_surrogate c then
        match rest with
        | c2 :: rest' =>
            if is_low_surrogate c2 then
              s ← utf16_code_points rest';
              Ok (Z.to_N (0x10000 + (c - 0xD800) * 1024 + (c2 - 0xDC00)) :: s)
            else Raise UnicodeDecodeError
        | [] => Raise UnicodeDecodeError
        end
      else if is_low_surrogate c then Raise UnicodeDecodeError
      else
        s ← utf16_code_points rest;
        Ok (Z.to_N c :: s)
  end.

Definition decode_utf_16_be (bs : bytes) : result pystr :=
  us ← utf16_be_units bs;
  utf16_code_points us.

(** The UTF-16 big-endian form of a text, [s.encode('utf-16-be')], for
    texts of Unicode scalar values; it states what the decoder inverts. *)
Definition is_scalar_value (c : N) : bool :=
  ((c <? 0xD800) || ((0xDFFF <? c) && (c <? 0x110000)))%N.

Definition utf16_be_unit (w : Z) : bytes := [byte_of_Z (w / 256); byte_of_Z (w mod 256)].

Definition encode_utf_16_be_char (c : N) : bytes :=
  let c := Z.of_N c in
  if c <? 0x10000 then utf16_be_unit c
  else
    utf16_be_unit (0xD800 + (c - 0x10000) / 1024)
    ++ utf16_be_unit (0xDC00 + (c - 0x10000) mod 1024).

Definition encode_utf_16_be (s : pystr) : bytes :=
  List.concat (map encode_utf_16_be_char s).

(** The 16-bit units of one character. *)
Definition units_of_char (c : N) : list Z :=
  let c := Z.of_N c in
  if c <? 0x10000 then [c]
  else [0xD800 + (c - 0x10000) / 1024; 0xDC00 + (c - 0x10000) mod 1024].

Definition decode_ucs2 (encoded_bytes : bytes) : result pystr :=
  try_except_all
    (decode_utf_16_be encoded_bytes)
    (fun _ => Ok (str_repeat question_mark (len encoded_bytes / 2))).

(** [datetime] values, as far as the decoder builds them. *)
Record datetime : Type := mk_datetime {
  year : Z; month : Z; day : Z; hour : Z; minute : Z; second : Z
}.

Definition days_in_month (y m : Z) : Z :=
  if m =? 2 then (if (y mod 4 =? 0) && (negb (y mod 100 =? 0) || (y mod 400 =? 0)) then 29 else 28)
  else if (m =? 4) || (m =? 6) || (m =? 9) || (m =? 11) then 30
  else 31.

(** [datetime.strptime(f"20{y}-{mo:02d}-{d:02d} {h:02d}:{mi:02d}:{s:02d}",
    "%Y-%m-%d %H:%M:%S")] for non-negative fields: [%Y] reads exactly four
    digits, so [y] must print as two; the other directives accept their
    calendar ranges, and the date must exist. *)
Definition strptime_20 (y mo d h mi s : Z) : result datetime :=
  if (10 <=? y) && (y <=? 99)
     && (1 <=? mo) && (mo <=? 12)
     && (1 <=? d) && (d <=? days_in_month (2000 + y) mo)
     && (0 <=? h) && (h <=? 23)
     && (0 <=? mi) && (mi <=? 59)
     && (0 <=? s) && (s <=? 59)
  then Ok (mk_datetime (2000 + y) mo d h mi s)
  else Raise ValueError.

Definition getitem_byte (bs : bytes) (i : Z) : result Z :=
  b ← getitem bs i; Ok (byte_val b).

(** [(b & 0x0F) * 10 + (b >> 4)]. *)
Definition semi_octet (b : Z) : Z := Z.land b 0x0F * 10 + Z.shiftr b 4.

Definition decode_timestamp (timestamp_bytes : bytes) (now : datetime) : result datetime :=
  try_except_all
    (b0 ← getitem_byte timestamp_bytes 0;
     b1 ← getitem_byte timestamp_bytes 1;
     b2 ← getitem_byte timestamp_bytes 2;
     b3 ← getitem_byte timestamp_bytes 3;
     b4 ← getitem_byte timestamp_bytes 4;
     b5 ← getitem_byte timestamp_bytes 5;
     strptime_20 (semi_octet b0) (semi_octet b1) (semi_octet b2)
                 (semi_octet b3) (semi_octet b4) (semi_octet b5))
    (fun _ => Ok now).

Definition decode_number_step (number_length : Z) (number : pystr) (b : byte) : pystr :=
  let digit1 := Z.land (byte_val b) 0x0F in
  let digit2 := Z.shiftr (byte_val b) 4 in
  let number := if digit1 <=? 9 then number ++ str_of_Z digit1 else number in
  if (len number <? number_length) && (digit2 <=? 9)
  then number ++ str_of_Z digit2
  else number.

Definition decode_number (number_bytes : bytes) (number_length : Z) : pystr :=
  fold_left (decode_number_step number_length) number_bytes [].

(** [bytes.fromhex]: pairs of hexadecimal digits, ASCII whitespace allowed
    between pairs; anything else is a [ValueError]. *)
Definition hex_digit (c : N) : option Z :=
  if (48 <=? c)%N && (c <=? 57)%N then Some (Z.of_N c - 48)
  else if (65 <=? c)%N && (c <=? 70)%N then Some (Z.of_N c - 55)
  else if (97 <=? c)%N && (c <=? 102)%N then Some (Z.of_N c - 87)
  else None.

Definition is_space (c : N) : bool :=
  (c =? 32)%N || ((9 <=? c)%N && (c <=? 13)%N).

Fixpoint fromhex (s : pystr) : result bytes :=
  match s with
  | [] => Ok []
  | c :: s' =>
      if is_space c then fromhex s'
      else
        match hex_digit c, s' with
        | Some hi, c2 :: s'' =>
            match hex_digit c2 with
            | Some lo => bs ← fromhex s''; Ok (byte_of_Z (hi * 16 + lo) :: bs)
            | None => Raise ValueError
            end
        | _, _ => Raise ValueError
        end
  end.

(** The [partial] dictionary of a segment of a concatenated message. *)
Record partial_info : Type := mk_partial {
  reference : Z;
  parts_count : Z;
  part_number : Z
}.

(** The dictionary [read_incoming_sms] returns. *)
Record sms_dict : Type := mk_sms_dict {
  sender : pystr;
  content : pystr;
  date : datetime;
  partial : option partial_info
}.

(** The user-data header, read when bit 6 of the PDU type is set: the
    header length and the [partial] entry. *)
Definition read_udh (pdu_type : Z) (data_bytes : bytes) : result (Z * option partial_info) :=
  if negb (Z.land pdu_type 0x40 =? 0) then
    b0 ← getitem_byte data_bytes 0;
    let udh_length := b0 + 1 in
    if udh_length >=? 6 then
      iei ← getitem_byte data_bytes 1;
      if (iei =? 0x00) || (iei =? 0x08) then
        ref ← getitem_byte data_bytes 3;
        total ← getitem_byte data_bytes 4;
        seq ← getitem_byte data_bytes 5;
        Ok (udh_length, Some (mk_partial ref total seq))
      else Ok (udh_length, None)
    else Ok (udh_length, None)
  else Ok (0, None).

(** The [try] block of [read_incoming_sms]. *)
Definition read_incoming_sms_try (pdu_hex : pystr) (now : datetime) : result sms_dict :=
  pdu_bytes ← fromhex pdu_hex;
  let pos := 0 in
  smsc_length ← getitem_byte pdu_bytes pos;
  let pos := pos + (1 + smsc_length) in
  pdu_type ← getitem_byte pdu_bytes pos;
  let pos := pos + 1 in
  sender_length ← getitem_byte pdu_bytes pos;
  let pos := pos + 1 in
  sender_type ← getitem_byte pdu_bytes pos;
  let pos := pos + 1 in
  let sender_bytes := slice pdu_bytes pos (pos + (sender_length + 1) / 2) in
  let sender := decode_number sender_bytes sender_length in
  let pos := pos + (sender_length + 1) / 2 in
  let pos := pos + 1 in
  dcs ← getitem_byte pdu_bytes pos;
  let is_ucs2 := Z.land dcs 0x0F =? 0x08 in
  let pos := pos + 1 in
  timestamp ← decode_timestamp (slice pdu_bytes pos (pos + 7)) now;
  let pos := pos + 7 in
  data_length ← getitem_byte pdu_bytes pos;
  let pos := pos + 1 in
  let data_bytes := slice_from pdu_bytes pos in
  '(udh_length, partial_info) ← read_udh pdu_type data_bytes;
  let content_bytes := slice_from data_bytes udh_length in
  content ← (if is_ucs2 then decode_ucs2 content_bytes
             else Ok (decode_7bit content_bytes data_length));
  Ok (mk_sms_dict sender content timestamp partial_info).

(** The dictionary of the [except] branch. *)
Definition decode_failed (pdu_hex : pystr) (now : datetime) : sms_dict :=
  mk_sms_dict (u "unknown") (u "PDU解码失败: " ++ pdu_hex) now None.

(** [read_incoming_sms(pdu_hex)]; [now] is what [datetime.now()] returns
    inside [decode_timestamp], [now'] what it returns in the [except]
    branch. *)
Definition read_incoming_sms (pdu_hex : pystr) (now now' : datetime) : result sms_dict :=
  try_except_Exception
    (read_incoming_sms_try pdu_hex now)
    (fun _ => Ok (decode_failed pdu_hex now')).

End Pdu.

(* ===================================================================== *)
(** ** Python dictionaries that keep insertion order *)
(* ===================================================================== *)

Module Dict.

(** A [dict] as the list of its items in insertion order; the keys of a
    dictionary are pairwise distinct. *)
Abbreviation dict K V := (list (K * V)).

Section Ops.
Context {K V : Type} `{EqDecision K}.

Definition keys (d : dict K V) : list K := map fst d.

(** [d.get(k)] *)
Fixpoint get (k : K) (d : dict K V) : option V :=
  match d with
  | [] => None
  | (k', v) :: d' => if decide (k' = k) then Some v else get k d'
  end.

(** [k in d] *)
Definition mem (k : K) (d : dict K V) : bool := bool_decide (is_Some (get k d)).

(** [del d[k]] *)
Definition del (k : K) (d : dict K V) : dict K V :=
  filter (fun kv => kv.1 <> k) d.

(** [d[k] = v] for a key that is not in [d]: the item goes last. *)
Definition add (k : K) (v : V) (d : dict K V) : dict K V := d ++ [(k, v)].

(** In-place change of the value stored under [k]. *)
Definition alter (f : V -> V) (k : K) (d : dict K V) : dict K V :=
  map (fun kv => if decide (kv.1 = k) then (kv.1, f kv.2) else kv) d.

End Ops.

(** [min(xs, key=f)]: the first element whose key is smallest. *)
Fixpoint min_from {A} (f : A -> Z) (best : A) (xs : list A) : A :=
  match xs with
  | [] => best
  | x :: xs' => min_from f (if f x <? f best then x else best) xs'
  end.

Definition py_min {A} (f : A -> Z) (xs : list A) : result A :=
  match xs with
  | [] => Raise ValueError
  | x :: xs' => Ok (min_from f x xs')
  end.

End Dict.

(* ===================================================================== *)
(** ** Notifications and WebSocket broadcasts, as observable effects *)
(* ===================================================================== *)

Module Effects.

(** JSON values of broadcast messages. *)
Inductive json : Type :=
  | JStr (s : pystr)
  | JBool (b : bool).

(** [{"type": ..., "data": {...}}] *)
Record ws_message : Type := mk_ws_message {
  msg_type : pystr;
  msg_data : list (pystr * json)
}.

(** Calls into the collaborators of the handlers:
    [notification_manager.notify_all(sender, content, notification_type,
    is_memory_full)] and [websocket_server.broadcast(message)].  Both catch
    the failures of their channels, so a call returns. *)
Inductive effect : Type :=
  | NotifyAll (sender content notification_type : pystr) (is_memory_full : bool)
  | Broadcast (message : ws_message).

End Effects.

(* ===================================================================== *)
(** ** ATClient: reassembly of concatenated messages *)
(* ===================================================================== *)

Module Client.

Import Dict Effects.

(** The [SMS] dataclass. *)
Record SMS : Type := mk_SMS {
  index : pystr;
  sender : pystr;
  content : pystr;
  timestamp : pystr;
  partial : option Pdu.partial_info
}.

(** A value of [_partial_messages]:
    [{"sender", "parts", "total_parts", "timestamp"}]. *)
Record partial_message : Type := mk_partial_message {
  pm_sender : pystr;
  pm_parts : gmap Z pystr;
  pm_total_parts : Z;
  pm_timestamp : Z
}.

(** [self._partial_messages], keyed by [f"{sender}_{reference}"]. *)
Abbreviation store := (list (pystr * partial_message)).

Definition set_part (n : Z) (c : pystr) (m : partial_message) : partial_message :=
  mk_partial_message (pm_sender m) (<[n := c]> (pm_parts m)) (pm_total_parts m) (pm_timestamp m).

(** [k for k, v in items() if current_time - v.get('timestamp', 0) > 3600] *)
Definition expired_keys (current_time : Z) (pms : store) : list pystr :=
  Dict.keys (filter (fun kv => current_time - pm_timestamp kv.2 > 3600) pms).

(** [for expired_key in expired_keys: del self._partial_messages[expired_key]] *)
Definition delete_expired (current_time : Z) (pms : store) : store :=
  fold_left (fun d k => Dict.del k d) (expired_keys current_time pms) pms.

(** The key function of the [min] call:
    [lambda k: self._partial_messages[k].get('timestamp', 0)]. *)
Definition timestamp_of (pms : store) (k : pystr) : Z :=
  match Dict.get k pms with
  | Some v => pm_timestamp v
  | None => 0
  end.

(** [if len(...) > 100: del self._partial_messages[min(keys, key=...)]] *)
Definition evict_oldest (pms : store) : store :=
  if len pms >? 100 then
    match Dict.py_min (timestamp_of pms) (Dict.keys pms) with
    | Ok oldest_key => Dict.del oldest_key pms
    | Raise _ => pms
    end
  else pms.

(** ["".join(parts[i] for i in range(1, total_parts + 1))]; a missing part
    is a [KeyError]. *)
Definition join_parts (parts : gmap Z pystr) (total_parts : Z) : result pystr :=
  match mapM (fun i => parts !! i) (seqZ 1 total_parts) with
  | Some cs => Ok (List.concat cs)
  | None => Raise KeyError
  end.

Definition new_sms_complete (sender full_content time : pystr) : ws_message :=
  mk_ws_message (u "new_sms")
    [(u "sender", JStr sender); (u "content", JStr full_content);
     (u "time", JStr time); (u "isComplete", JBool true)].

(** [_handle_partial_sms(sms)] at clock reading [current_time]: the store
    it leaves, the effects it performs, and whether it raised.  (Its
    warnings to the log are left out.) *)
Definition _handle_partial_sms (pms : store) (sms : SMS) (current_time : Z)
  : store * list effect * result unit :=
  match partial sms with
  | None => (pms, [], Raise TypeError)
  | Some partial =>
      let key := sender sms ++ u "_" ++ str_of_Z (Pdu.reference partial) in
      let pms := delete_expired current_time pms in
      let pms := evict_oldest pms in
      let pms :=
        if Dict.mem key pms then pms
        else Dict.add key
               (mk_partial_message (sender sms) ∅ (Pdu.parts_count partial) current_time)
               pms in
      let pms := Dict.alter (set_part (Pdu.part_number partial) (content sms)) key pms in
      match Dict.get key pms with
      | None => (pms, [], Raise KeyError)
      | Some entry =>
          if Z.of_nat (size (pm_parts entry)) =? pm_total_parts entry then
            match join_parts (pm_parts entry) (pm_total_parts entry) with
            | Raise e => (pms, [], Raise e)
            | Ok full_content =>
                (Dict.del key pms,
                 [NotifyAll (sender sms) full_content (u "SMS") false;
                  Broadcast (new_sms_complete (sender sms) full_content (timestamp sms))],
                 Ok ())
            end
          else (pms, [], Ok ())
      end
  end.

(** A sequence of calls, each at its own clock reading; a call that raises
    ends the sequence. *)
Fixpoint handle_partial_all (pms : store) (calls : list (SMS * Z))
  : store * list effect * result unit :=
  match calls with
  | [] => (pms, [], Ok ())
  | (sms, t) :: calls' =>
      match _handle_partial_sms pms sms t with
      | (pms', effects, Ok _) =>
          let '(pms'', effects', r) := handle_partial_all pms' calls' in
          (pms'', effects ++ effects', r)
      | (pms', effects, Raise e) => (pms', effects, Raise e)
      end
  end.

End Client.

(* ===================================================================== *)
(** ** Segments of one concatenated message, for stating properties *)
(* ===================================================================== *)

Module Segments.

Import Client.

(** One arrival: which part, the [index] and [timestamp] fields of its
    [SMS], and the clock reading at which [_handle_partial_sms] runs. *)
Record delivery : Type := mk_delivery {
  d_part : Z;
  d_index : pystr;
  d_stamp : pystr;
  d_time : Z
}.

(** The [SMS] of part [d_part d] of the message of [total] parts sent by
    [sender] under [reference], whose part [i] carries [text i]. *)
Definition segment (sender : pystr) (reference total : Z) (text : Z -> pystr)
    (d : delivery) : SMS :=
  mk_SMS (d_index d) sender (text (d_part d)) (d_stamp d)
         (Some (Pdu.mk_partial reference total (d_part d))).

Definition calls (sender : pystr) (reference total : Z) (text : Z -> pystr)
    (ds : list delivery) : list (SMS * Z) :=
  map (fun d => (segment sender reference total text d, d_time d)) ds.

(** The store key [f"{sender}_{reference}"]. *)
Definition key_of (sender : pystr) (reference : Z) : pystr :=
  sender ++ u "_" ++ str_of_Z reference.

(** The parts in ascending part number, concatenated. *)
Definition full_text (total : Z) (text : Z -> pystr) : pystr :=
  List.concat (map text (seqZ 1 total)).

End Segments.

(* ===================================================================== *)
(** ** Calls to the logger *)
(* ===================================================================== *)

Module Logging.

Inductive level : Type := DEBUG | INFO | WARNING | ERROR.

(** One call to [logger]: the level, the text of the message, and the
    exception its f-string prints, if any. *)
Record log_record : Type := mk_log {
  log_level : level;
  log_text : pystr;
  log_about : option exn
}.

End Logging.

(* ===================================================================== *)
(** ** ATConnection.send_command *)
(* ===================================================================== *)

Module Connection.

Import Logging.

(** The fields of [ATConnection] that [send_command] reads or writes,
    with what it wrote to the transport ([sent]) and the records it wrote
    to the log itself ([logged]).  What [connect()] logs, or does to its
    socket or serial port, is not part of the record. *)
Record ATConnection : Type := mk_conn {
  is_connected : bool;
  _response_buffer : bytes;
  sent : list bytes;
  logged : list log_record
}.

(** What the transport does during one [send_command]: the outcome of
    [await self.connect()] should it be called, the outcome of
    [await self.send(command.encode())], and the outcomes of the
    [await self.receive(4096)] calls made while
    [time.time() - start_time < self.response_timeout] holds; when the
    list is used up the timeout has elapsed.  A [receive] that hands back
    a false value ([b""], [False], [''], [None]) is [Ok []].  An outcome
    [Raise CancelledError] is the cancellation of the task while it waits
    there; cancellation while it waits for the command lock or sleeps is
    not modelled. *)
Record transport : Type := mk_transport {
  connect_outcome : result bool;
  send_outcome : result Z;
  receive_outcomes : list (result bytes)
}.

Definition max_response_size : Z := 1024 * 1024.

Definition CRLF : bytes := [x0d; x0a].

(** [b'OK\r\n' in response or b'ERROR\r\n' in response
     or b'+CMS ERROR:' in response or b'+CME ERROR:' in response] *)
Definition has_terminator (response : bytes) : bool :=
  contains (b_ "OK" ++ CRLF) response
  || contains (b_ "ERROR" ++ CRLF) response
  || contains (b_ "+CMS ERROR:") response
  || contains (b_ "+CME ERROR:") response.

Definition truncation_warning : log_record :=
  mk_log WARNING (u "响应数据超过 1MB 限制，截断并返回") None.

(** How the [while] loop ends. *)
Inductive loop_exit : Type :=
  | Returned (response : bytes)
  | Propagated (e : exn)
  | TimedOut (response : bytes).

(** The [while] loop of [send_command], one [receive] per round. *)
Fixpoint receive_loop (outcomes : list (result bytes)) (response : bytes)
    (log : list log_record) : list log_record * loop_exit :=
  match outcomes with
  | [] => (log, TimedOut response)
  | Ok chunk :: outcomes' =>
      if negb (bool_decide (chunk = [])) then
        if len response + len chunk >? max_response_size then
          (log ++ [truncation_warning],
           Returned (response ++ slice_to chunk (max_response_size - len response)))
        else
          let response := response ++ chunk in
          if has_terminator response then (log, Returned response)
          else receive_loop outcomes' response log
      else receive_loop outcomes' response log
  | Raise e :: outcomes' =>
      if is_Exception e
      then receive_loop outcomes' response
             (log ++ [mk_log DEBUG (u "接收数据错误: ") (Some e)])
      else (log, Propagated e)
  end.

(** [s.endswith(suffix)] *)
Definition endswith (suffix s : pystr) : bool :=
  startswith (reverse suffix) (reverse s).

Definition CR : pystr := [13%N].

(** [command.encode()]: the UTF-8 form of the command, one to four octets
    per character.  A text with a lone surrogate has none: there
    [encode()] raises [UnicodeEncodeError], which is then the outcome of
    the [send] statement. *)
Definition encode_char (c : N) : bytes :=
  let c := Z.of_N c in
  if c <? 0x80 then [byte_of_Z c]
  else if c <? 0x800 then
    [byte_of_Z (0xC0 + c / 64); byte_of_Z (0x80 + c mod 64)]
  else if c <? 0x10000 then
    [byte_of_Z (0xE0 + c / 4096); byte_of_Z (0x80 + (c / 64) mod 64);
     byte_of_Z (0x80 + c mod 64)]
  else
    [byte_of_Z (0xF0 + c / 262144); byte_of_Z (0x80 + (c / 4096) mod 64);
     byte_of_Z (0x80 + (c / 64) mod 64); byte_of_Z (0x80 + c mod 64)].

Definition encode (s : pystr) : bytes := List.concat (map encode_char s).

(** The [try] block of [send_command]. *)
Definition send_command_try (self : ATConnection) (command : pystr) (t : transport)
  : ATConnection * result bytes :=
  let connected :=
    if is_connected self then (self, Ok true)
    else match connect_outcome t with
         | Ok true =>
             (mk_conn true (_response_buffer self) (sent self) (logged self), Ok true)
         | Ok false => (self, Ok false)
         | Raise e => (self, Raise e)
         end in
  match connected with
  | (self, Raise e) => (self, Raise e)
  | (self, Ok false) => (self, Ok [])
  | (self, Ok true) =>
      let command := if endswith CR command then command else command ++ CR in
      let self := mk_conn (is_connected self) [] (sent self) (logged self) in
      match send_outcome t with
      | Raise e => (self, Raise e)
      | Ok _ =>
          let self :=
            mk_conn (is_connected self) (_response_buffer self)
                    (sent self ++ [encode command]) (logged self) in
          match receive_loop (receive_outcomes t) [] (logged self) with
          | (log, Returned response) =>
              (mk_conn (is_connected self) (_response_buffer self) (sent self) log,
               Ok response)
          | (log, Propagated e) =>
              (mk_conn (is_connected self) (_response_buffer self) (sent self) log,
               Raise e)
          | (log, TimedOut response) =>
              if bool_decide (response = []) then
                (mk_conn false (_response_buffer self) (sent self) log,
                 Raise ConnectionError)
              else
                (mk_conn (is_connected self) (_response_buffer self) (sent self) log,
                 Ok response)
          end
      end
  end.

(** [send_command]: the [try] block under [except KeyboardInterrupt: raise]
    and [except Exception as e: ... return bytearray()]. *)
Definition send_command (self : ATConnection) (command : pystr) (t : transport)
  : ATConnection * result bytes :=
  match send_command_try self command t with
  | (self, Ok response) => (self, Ok response)
  | (self, Raise e) =>
      if is_Exception e then
        (mk_conn false (_response_buffer self) (sent self)
                 (logged self ++ [mk_log ERROR (u "命令发送失败: ") (Some e)]),
         Ok [])
      else (self, Raise e)
  end.

(** The transport lets the command through to the [receive] loop: the
    connection is up, or [connect()] brings it up, and [send] returns. *)
Definition reaches_loop (self : ATConnection) (t : transport) : Prop :=
  (is_connected self = true \/ connect_outcome t = Ok true)
  /\ exists k, send_outcome t = Ok k.

End Connection.

(* ===================================================================== *)
(** ** CallHandler *)
(* ===================================================================== *)

Module Calls.

Import Effects.

(** The values of [current_call_state]: ["idle"] and ["ringing"]. *)
Inductive call_state : Type := idle | ringing.

#[global] Instance call_state_eq_decision : EqDecision call_state.
Proof. solve_decision. Defined.

Record CallHandler : Type := mk_handler {
  last_call_number : option pystr;
  last_call_time : Z;
  call_timeout : Z;
  ring_received : bool;
  current_call_state : call_state
}.

(** [CallHandler.__init__] *)
Definition init : CallHandler := mk_handler None 0 30 false idle.

Definition quote : N := 34%N.
Definition space : N := 32%N.

Fixpoint take_while (p : N -> bool) (s : pystr) : pystr :=
  match s with
  | c :: s' => if p c then c :: take_while p s' else []
  | [] => []
  end.

Fixpoint drop_while (p : N -> bool) (s : pystr) : pystr :=
  match s with
  | c :: s' => if p c then drop_while p s' else s
  | [] => []
  end.

(** The pattern [\+CLIP: *Q([^Q]+)Q], where Q stands for the double
    quote, tried at the start of [s]; the result is group 1.  Both
    repetitions are followed by a character they cannot match, so the
    longest repetition is the only one that can succeed. *)
Definition clip_match_here (s : pystr) : option pystr :=
  if startswith (u "+CLIP:") s then
    match drop_while (fun c => bool_decide (c = space)) (drop 6 s) with
    | q :: s' =>
        if bool_decide (q = quote) then
          let number := take_while (fun c => negb (bool_decide (c = quote))) s' in
          match number, drop_while (fun c => negb (bool_decide (c = quote))) s' with
          | _ :: _, _ :: _ => Some number
          | _, _ => None
          end
        else None
    | [] => None
    end
  else None.

(** [re.search] of that pattern in [line]: the leftmost match. *)
Fixpoint clip_search (line : pystr) : option pystr :=
  match clip_match_here line with
  | Some number => Some number
  | None =>
      match line with
      | [] => None
      | _ :: line' => clip_search line'
      end
  end.

Definition sender_label : pystr := u "来电提醒".

Definition ringing_content (time_str phone_number : pystr) : pystr :=
  u "时间：" ++ time_str ++ [10%N] ++ u "号码：" ++ phone_number ++ [10%N] ++ u "状态：来电振铃".

Definition ended_content (time_str phone_number : pystr) : pystr :=
  u "时间：" ++ time_str ++ [10%N] ++ u "号码：" ++ phone_number ++ [10%N] ++ u "状态：通话结束".

Definition incoming_call (time_str number state : pystr) : ws_message :=
  mk_ws_message (u "incoming_call")
    [(u "time", JStr time_str); (u "number", JStr number); (u "state", JStr state)].

(** [should_notify], evaluated where the code evaluates it. *)
Definition should_notify (self : CallHandler) (phone_number : pystr) (current_time : Z) : bool :=
  negb (bool_decide (Some phone_number = last_call_number self))
  || (current_time - last_call_time self >? call_timeout self)
  || bool_decide (current_call_state self = idle).

(** [handle(line, client)], with the readings of [time.time()] and
    [time.strftime("%Y-%m-%d %H:%M:%S")] it would get.  The calls into the
    notification manager and the WebSocket server are the effects. *)
Definition handle (self : CallHandler) (line : pystr) (now : Z) (time_str : pystr)
  : CallHandler * list effect :=
  if contains (u "RING") line || contains (u "IRING") line then
    (mk_handler (last_call_number self) (last_call_time self) (call_timeout self)
                true ringing, [])
  else if startswith (u "+CLIP:") line then
    let self :=
      if negb (ring_received self)
      then mk_handler (last_call_number self) (last_call_time self) (call_timeout self)
                      (ring_received self) ringing
      else self in
    match clip_search line with
    | Some phone_number =>
        if should_notify self phone_number now then
          (mk_handler (Some phone_number) now (call_timeout self)
                      (ring_received self) ringing,
           [NotifyAll sender_label (ringing_content time_str phone_number) (u "CALL") false;
            Broadcast (incoming_call time_str phone_number (u "ringing"))])
        else (self, [])
    | None => (self, [])
    end
  else if contains (u "^CEND:") line || contains (u "NO CARRIER") line then
    (mk_handler None 0 (call_timeout self) false idle,
     match last_call_number self with
     | Some (c :: number) =>
         [NotifyAll sender_label (ended_content time_str (c :: number)) (u "CALL") false;
          Broadcast (incoming_call time_str (c :: number) (u "ended"))]
     | _ => []
     end)
  else (self, []).

(** The states a handler can be in: [init], followed by calls of [handle]. *)
Inductive reachable : CallHandler -> Prop :=
  | reachable_init : reachable init
  | reachable_handle self line now time_str :
      reachable self -> reachable (handle self line now time_str).1.

(** A line that [handle] takes as a [+CLIP] report of [number]. *)
Definition clip_line (line number : pystr) : Prop :=
  contains (u "RING") line = false
  /\ startswith (u "+CLIP:") line = true
  /\ clip_search line = Some number.

(** A line that [handle] takes as the end of the call. *)
Definition end_line (line : pystr) : Prop :=
  contains (u "RING") line = false
  /\ startswith (u "+CLIP:") line = false
  /\ (contains (u "^CEND:") line = true \/ contains (u "NO CARRIER") line = true).

(** What every reachable handler state satisfies: the timeout is 30; once
    a RING was seen the state is ringing; an idle handler remembers no
    number. *)
Definition call_invariant (self : CallHandler) : Prop :=
  call_timeout self = 30
  /\ (ring_received self = true -> current_call_state self = ringing)
  /\ (current_call_state self = idle -> last_call_number self = None).

(** What a [+CLIP] line with [number] at [time_str] sends out when it
    notifies. *)
Definition ringing_effects (time_str number : pystr) : list effect :=
  [NotifyAll sender_label (ringing_content time_str number) (u "CALL") false;
   Broadcast (incoming_call time_str number (u "ringing"))].

End Calls.

(* ===================================================================== *)
(** ** WeChatNotification._do_send *)
(* ===================================================================== *)

Module WeChat.

Import Dict Logging.

(** A value stored in a JSON object; arrays and objects in that place are
    not told apart, and numbers are integers. *)
Inductive json_value : Type :=
  | JNull
  | JBool (b : bool)
  | JInt (n : Z)
  | JStr (s : pystr)
  | JNested.

(** What [response.json()] can hand back: an object, or something else
    (which has no [get]). *)
Inductive json : Type :=
  | JDict (items : dict pystr json_value)
  | JOther (v : json_value).

(** What one pass through the [try] block meets: [session.post] or
    [response.text()] raises, or a response arrives with its status and
    the outcome of [response.json()]. *)
Inductive attempt : Type :=
  | PostRaises (e : exn)
  | Response (status : Z) (body : result json).

Record WeChatNotification : Type := mk_wechat {
  webhook_url : pystr;
  max_retries : Z;
  retry_delay : Z
}.

(** [WeChatNotification.__init__] *)
Definition init (webhook_url : pystr) : WeChatNotification :=
  mk_wechat webhook_url 3 1.

(** What [_do_send] does, in order. *)
Inductive step : Type :=
  | Post (url content : pystr)
  | Sleep (seconds : Z)
  | Log (r : log_record).

(** [x == 0] for the value of [result.get('errcode')]; [False == 0] holds
    in Python, [None == 0] does not. *)
Definition equals_zero (v : option json_value) : bool :=
  match v with
  | Some (JInt n) => n =? 0
  | Some (JBool b) => negb b
  | _ => false
  end.

(** The [try] block after the POST: [Ok] is the [return] of a success,
    [Raise] what reaches [except Exception as e]. *)
Definition attempt_result (a : attempt) : result unit :=
  match a with
  | PostRaises e => Raise e
  | Response status body =>
      if status =? 200 then
        match body with
        | Ok (JDict items) =>
            if equals_zero (Dict.get (u "errcode") items)
            then Ok ()
            else Raise GenericException
        | Ok _ => Raise AttributeError
        | Raise JSONDecodeError => Raise GenericException
        | Raise e => Raise e
        end
      else Raise GenericException
  end.

Definition failed_text (retries max_retries : Z) : pystr :=
  u "发送失败 (尝试 " ++ str_of_Z retries ++ u "/" ++ str_of_Z max_retries ++ u "): ".

(** [while retries < self.max_retries: ...]; [attempts k] is what the
    [k]-th POST meets.  A round ends the call or raises [retries], so
    [max_retries - retries] rounds of fuel are enough.  Of the two classes
    the [isinstance] test names, only [asyncio.TimeoutError] can reach it:
    [asyncio.CancelledError] is no [Exception], so [except Exception] lets
    it through to the caller.  Cancellation during [asyncio.sleep] is not
    modelled. *)
Fixpoint do_send_loop (self : WeChatNotification) (sender content : pystr)
    (attempts : nat -> attempt) (fuel : nat) (k : nat) (retries : Z)
  : list step * result unit :=
  match fuel with
  | O => ([], Ok ())
  | S fuel' =>
      if retries <? max_retries self then
        match attempt_result (attempts k) with
        | Ok _ =>
            ([Post (webhook_url self) content;
              Log (mk_log INFO (u "企业微信通知发送成功: " ++ sender) None)],
             Ok ())
        | Raise e =>
            if is_Exception e then
              if bool_decide (e = TimeoutError) then
                ([Post (webhook_url self) content;
                  Log (mk_log WARNING (u "请求被取消或超时: ") (Some e))],
                 Ok ())
              else
                let retries := retries + 1 in
                let warned :=
                  [Post (webhook_url self) content;
                   Log (mk_log WARNING (failed_text retries (max_retries self)) (Some e))] in
                if retries <? max_retries self then
                  let '(steps, r) :=
                    do_send_loop self sender content attempts fuel' (S k) retries in
                  (warned ++ [Sleep (retry_delay self * retries)] ++ steps, r)
                else
                  (warned ++ [Log (mk_log ERROR (u "达到最大重试次数，放弃发送") None)], Ok ())
            else ([Post (webhook_url self) content], Raise e)
        end
      else ([], Ok ())
  end.

Definition _do_send (self : WeChatNotification) (sender content : pystr)
    (attempts : nat -> attempt) : list step * result unit :=
  do_send_loop self sender content attempts (Z.to_nat (max_retries self)) 0 0.

Definition is_post (s : step) : bool :=
  match s with
  | Post _ _ => true
  | _ => false
  end.

(** The log records of [_do_send], for stating what it does. *)
Definition succeeded (sender : pystr) : step :=
  Log (mk_log INFO (u "企业微信通知发送成功: " ++ sender) None).

Definition failed (retries max_retries : Z) (e : exn) : step :=
  Log (mk_log WARNING (failed_text retries max_retries) (Some e)).

Definition gave_up : step :=
  Log (mk_log ERROR (u "达到最大重试次数，放弃发送") None).

Definition timed_out : step :=
  Log (mk_log WARNING (u "请求被取消或超时: ") (Some TimeoutError)).

(** An attempt that fails and is tried again: it raises an [Exception]
    other than the timeout. *)
Definition retriable (a : attempt) (e : exn) : Prop :=
  attempt_result a = Raise e /\ is_Exception e = true /\ e <> TimeoutError.

End WeChat.

(* ===================================================================== *)
(** ** ScheduleFrequencyLock: network check and monitor loop *)
(* ===================================================================== *)

Module Schedule.

Import Effects.

(** The argument of [set_frequency_lock]. *)
Record lock_config : Type := mk_lock_config {
  lte_type : Z; lte_bands : pystr; lte_arfcns : pystr; lte_pcis : pystr;
  nr_type : Z; nr_bands : pystr; nr_arfcns : pystr; nr_scs_types : pystr; nr_pcis : pystr
}.

(** The literal [unlock_config] of [monitor_loop]. *)
Definition unlock_config : lock_config := mk_lock_config 0 [] [] [] 0 [] [] [] [].

Inductive mode : Type := night | day.

#[global] Instance mode_eq_decision : EqDecision mode.
Proof. solve_decision. Defined.

Definition mode_name (m : mode) : pystr :=
  match m with
  | night => u "night"
  | day => u "day"
  end.

(** The fields of [ScheduleFrequencyLock] the loop uses;
    [get_lock_config_for_mode] reads [night_config] and [day_config]. *)
Record ScheduleFrequencyLock : Type := mk_schedule {
  check_interval : Z;
  timeout : Z;
  unlock_lte : bool;
  unlock_nr : bool;
  toggle_airplane : bool;
  night_config : lock_config;
  day_config : lock_config;
  last_service_time : Z;
  is_switching : bool;
  switch_count : Z;
  current_mode : option mode
}.

(** The world around the controller: the clock, what the modem will
    answer to the next commands and how long each answer takes, the
    commands sent so far and the notifications made so far. *)
Record world : Type := mk_world {
  clock : Z;
  replies : list (bytes * Z);
  sent : list pystr;
  notified : list effect
}.

(** A coroutine of the controller: it may change the object and the
    world, and it returns or raises. *)
Definition M (A : Type) : Type :=
  ScheduleFrequencyLock * world -> result A * (ScheduleFrequencyLock * world).

#[global] Instance M_ret : MRet M := fun A a s => (Ok a, s).
#[global] Instance M_bind : MBind M := fun A B k m s =>
  match m s with
  | (Ok a, s') => k a s'
  | (Raise e, s') => (Raise e, s')
  end.

Definition get_self : M ScheduleFrequencyLock := fun s => (Ok s.1, s).
Definition set_self (f : ScheduleFrequencyLock -> ScheduleFrequencyLock) : M unit :=
  fun s => (Ok (), (f s.1, s.2)).

(** [try: m  except Exception as e: h e] *)
Definition try_except {A} (m : M A) (h : exn -> M A) : M A := fun s =>
  match m s with
  | (Raise e, s') => if is_Exception e then h e s' else (Raise e, s')
  | r => r
  end.

(** [try: m  finally: f] *)
Definition try_finally {A} (m : M A) (f : M unit) : M A := fun s =>
  match m s with
  | (r, s') =>
      match f s' with
      | (Ok _, s'') => (r, s'')
      | (Raise e, s'') => (Raise e, s'')
      end
  end.

(** [await self.client.send_command(command)]: the next answer of the
    modem, or the empty response when there is none.  [send_command]
    raises no [Exception]. *)
Definition send_command (command : pystr) : M bytes := fun s =>
  let w := s.2 in
  match replies w with
  | [] => (Ok [], (s.1, mk_world (clock w) [] (sent w ++ [command]) (notified w)))
  | (response, elapsed) :: rest =>
      (Ok response,
       (s.1, mk_world (clock w + elapsed) rest (sent w ++ [command]) (notified w)))
  end.

(** [await asyncio.sleep(seconds)] *)
Definition sleep (seconds : Z) : M unit := fun s =>
  let w := s.2 in
  (Ok (), (s.1, mk_world (clock w + seconds) (replies w) (sent w) (notified w))).

(** [time.time()] *)
Definition time : M Z := fun s => (Ok (clock s.2), s).

(** [await self.client.notification_manager.notify_all(...)] *)
Definition notify_all (sender content notification_type : pystr) : M unit := fun s =>
  let w := s.2 in
  (Ok (), (s.1, mk_world (clock w) (replies w) (sent w)
                  (notified w ++ [NotifyAll sender content notification_type false]))).

(** [response.decode('ascii', errors='ignore')] *)
Definition decode_ascii_ignore (response : bytes) : pystr :=
  omap (fun b => if byte_val b <? 128 then Some (Z.to_N (byte_val b)) else None) response.

Definition CRLF : pystr := [13%N; 10%N].

(** ['+CREG: 0,1' in text or '+CREG: 0,5' in text], and the same for
    [+CEREG]. *)
Definition registered (prefix : pystr) (response_text : pystr) : bool :=
  contains (prefix ++ u ": 0,1") response_text
  || contains (prefix ++ u ": 0,5") response_text.

Definition check_network_status : M bool :=
  try_except
    (response ← send_command (u "AT+CREG?" ++ CRLF);
     let response_text := decode_ascii_ignore response in
     if registered (u "+CREG") response_text then mret true
     else
       response ← send_command (u "AT+CEREG?" ++ CRLF);
       let response_text := decode_ascii_ignore response in
       if registered (u "+CEREG") response_text then mret true
       else mret false)
    (fun _ => mret false).

(** [str.isspace] for one character, [s.strip()] and [s.split(',')]. *)
Definition isspace (c : N) : bool :=
  ((9 <=? c) && (c <=? 13) || (28 <=? c) && (c <=? 32) || (c =? 133) || (c =? 160)
   || (c =? 5760) || (8192 <=? c) && (c <=? 8202) || (c =? 8232) || (c =? 8233)
   || (c =? 8239) || (c =? 8287) || (c =? 12288))%N.

Definition strip (s : pystr) : pystr :=
  reverse (Calls.drop_while isspace (reverse (Calls.drop_while isspace s))).

Fixpoint split_comma (s : pystr) : list pystr :=
  match s with
  | [] => [[]]
  | c :: s' =>
      if (c =? 44)%N then [] :: split_comma s'
      else match split_comma s' with
           | piece :: pieces => (c :: piece) :: pieces
           | [] => [[c]]
           end
  end.

(** [[b.strip() for b in bands.split(',') if b.strip()]] *)
Definition bands_list (bands : pystr) : list pystr :=
  List.filter (fun b => negb (bool_decide (b = []))) (map strip (split_comma bands)).

Definition ok_in (response : bytes) : bool :=
  contains (u "OK") (decode_ascii_ignore response).

(** ["、".join(operations)] *)
Fixpoint join_operations (operations : list pystr) : pystr :=
  match operations with
  | [] => []
  | [x] => x
  | x :: rest => x ++ u "、" ++ join_operations rest
  end.

Section Lock.

(** [time.strftime('%Y-%m-%d %H:%M:%S')] at a clock reading, and the two
    command builders [_build_lte_command] and [_build_nr_command], which
    only the branches for a lock type above 0 call. *)
Variable strftime : Z -> pystr.
Variable _build_lte_command : Z -> list pystr -> pystr -> pystr -> result pystr.
Variable _build_nr_command : Z -> list pystr -> pystr -> pystr -> pystr -> result pystr.

Definition lift {A} (r : result A) : M A := fun s => (r, s).

(** Step 2 (and, with the NR names, step 3) of [set_frequency_lock]: the
    operations list after the step. *)
Definition lock_step (type : Z) (bands : pystr) (build : list pystr -> result pystr)
    (unlock : bool) (unlock_command locked_name unlocked_name : pystr)
    (operations : list pystr) : M (list pystr) :=
  if type >? 0 then
    if negb (bool_decide (bands = [])) && negb (bool_decide (strip bands = [])) then
      match bands_list bands with
      | [] => mret operations
      | bs =>
          command ← lift (build bs);
          response ← send_command command;
          let operations :=
            if ok_in response
            then operations ++ [locked_name ++ u "(类型" ++ str_of_Z type ++ u ")"]
            else operations in
          _ ← sleep 1;
          mret operations
      end
    else mret operations
  else
    if unlock then
      response ← send_command unlock_command;
      let operations :=
        if ok_in response then operations ++ [unlocked_name] else operations in
      _ ← sleep 1;
      mret operations
    else mret operations.

Definition switch_message (now : Z) (mode_text : pystr) (config : lock_config)
    (operations : list pystr) (count : Z) : pystr :=
  let ops_text :=
    match operations with
    | [] => u "未执行任何操作"
    | _ => join_operations operations
    end in
  let lte_info :=
    if lte_type config >? 0 then u "LTE类型" ++ str_of_Z (lte_type config) else u "LTE解锁" in
  let nr_info :=
    if nr_type config >? 0 then u "NR类型" ++ str_of_Z (nr_type config) else u "NR解锁" in
  u "🔄 定时锁频切换" ++ [10%N]
  ++ u "时间: " ++ strftime now ++ [10%N]
  ++ u "模式: " ++ mode_text ++ u "模式" ++ [10%N]
  ++ u "LTE: " ++ lte_info ++ [10%N]
  ++ u "NR: " ++ nr_info ++ [10%N]
  ++ u "执行操作: " ++ ops_text ++ [10%N]
  ++ u "切换次数: 第 " ++ str_of_Z count ++ u " 次".

Definition set_switching (b : bool) (self : ScheduleFrequencyLock) : ScheduleFrequencyLock :=
  mk_schedule (check_interval self) (timeout self) (unlock_lte self) (unlock_nr self)
    (toggle_airplane self) (night_config self) (day_config self)
    (last_service_time self) b (switch_count self) (current_mode self).

Definition count_switch (self : ScheduleFrequencyLock) : ScheduleFrequencyLock :=
  mk_schedule (check_interval self) (timeout self) (unlock_lte self) (unlock_nr self)
    (toggle_airplane self) (night_config self) (day_config self)
    (last_service_time self) (is_switching self) (switch_count self + 1) (current_mode self).

Definition set_last_service_time (t : Z) (self : ScheduleFrequencyLock) : ScheduleFrequencyLock :=
  mk_schedule (check_interval self) (timeout self) (unlock_lte self) (unlock_nr self)
    (toggle_airplane self) (night_config self) (day_config self)
    t (is_switching self) (switch_count self) (current_mode self).

Definition set_current_mode (m : option mode) (self : ScheduleFrequencyLock) : ScheduleFrequencyLock :=
  mk_schedule (check_interval self) (timeout self) (unlock_lte self) (unlock_nr self)
    (toggle_airplane self) (night_config self) (day_config self)
    (last_service_time self) (is_switching self) (switch_count self) m.

(** [set_frequency_lock(config, mode)] (its log records are left out). *)
Definition set_frequency_lock (config : lock_config) (mode_text : pystr) : M unit :=
  self ← get_self;
  if is_switching self then mret ()
  else
    _ ← set_self (set_switching true);
    _ ← set_self count_switch;
    try_finally
      (try_except
         (self ← get_self;
          _ ← (if toggle_airplane self then
                 response ← send_command (u "AT+CFUN=0" ++ CRLF);
                 if ok_in response then sleep 2 else mret ()
               else mret ());
          operations ← lock_step (lte_type config) (lte_bands config)
                          (fun bs => _build_lte_command (lte_type config) bs
                                       (lte_arfcns config) (lte_pcis config))
                          (unlock_lte self) (u "AT^LTEFREQLOCK=0" ++ CRLF)
                          (u "LTE锁频") (u "LTE解锁") [];
          operations ← lock_step (nr_type config) (nr_bands config)
                          (fun bs => _build_nr_command (nr_type config) bs
                                       (nr_arfcns config) (nr_scs_types config)
                                       (nr_pcis config))
                          (unlock_nr self) (u "AT^NRFREQLOCK=0" ++ CRLF)
                          (u "NR锁频") (u "NR解锁") operations;
          operations ← (if toggle_airplane self then
                          response ← send_command (u "AT+CFUN=1" ++ CRLF);
                          let operations :=
                            if ok_in response then operations ++ [u "切飞行模式"]
                            else operations in
                          _ ← sleep 3;
                          mret operations
                        else mret operations);
          now ← time;
          notify_all (u "定时锁频切换")
            (switch_message now mode_text config operations (switch_count self))
            (u "SIGNAL"))
         (fun _ => mret ()))
      (set_self (set_switching false)).

(** The first half of a round of [monitor_loop]: follow the mode that
    [get_current_mode()] returned. *)
Definition follow_mode (target_mode : option mode) : M unit :=
  self ← get_self;
  match target_mode with
  | Some m =>
      if negb (bool_decide (Some m = current_mode self)) then
        let config := match m with night => night_config self | day => day_config self end in
        _ ← set_frequency_lock config (mode_name m);
        set_self (set_current_mode (Some m))
      else mret ()
  | None =>
      match current_mode self with
      | Some _ =>
          _ ← set_frequency_lock unlock_config (u "解锁");
          set_self (set_current_mode None)
      | None => mret ()
      end
  end.

(** The second half: the no-service watchdog. *)
Definition watch_service : M unit :=
  check_network_status ≫= fun has_service : bool =>
  if has_service then
    (now ← time;
     set_self (set_last_service_time now) : M unit)
  else
    (now ← time;
     self ← get_self;
     let no_service_duration := now - last_service_time self in
     if no_service_duration >=? timeout self then
       (_ ← set_frequency_lock unlock_config (u "恢复");
        now ← time;
        set_self (set_last_service_time now) : M unit)
     else mret () : M unit).

(** One round of the [while True] loop of [monitor_loop].  The awaited
    calls of this model ([send_command], [sleep], [notify_all]) always
    return, so the round is one in which the task is not cancelled, and
    [except asyncio.CancelledError: break] has nothing to catch. *)
Definition monitor_round (target_mode : option mode) : M unit :=
  self ← get_self;
  try_except
    (_ ← follow_mode target_mode;
     _ ← watch_service;
     sleep (check_interval self))
    (fun _ => sleep (check_interval self)).

End Lock.

(** The commands of the unlock sequence, as the controller is configured. *)
Definition unlock_commands (self : ScheduleFrequencyLock) : list pystr :=
  (if toggle_airplane self then [u "AT+CFUN=0" ++ CRLF] else [])
  ++ (if unlock_lte self then [u "AT^LTEFREQLOCK=0" ++ CRLF] else [])
  ++ (if unlock_nr self then [u "AT^NRFREQLOCK=0" ++ CRLF] else [])
  ++ (if toggle_airplane self then [u "AT+CFUN=1" ++ CRLF] else []).

(** The answers to the next two commands, empty when the modem is silent. *)
Definition reply (k : nat) (w : world) : bytes :=
  match replies w !! k with
  | Some (response, _) => response
  | None => []
  end.

(** [m], started in [s], returns normally, and its result, the
    controller and the world it leaves satisfy [Q]. *)
Definition runs {A} (m : M A) (s : ScheduleFrequencyLock * world)
    (Q : A -> ScheduleFrequencyLock -> world -> Prop) : Prop :=
  exists a self' w', m s = (Ok a, (self', w')) /\ Q a self' w'.

(** The default of the [TIMEOUT] option of the schedule configuration. *)
Definition default_timeout : Z := 180.

End Schedule.

(* ===================================================================== *)
(** ** Shapes of PDU data, for stating properties of the decoder *)
(* ===================================================================== *)

Module PduData.

(** The address digits of a PDU: two decimal digits to the octet, the
    first in the low half, and [0xF] filling the high half of the last
    octet when the number of digits is odd. *)
Fixpoint encode_number (digits : list Z) : bytes :=
  match digits with
  | [] => []
  | [d] => [byte_of_Z (d + 16 * 15)]
  | d1 :: d2 :: rest => byte_of_Z (d1 + 16 * d2) :: encode_number rest
  end.

(** Decimal digits as text. *)
Definition digits_text (digits : list Z) : pystr :=
  map (fun d => Z.to_N (d + 48)) digits.

(** The number of septets [n] octets carry, the last one padded. *)
Definition septets_of (n : Z) : Z := (8 * n + 6) / 7.

(** A [datetime] that [strptime] can have built from two-digit fields. *)
Definition calendar_date (d : Pdu.datetime) : Prop :=
  2010 <= Pdu.year d <= 2099
  /\ 1 <= Pdu.month d <= 12
  /\ 1 <= Pdu.day d <= Pdu.days_in_month (Pdu.year d) (Pdu.month d)
  /\ 0 <= Pdu.hour d <= 23
  /\ 0 <= Pdu.minute d <= 59
  /\ 0 <= Pdu.second d <= 59.

(** The number a sequence of octets spells, the first octet lowest, and
    the number a sequence of septets spells likewise. *)
Fixpoint octets_value (bs : bytes) : Z :=
  match bs with
  | [] => 0
  | b :: bs' => byte_val b + 256 * octets_value bs'
  end.

Fixpoint septets_value (r : list Z) : Z :=
  match r with
  | [] => 0
  | x :: r' => x + 128 * septets_value r'
  end.

(** The [i]-th septet of the octets: bits [7 * i] to [7 * i + 6] of the
    bit stream, the lowest bit of the first octet being bit 0. *)
Definition septet_at (bs : bytes) (i : nat) : Z :=
  (octets_value bs / 2 ^ (7 * Z.of_nat i)) mod 128.

End PduData.

(* ===================================================================== *)
(** ** MessageProcessor and the handlers it holds *)
(* ===================================================================== *)

Module Processor.

Import Effects.

(** What the end of a call with [number] sends out at [time_str]. *)
Definition ended_effects (time_str number : pystr) : list effect :=
  [NotifyAll Calls.sender_label (Calls.ended_content time_str number) (u "CALL") false;
   Broadcast (Calls.incoming_call time_str number (u "ended"))].

(** [CallHandler.can_handle] *)
Module CallHandler.

Definition can_handle (line : pystr) : bool :=
  contains (u "RING") line
  || contains (u "IRING") line
  || startswith (u "+CLIP:") line
  || contains (u "^CEND:") line
  || contains (u "NO CARRIER") line.

End CallHandler.

(** [MemoryFullHandler] *)
Module MemoryFullHandler.

Record MemoryFullHandler : Type := mk_handler { notified : bool }.

Definition init : MemoryFullHandler := mk_handler false.

Definition can_handle (line : pystr) : bool :=
  contains (u "CMS ERROR: 322") line
  || contains (u "MEMORY FULL") line
  || contains (u "^SMMEMFULL") line.

Definition handle (self : MemoryFullHandler) (line : pystr)
  : MemoryFullHandler * list effect :=
  if negb (notified self)
  then (mk_handler true, [NotifyAll [] [] (u "MEMORY_FULL") true])
  else (self, []).

(** [handle] on one line after the other. *)
Fixpoint handle_all (self : MemoryFullHandler) (lines : list pystr)
  : MemoryFullHandler * list effect :=
  match lines with
  | [] => (self, [])
  | line :: lines' =>
      let '(self', effects) := handle self line in
      let '(self'', effects') := handle_all self' lines' in
      (self'', effects ++ effects')
  end.

End MemoryFullHandler.

(** [NewSMSHandler.can_handle]: [re.match] of [\+CMTI: Q(ME|SM)Q,(\d+)],
    where Q stands for the double quote, at the start of the line.  The
    digits are ASCII digits or other decimal digits of Unicode, which
    [is_decimal] tells. *)
Module NewSMSHandler.

Section Digits.

Variable is_decimal : N -> bool.

Definition storage_and_index (line : pystr) : option (pystr * pystr) :=
  if startswith (u "+CMTI: ") line then
    match drop 7 line with
    | q1 :: a :: b :: q2 :: comma :: rest =>
        if bool_decide (q1 = 34%N) && bool_decide (q2 = 34%N) && bool_decide (comma = 44%N)
           && (bool_decide ([a; b] = u "ME") || bool_decide ([a; b] = u "SM"))
        then
          match Calls.take_while is_decimal rest with
          | [] => None
          | index => Some ([a; b], index)
          end
        else None
    | _ => None
    end
  else None.

Definition can_handle (line : pystr) : bool :=
  bool_decide (is_Some (storage_and_index line)).

End Digits.

End NewSMSHandler.

(** [NetworkSignalHandler.can_handle] and [PDCPDataHandler.can_handle] *)
Module NetworkSignalHandler.

Definition can_handle (line : pystr) : bool :=
  contains (u "^CERSSI:") line || contains (u "^HCSQ:") line.

End NetworkSignalHandler.

Module PDCPDataHandler.

Definition can_handle (line : pystr) : bool :=
  startswith (u "^PDCPDATAINFO:") line.

End PDCPDataHandler.

(** The handlers of [MessageProcessor], in the order of [self.handlers]. *)
Inductive handler : Type :=
  | Call | MemoryFull | NewSMS | NetworkSignal | PDCPData.

#[global] Instance handler_eq_decision : EqDecision handler.
Proof. solve_decision. Defined.

Definition handlers : list handler := [Call; MemoryFull; NewSMS; NetworkSignal; PDCPData].

Section Process.

Variable is_decimal : N -> bool.

Definition can_handle (h : handler) (line : pystr) : bool :=
  match h with
  | Call => CallHandler.can_handle line
  | MemoryFull => MemoryFullHandler.can_handle line
  | NewSMS => NewSMSHandler.can_handle is_decimal line
  | NetworkSignal => NetworkSignalHandler.can_handle line
  | PDCPData => PDCPDataHandler.can_handle line
  end.

(** [process(line, client)]: the handler whose [handle] is awaited, the
    first that accepts the line, if any. *)
Definition process (line : pystr) : option handler :=
  List.find (fun h => can_handle h line) handlers.

End Process.

End Processor.

(* ===================================================================== *)
(** ** WeChatNotification: the queue and the digest *)
(* ===================================================================== *)

Module WeChatQueue.

(** An item of the queue: [(sender, content, is_memory_full)]. *)
Abbreviation message := (pystr * pystr * bool)%type.

(** The fields [_process_queue] reads and writes. *)
Record WeChatNotification : Type := mk_wechat {
  send_interval : Z;
  _last_send_time : Z;
  _pending_messages : list message
}.

(** [WeChatNotification.__init__] *)
Definition init : WeChatNotification := mk_wechat 60 0 [].

Definition max_pending_messages : Z := 1000.

(** The text of a lone message. *)
Definition single_text (m : message) : pystr :=
  let '(sender, content, is_memory_full) := m in
  if is_memory_full
  then u "⚠️ 警告：短信存储空间已满" ++ [10%N] ++ u "请及时处理，否则可能无法接收新短信"
  else if bool_decide (sender = u "来电提醒") then u "📞 来电提醒" ++ [10%N] ++ content
  else if bool_decide (sender = u "信号监控") then content
  else u "📱 新短信通知" ++ [10%N] ++ u "发送者: " ++ sender ++ [10%N] ++ u "内容: " ++ content.

(** What one round of the [for] loop adds to [combined]. *)
Definition digest_entry (i : Z) (m : message) : pystr :=
  let '(sender, content, is_memory_full) := m in
  (if is_memory_full
   then [10%N] ++ str_of_Z i ++ u ". ⚠️ 存储空间已满警告"
   else if bool_decide (sender = u "来电提醒")
   then [10%N] ++ str_of_Z i ++ u ". 📞 " ++ content
   else if bool_decide (sender = u "信号监控")
   then [10%N] ++ str_of_Z i ++ u ". 📶 " ++ content
   else [10%N] ++ str_of_Z i ++ u ". 📱 来自 " ++ sender ++ u " 的短信:" ++ [10%N] ++ content)
  ++ [10%N] ++ str_repeat 45%N 20.

(** [for i, (...) in enumerate(messages, 1)] *)
Fixpoint digest (i : Z) (messages : list message) : pystr :=
  match messages with
  | [] => []
  | m :: messages' => digest_entry i m ++ digest (i + 1) messages'
  end.

Definition _combine_messages (messages : list message) : pystr :=
  match messages with
  | [] => []
  | [m] => single_text m
  | _ => u "📑 批量通知汇总" ++ [10%N] ++ str_repeat 61%N 20 ++ [10%N] ++ digest 1 messages
  end.

(** The list after a message has been taken from the queue. *)
Definition enqueue (pending : list message) (m : message) : list message :=
  if len pending <? max_pending_messages
  then pending ++ [m]
  else drop 1 pending ++ [m].

(** A batch handed to [_combine_messages], with the clock reading of the
    round; its text goes to
    [asyncio.create_task(self._do_send("批量通知", combined_message, False))]. *)
Record flush : Type := mk_flush {
  flush_time : Z;
  flush_batch : list message
}.

Definition flush_call (f : flush) : message :=
  (u "批量通知", _combine_messages (flush_batch f), false).

(** One round of the [while self._running] loop: [got] is the item
    [self._queue.get()] delivered within its second, if any, and
    [current_time] the reading of [time.time()].  Nothing in the round
    raises. *)
Definition process_round (self : WeChatNotification) (got : option message)
    (current_time : Z) : WeChatNotification * option flush :=
  let pending :=
    match got with
    | Some m => enqueue (_pending_messages self) m
    | None => _pending_messages self
    end in
  if negb (bool_decide (pending = []))
     && (current_time - _last_send_time self >=? send_interval self)
  then (mk_wechat (send_interval self) current_time [],
        Some (mk_flush current_time pending))
  else (mk_wechat (send_interval self) (_last_send_time self) pending, None).

(** The rounds of [_process_queue], one after the other. *)
Fixpoint _process_queue (self : WeChatNotification) (rounds : list (option message * Z))
  : WeChatNotification * list flush :=
  match rounds with
  | [] => (self, [])
  | (got, current_time) :: rounds' =>
      let '(self', sent) := process_round self got current_time in
      let '(self'', flushes) := _process_queue self' rounds' in
      (self'', match sent with Some f => f :: flushes | None => flushes end)
  end.

(** The messages the rounds took from the queue. *)
Definition received (rounds : list (option message * Z)) : list message :=
  omap fst rounds.

(** Flush times at least [interval] apart, the first that far from [last]. *)
Fixpoint spaced (interval last : Z) (times : list Z) : Prop :=
  match times with
  | [] => True
  | t :: times' => t - last >= interval /\ spaced interval t times'
  end.

End WeChatQueue.

(* ===================================================================== *)
(** ** ScheduleFrequencyLock: the night window and the command builders *)
(* ===================================================================== *)

Module FrequencyLock.

Import Dict Schedule.

(** [s.split(sep)] for a separator of one character, and [sep.join(l)]. *)
Fixpoint split (sep : N) (s : pystr) : list pystr :=
  match s with
  | [] => [[]]
  | c :: s' =>
      if (c =? sep)%N then [] :: split sep s'
      else match split sep s' with
           | piece :: pieces => (c :: piece) :: pieces
           | [] => [[c]]
           end
  end.

Fixpoint join (sep : pystr) (l : list pystr) : pystr :=
  match l with
  | [] => []
  | [x] => x
  | x :: rest => x ++ sep ++ join sep rest
  end.

(** The argument [bands] of the builders: the annotation says [str], and
    [set_frequency_lock] passes the list it has made of the bands. *)
Inductive bands_arg : Type :=
  | BandsStr (s : pystr)
  | BandsList (l : list pystr).

(** [bands.split(',')]: a [str] has the method, a [list] has not. *)
Definition split_bands (bands : bands_arg) : result (list pystr) :=
  match bands with
  | BandsStr s => Ok (split_comma s)
  | BandsList _ => Raise AttributeError
  end.

(** [[b.strip() for b in pieces if b.strip()]] *)
Definition stripped (pieces : list pystr) : list pystr :=
  List.filter (fun b => negb (bool_decide (b = []))) (map strip pieces).

(** The [band_ranges] of [_is_valid_lte_band_arfcn_pair] and of
    [_is_valid_nr_band_arfcn_pair]. *)
Definition lte_band_ranges : dict Z (Z * Z) :=
  [(1, (0, 599)); (2, (600, 1199)); (3, (1200, 1949)); (4, (1950, 2399));
   (5, (2400, 2649)); (7, (2750, 3449)); (8, (3450, 3799)); (12, (5010, 5179));
   (13, (5180, 5279)); (17, (5730, 5849)); (18, (5850, 5999)); (19, (6000, 6149));
   (20, (6150, 6449)); (25, (8040, 8689)); (26, (8690, 9039)); (28, (9210, 9659));
   (38, (37750, 38249)); (39, (38250, 38649)); (40, (38650, 39649));
   (41, (39650, 41589)); (42, (41590, 43589)); (43, (43590, 45589));
   (66, (66436, 67335))].

Definition nr_band_ranges : dict Z (Z * Z) :=
  [(1, (0, 599)); (3, (1200, 1949)); (5, (2400, 2649)); (7, (2750, 3449));
   (8, (3450, 3799)); (12, (5010, 5179)); (20, (6150, 6449)); (25, (8040, 8689));
   (28, (9210, 9659)); (34, (20167, 20265)); (38, (37750, 38249));
   (39, (38250, 38649)); (40, (38650, 39649)); (41, (39650, 41589));
   (42, (41590, 43589)); (43, (43590, 45589)); (48, (55240, 56739));
   (66, (66436, 67335)); (71, (132600, 133189)); (77, (620000, 680000));
   (78, (620000, 680000)); (79, (440000, 500000)); (257, (2016667, 2079166));
   (258, (2016667, 2079166)); (260, (2016667, 2079166)); (261, (2016667, 2079166))].

Definition in_band_ranges (band_ranges : dict Z (Z * Z)) (band arfcn : Z) : bool :=
  match Dict.get band band_ranges with
  | Some (min_arfcn, max_arfcn) => (min_arfcn <=? arfcn) && (arfcn <=? max_arfcn)
  | None => true
  end.

Definition _is_valid_lte_band_arfcn_pair (band arfcn : Z) : bool :=
  in_band_ranges lte_band_ranges band arfcn.

Definition _is_valid_nr_band_arfcn_pair (band arfcn : Z) : bool :=
  in_band_ranges nr_band_ranges band arfcn.

(** [x in [a, b, ...]] for integers. *)
Definition among (x : Z) (l : list Z) : bool := bool_decide (x ∈ l).

Definition unlock_lte_command : pystr := u "AT^LTEFREQLOCK=0" ++ CRLF.
Definition unlock_nr_command : pystr := u "AT^NRFREQLOCK=0" ++ CRLF.

(** [f'"{",".join(items)}"'] *)
Definition quoted (items : list pystr) : pystr :=
  [34%N] ++ join (u ",") items ++ [34%N].

(** The clock of [datetime.now()] as [is_night_time] reads it. *)
Record clock_reading : Type := mk_reading { now_hour : Z; now_minute : Z }.

(** The settings [is_night_time] and [get_current_mode] read. *)
Record window : Type := mk_window {
  night_enabled : bool;
  night_start : pystr;
  night_end : pystr;
  day_enabled : bool
}.

Section Int.

(** [int(s)] for a string. *)
Variable int : pystr -> result Z.

(** [hour, minute = map(int, s.split(':'))]: the unpacking takes two
    items from the map and asks for a third; a third item, or a missing
    second one, is a [ValueError]. *)
Definition hour_minute (s : pystr) : result (Z * Z) :=
  match split 58%N s with
  | [] => Raise ValueError
  | [a] => _ ← int a; Raise ValueError
  | [a; b] => h ← int a; m ← int b; Ok (h, m)
  | a :: b :: c :: _ => _ ← int a; _ ← int b; _ ← int c; Raise ValueError
  end.

Definition in_window (start_minutes end_minutes current_minutes : Z) : bool :=
  if start_minutes >? end_minutes
  then (current_minutes >=? start_minutes) || (current_minutes <? end_minutes)
  else (start_minutes <=? current_minutes) && (current_minutes <? end_minutes).

Definition is_night_time (self : window) (now : clock_reading) : result bool :=
  try_except_Exception
    ('(start_hour, start_min) ← hour_minute (night_start self);
     '(end_hour, end_min) ← hour_minute (night_end self);
     let start_minutes := start_hour * 60 + start_min in
     let end_minutes := end_hour * 60 + end_min in
     let current_minutes := now_hour now * 60 + now_minute now in
     Ok (in_window start_minutes end_minutes current_minutes))
    (fun _ => Ok false).

(** [get_current_mode]: [is_night_time] is called once, and once more
    when the first test fails; each call reads the clock. *)
Definition get_current_mode (self : window) (now1 now2 : clock_reading)
  : result (option mode) :=
  n1 ← is_night_time self now1;
  if n1 && night_enabled self then Ok (Some night)
  else
    n2 ← is_night_time self now2;
    if negb n2 && day_enabled self then Ok (Some day)
    else Ok None.

(** The loop of the two validators, under their [try]. *)
Fixpoint validate_pairs (valid : Z -> Z -> bool) (pairs : list (pystr * pystr))
  : result bool :=
  match pairs with
  | [] => Ok true
  | (band, arfcn) :: pairs' =>
      band_num ← int band;
      arfcn_num ← int arfcn;
      if negb (valid band_num arfcn_num) then Ok false
      else validate_pairs valid pairs'
  end.

(** [except (ValueError, IndexError): return False] *)
Definition except_value_index {A} (m : result A) (a : A) : result A :=
  match m with
  | Raise ValueError | Raise IndexError => Ok a
  | r => r
  end.

Definition _validate_lte_band_arfcn_pairs (bands arfcns : list pystr) : result bool :=
  except_value_index
    (validate_pairs _is_valid_lte_band_arfcn_pair (zip bands arfcns)) false.

Definition _validate_nr_band_arfcn_pairs (bands arfcns : list pystr) : result bool :=
  except_value_index
    (validate_pairs _is_valid_nr_band_arfcn_pair (zip bands arfcns)) false.

(** The body of the [for] loop of [_auto_detect_scs_types] for the band
    at index [i], and the loop. *)
Definition detect_scs (arfcns : list pystr) (i : Z) (band : pystr) : result pystr :=
  except_value_index
    (a ← getitem arfcns i;
     arfcn ← int a;
     band_num ← int band;
     if among band_num [78; 79; 258; 260] then Ok (u "1")
     else if among band_num [41; 77] then Ok (u "1")
     else if among band_num [28; 71] then Ok (u "0")
     else Ok (u "1"))
    (u "1").

Fixpoint detect_from (arfcns : list pystr) (i : Z) (bands : list pystr)
  : result (list pystr) :=
  match bands with
  | [] => Ok []
  | band :: bands' =>
      scs ← detect_scs arfcns i band;
      rest ← detect_from arfcns (i + 1) bands';
      Ok (scs :: rest)
  end.

Definition _auto_detect_scs_types (bands arfcns : list pystr) : result (list pystr) :=
  detect_from arfcns 0 bands.

Definition _build_lte_command (lock_type : Z) (bands : bands_arg) (arfcns pcis : pystr)
  : result pystr :=
  if lock_type =? 0 then Ok unlock_lte_command
  else if lock_type =? 3 then
    pieces ← split_bands bands;
    let band_list := stripped pieces in
    if bool_decide (band_list = []) then Ok unlock_lte_command
    else Ok (u "AT^LTEFREQLOCK=3,0," ++ str_of_Z (len band_list) ++ u ","
             ++ quoted band_list ++ CRLF)
  else if lock_type =? 1 then
    pieces ← split_bands bands;
    let band_list := stripped pieces in
    let arfcn_list := bands_list arfcns in
    if bool_decide (band_list = []) || bool_decide (arfcn_list = [])
       || negb (len band_list =? len arfcn_list)
    then Ok unlock_lte_command
    else
      valid ← _validate_lte_band_arfcn_pairs band_list arfcn_list;
      if negb valid then Ok unlock_lte_command
      else Ok (u "AT^LTEFREQLOCK=1,0," ++ str_of_Z (len band_list) ++ u ","
               ++ quoted band_list ++ u "," ++ quoted arfcn_list ++ CRLF)
  else if lock_type =? 2 then
    pieces ← split_bands bands;
    let band_list := stripped pieces in
    let arfcn_list := bands_list arfcns in
    let pci_list := bands_list pcis in
    if bool_decide (band_list = []) || bool_decide (arfcn_list = [])
       || bool_decide (pci_list = [])
       || negb (len band_list =? len arfcn_list)
       || negb (len arfcn_list =? len pci_list)
    then Ok unlock_lte_command
    else
      valid ← _validate_lte_band_arfcn_pairs band_list arfcn_list;
      if negb valid then Ok unlock_lte_command
      else Ok (u "AT^LTEFREQLOCK=2,0," ++ str_of_Z (len band_list) ++ u ","
               ++ quoted band_list ++ u "," ++ quoted arfcn_list ++ u ","
               ++ quoted pci_list ++ CRLF)
  else Ok unlock_lte_command.

(** [scs_list = [...] if scs_types else []], then the automatic choice
    when the list is empty. *)
Definition scs_list_of (scs_types : pystr) (band_list arfcn_list : list pystr)
  : result (list pystr) :=
  let scs_list := if bool_decide (scs_types = []) then [] else bands_list scs_types in
  if bool_decide (scs_list = []) && negb (bool_decide (arfcn_list = []))
  then _auto_detect_scs_types band_list arfcn_list
  else Ok scs_list.

Definition _build_nr_command (lock_type : Z) (bands : bands_arg)
    (arfcns scs_types pcis : pystr) : result pystr :=
  if lock_type =? 0 then Ok unlock_nr_command
  else if lock_type =? 3 then
    pieces ← split_bands bands;
    let band_list := stripped pieces in
    if bool_decide (band_list = []) then Ok unlock_nr_command
    else Ok (u "AT^NRFREQLOCK=3,0," ++ str_of_Z (len band_list) ++ u ","
             ++ quoted band_list ++ CRLF)
  else if lock_type =? 1 then
    pieces ← split_bands bands;
    let band_list := stripped pieces in
    let arfcn_list := bands_list arfcns in
    if bool_decide (band_list = []) || bool_decide (arfcn_list = [])
       || negb (len band_list =? len arfcn_list)
    then Ok unlock_nr_command
    else
      scs_list ← scs_list_of scs_types band_list arfcn_list;
      if bool_decide (scs_list = []) || negb (len scs_list =? len band_list)
      then Ok unlock_nr_command
      else
        valid ← _validate_nr_band_arfcn_pairs band_list arfcn_list;
        if negb valid then Ok unlock_nr_command
        else Ok (u "AT^NRFREQLOCK=1,0," ++ str_of_Z (len band_list) ++ u ","
                 ++ quoted band_list ++ u "," ++ quoted arfcn_list ++ u ","
                 ++ quoted scs_list ++ CRLF)
  else if lock_type =? 2 then
    pieces ← split_bands bands;
    let band_list := stripped pieces in
    let arfcn_list := bands_list arfcns in
    let pci_list := bands_list pcis in
    if bool_decide (band_list = []) || bool_decide (arfcn_list = [])
       || bool_decide (pci_list = [])
       || negb (len band_list =? len arfcn_list)
       || negb (len arfcn_list =? len pci_list)
    then Ok unlock_nr_command
    else
      scs_list ← scs_list_of scs_types band_list arfcn_list;
      if bool_decide (scs_list = []) || negb (len scs_list =? len band_list)
      then Ok unlock_nr_command
      else
        valid ← _validate_nr_band_arfcn_pairs band_list arfcn_list;
        if negb valid then Ok unlock_nr_command
        else Ok (u "AT^NRFREQLOCK=2,0," ++ str_of_Z (len band_list) ++ u ","
                 ++ quoted band_list ++ u "," ++ quoted arfcn_list ++ u ","
                 ++ quoted scs_list ++ u "," ++ quoted pci_list ++ CRLF)
  else Ok unlock_nr_command.

(** The builders as [set_frequency_lock] calls them: with the list of
    bands it has made. *)
Definition lte_builder (lock_type : Z) (bands_list : list pystr) (arfcns pcis : pystr)
  : result pystr :=
  _build_lte_command lock_type (BandsList bands_list) arfcns pcis.

Definition nr_builder (lock_type : Z) (bands_list : list pystr)
    (arfcns scs_types pcis : pystr) : result pystr :=
  _build_nr_command lock_type (BandsList bands_list) arfcns scs_types pcis.

End Int.

(** [int(s)] only ever raises [ValueError]. *)
Definition raises_only_ValueError (int : pystr -> result Z) : Prop :=
  forall s e, int s = Raise e -> e = ValueError.

(** [int(s)] for a text of ASCII decimal digits, as the examples need it;
    other texts are taken as not numeric. *)
Definition int_of_digits (s : pystr) : result Z :=
  match s with
  | [] => Raise ValueError
  | _ =>
      if forallb (fun c => (48 <=? c)%N && (c <=? 57)%N) s
      then Ok (fold_left (fun n c => 10 * n + (Z.of_N c - 48)) s 0)
      else Raise ValueError
  end.

(** A coroutine that leaves the controller object as it found it. *)
Definition keeps_self {A} (m : M A) : Prop :=
  forall self w, exists r w', m (self, w) = (r, (self, w')).

End FrequencyLock.

(* ===================================================================== *)
(** ** ATClient.connect *)
(* ===================================================================== *)

Module Reconnect.

(** What one pass through the [try] block of the loop meets:
    [connection.connect()] raises, returns a false value, or returns a
    true one, after which [_init_at_config()] returns or raises. *)
Inductive attempt : Type :=
  | ConnectRaises (e : exn)
  | ConnectFalse
  | Connected (init_at_config : result unit).

(** The fields of [ATClient] that [connect] uses. *)
Record ATClient : Type := mk_client {
  max_retries : Z;
  retry_delay : Z;
  max_total_retries : Z;
  _reconnecting : bool
}.

(** [ATClient.__init__] *)
Definition init : ATClient := mk_client 3 5 100 false.

Definition long_retry_interval : Z := 60.

(** The [try] block: [Ok true] is the [return True]. *)
Definition attempt_result (a : attempt) : result bool :=
  match a with
  | ConnectRaises e => Raise e
  | ConnectFalse => Raise ConnectionError
  | Connected init_at_config => _ ← init_at_config; Ok true
  end.

(** [while True: ...]; [attempts k] is what the [k]-th pass meets.  The
    result is the list of the delays slept, in order, and how the loop
    ends.  A pass ends the loop or raises [retries], which ends the loop
    at [max_total_retries]; [None] stands for a loop that has not ended
    when the fuel is used up. *)
Fixpoint connect_loop (self : ATClient) (retry : bool) (attempts : nat -> attempt)
    (fuel : nat) (k : nat) (retries : Z) : option (list Z * result bool) :=
  match fuel with
  | O => None
  | S fuel' =>
      match attempt_result (attempts k) with
      | Ok b => Some ([], Ok b)
      | Raise e =>
          if is_Exception e then
            if negb retry then Some ([], Raise e)
            else
              let retries := retries + 1 in
              if retries >=? max_total_retries self then Some ([], Raise ConnectionError)
              else
                let retry_delay :=
                  if retries <=? max_retries self
                  then retry_delay self * retries
                  else long_retry_interval in
                match connect_loop self retry attempts fuel' (S k) retries with
                | Some (delays, r) => Some (retry_delay :: delays, r)
                | None => None
                end
          else Some ([], Raise e)
      end
  end.

Definition set_reconnecting (b : bool) (self : ATClient) : ATClient :=
  mk_client (max_retries self) (retry_delay self) (max_total_retries self) b.

(** [connect(retry)] (its log records are left out): the object it
    leaves, the delays it slept and its result. *)
Definition connect (self : ATClient) (retry : bool) (attempts : nat -> attempt)
  : option (ATClient * list Z * result bool) :=
  if _reconnecting self then Some (self, [], Ok false)
  else
    match connect_loop (set_reconnecting true self) retry attempts
            (Z.to_nat (Z.max 1 (max_total_retries self))) 0 0 with
    | Some (delays, r) => Some (set_reconnecting false self, delays, r)
    | None => None
    end.

(** A pass that fails in a way the loop retries. *)
Definition fails (a : attempt) : Prop :=
  exists e, attempt_result a = Raise e /\ is_Exception e = true.

(** The delay before the next pass after [retries] failures. *)
Definition delay_after (retries : Z) : Z := if retries <=? 3 then 5 * retries else 60.

End Reconnect.

(* ===================================================================== *)
(** ** ATClient._parse_sms *)
(* ===================================================================== *)

Module SmsParser.

Import Client.

(** [text.split('\r\n')] *)
Fixpoint split_crlf (s : pystr) : list pystr :=
  match s with
  | [] => [[]]
  | c :: s' =>
      match s' with
      | d :: s'' =>
          if (c =? 13)%N && (d =? 10)%N then [] :: split_crlf s''
          else match split_crlf s' with
               | piece :: pieces => (c :: piece) :: pieces
               | [] => [[c]]
               end
      | [] => [[c]]
      end
  end.

(** [c in '0123456789ABCDEF'] *)
Definition is_upper_hex (c : N) : bool :=
  ((48 <=? c) && (c <=? 57) || (65 <=? c) && (c <=? 70))%N.

(** The [SMS] of the [except] branch. *)
Definition failure (text time_str : pystr) : SMS :=
  mk_SMS (u "0") (u "解析失败") (u "PDU解析错误: " ++ text) time_str None.

Section Parse.

(** The clock while the line at index [i] is handled: the two readings
    of [datetime.now()] in [read_incoming_sms] and the text of
    [time.strftime("%Y-%m-%d %H:%M:%S")]; the same format applied to a
    date; and [str(e)] for an exception. *)
Variables (now now' : nat -> Pdu.datetime) (time_strftime : nat -> pystr).
Variable strftime : Pdu.datetime -> pystr.
Variable str : exn -> pystr.

(** The [while i < len(lines)] loop from index [i] on, [lines] being the
    lines still ahead. *)
Fixpoint parse_lines (i : nat) (lines : list pystr) : result (list SMS) :=
  match lines with
  | [] => Ok []
  | line :: rest =>
      if startswith (u "+CMG") line then
        match rest with
        | [] => Ok [failure (u "list index out of range") (time_strftime i)]
        | next :: rest' =>
            let pdu_hex := Schedule.strip next in
            if negb (bool_decide (pdu_hex = [])) && forallb is_upper_hex pdu_hex then
              match Pdu.read_incoming_sms pdu_hex (now i) (now' i) with
              | Ok sms_dict =>
                  sms_list ← parse_lines (i + 2) rest';
                  Ok (mk_SMS (u "0") (Pdu.sender sms_dict) (Pdu.content sms_dict)
                             (strftime (Pdu.date sms_dict)) (Pdu.partial sms_dict)
                      :: sms_list)
              | Raise e =>
                  if is_Exception e then
                    sms_list ← parse_lines (i + 1) rest;
                    Ok (failure (str e) (time_strftime i) :: sms_list)
                  else Raise e
              end
            else parse_lines (i + 2) rest'
        end
      else parse_lines (i + 1) rest
  end.

Definition _parse_sms (response : bytes) : result (list SMS) :=
  parse_lines 0 (split_crlf (Schedule.decode_ascii_ignore response)).

End Parse.

(** The lines that start a message: [lines[i].startswith('+CMG')]. *)
Definition headers (lines : list pystr) : list pystr :=
  List.filter (startswith (u "+CMG")) lines.

End SmsParser.

(* ===================================================================== *)
(** ** NetworkSignalHandler.handle *)
(* ===================================================================== *)

Module Signal.

(** [signal_data], as far as it is read again: [sys_mode] and [rsrp].
    ([rsrq] and [sinr] are stored with them and never read by the
    handler.) *)
Record signal_data : Type := mk_signal {
  sys_mode : pystr;
  rsrp : Z
}.

Record NetworkSignalHandler : Type := mk_handler {
  last_signal_data : option signal_data;
  last_sys_mode : option pystr;
  signal_change_threshold : Z
}.

(** [NetworkSignalHandler.__init__] *)
Definition init : NetworkSignalHandler := mk_handler None None 1.

(** [await self._send_notification(signal_data, current_sys_mode, client)],
    which catches what goes wrong inside it. *)
Inductive call : Type :=
  | SendNotification (data : signal_data) (current_sys_mode : pystr).

(** [line.split('\n')[0]] *)
Definition first_line (line : pystr) : pystr :=
  Calls.take_while (fun c => negb (c =? 10)%N) line.

(** [s.replace(old, '')] for a non-empty [old]: the occurrences are found
    from the left and do not overlap; [skip] characters of an occurrence
    are still to be dropped. *)
Fixpoint remove_from (old : pystr) (skip : nat) (s : pystr) : pystr :=
  match s with
  | [] => []
  | c :: s' =>
      match skip with
      | S skip' => remove_from old skip' s'
      | O =>
          if startswith old s then remove_from old (List.length old - 1) s'
          else c :: remove_from old O s'
      end
  end.

Definition remove (old s : pystr) : pystr := remove_from old O s.

(** [s.strip(Q)], where Q is the double quote. *)
Definition strip_quotes (s : pystr) : pystr :=
  let is_quote := fun c => (c =? 34)%N in
  reverse (Calls.drop_while is_quote (reverse (Calls.drop_while is_quote s))).

Section Int.

Variable int : pystr -> result Z.

(** [int(parts[k])] *)
Definition int_at (parts : list pystr) (k : Z) : result Z :=
  p ← getitem parts k; int p.

(** The two branches that fill [signal_data]; [None] is the empty
    dictionary. *)
Definition read_signal (line : pystr) : result (option signal_data) :=
  if contains (u "^CERSSI:") line then
    let parts := Schedule.split_comma (Schedule.strip (remove (u "^CERSSI:") line)) in
    if len parts >=? 19 then
      rsrp ← int_at parts 18;
      rsrq ← int_at parts 19;
      sinr ← (if len parts >? 20 then int_at parts 20 else Ok 0);
      Ok (Some (mk_signal (u "4G/5G") rsrp))
    else Ok None
  else if contains (u "^HCSQ:") line then
    let parts := Schedule.split_comma (Schedule.strip (remove (u "^HCSQ:") line)) in
    if len parts >=? 4 then
      p0 ← getitem parts 0;
      let sys_mode := strip_quotes p0 in
      rsrp_raw ← int_at parts 1;
      sinr_raw ← int_at parts 2;
      rsrq_raw ← int_at parts 3;
      Ok (Some (mk_signal sys_mode (-140 + rsrp_raw)))
    else Ok None
  else Ok None.

(** [force_notify] for a reading. *)
Definition force_notify (self : NetworkSignalHandler) (data : signal_data) : bool :=
  match last_signal_data self with
  | None => true
  | Some last => Z.abs (rsrp data - rsrp last) >=? signal_change_threshold self
  end
  || negb (bool_decide (Some (sys_mode data) = last_sys_mode self)).

(** [handle(line, client)]: the handler it leaves, the calls of
    [_send_notification] it makes, and whether it raised. *)
Definition handle (self : NetworkSignalHandler) (line : pystr)
  : NetworkSignalHandler * list call * result unit :=
  match read_signal (first_line line) with
  | Ok (Some data) =>
      if force_notify self data then
        (mk_handler (Some data) (Some (sys_mode data)) (signal_change_threshold self),
         [SendNotification data (sys_mode data)], Ok ())
      else (self, [], Ok ())
  | Ok None => (self, [], Ok ())
  | Raise e => if is_Exception e then (self, [], Ok ()) else (self, [], Raise e)
  end.

End Int.

End Signal.

(* ===================================================================== *)
(** ** Checked properties *)
(* ===================================================================== *)

Section PduFacts.

Import Pdu.

Lemma len_app {A} (l1 l2 : list A) : len (l1 ++ l2) = len l1 + len l2.
Proof. unfold len. rewrite length_app. lia. Qed.

Lemma str_of_Z_digit (d : Z) : 0 <= d <= 9 -> str_of_Z d = [Z.to_N (d + 48)].
Proof.
  intros Hd.
  assert (d = 0 \/ d = 1 \/ d = 2 \/ d = 3 \/ d = 4 \/ d = 5 \/ d = 6 \/ d = 7
          \/ d = 8 \/ d = 9) as H by lia.
  repeat (destruct H as [-> | H]; [reflexivity |]). subst d. reflexivity.
Qed.

Lemma getitem_exn {A} (l : list A) i e : getitem l i = Raise e -> e = IndexError.
Proof.
  unfold getitem. repeat case_match; congruence.
Qed.

Lemma getitem_byte_exn bs i e : getitem_byte bs i = Raise e -> e = IndexError.
Proof.
  unfold getitem_byte. destruct (getitem bs i) eqn:E; simpl; [congruence|].
  intros [= <-]. eauto using getitem_exn.
Qed.

Lemma getitem_byte_short bs i :
  0 <= i -> len bs <= i -> getitem_byte bs i = Raise IndexError.
Proof.
  intros Hi Hlen. unfold getitem_byte, getitem, len in *.
  destruct (i <? 0) eqn:E; [lia|]. rewrite E.
  rewrite (lookup_ge_None_2 bs (Z.to_nat i)) by lia. reflexivity.
Qed.

Lemma getitem_byte_range bs i v : getitem_byte bs i = Ok v -> 0 <= v < 256.
Proof.
  unfold getitem_byte. destruct (getitem bs i) as [b|]; simpl; [|congruence].
  intros [= <-]. unfold byte_val.
  pose proof (Byte.to_N_bounded b). lia.
Qed.

Lemma fromhex_exn s e : fromhex s = Raise e -> e = ValueError.
Proof.
  revert e. induction s as [s IH] using (induction_ltof1 _ (@List.length N)).
  unfold ltof in IH. intros e. destruct s as [|c s]; simpl; [congruence|].
  destruct (is_space c).
  - apply IH. simpl. lia.
  - destruct (hex_digit c); [|congruence].
    destruct s as [|c2 s]; [congruence|].
    destruct (hex_digit c2); [|congruence].
    destruct (fromhex s) eqn:E; simpl; [congruence|].
    intros [= <-]. eapply IH; [|exact E]. simpl. lia.
Qed.

Lemma decode_ucs2_ok bs : exists s, decode_ucs2 bs = Ok s.
Proof.
  unfold decode_ucs2, try_except_all. destruct (decode_utf_16_be bs); eauto.
Qed.

Lemma decode_timestamp_ok bs now : exists d, decode_timestamp bs now = Ok d.
Proof.
  unfold decode_timestamp, try_except_all.
  match goal with |- context [match ?m with _ => _ end] => destruct m end; eauto.
Qed.

Lemma read_udh_exn pdu_type data_bytes e :
  read_udh pdu_type data_bytes = Raise e -> e = IndexError.
Proof.
  unfold read_udh. intros H.
  repeat match type of H with
  | context [mbind _ (getitem_byte ?b ?i)] =>
      let E := fresh "E" in
      destruct (getitem_byte b i) eqn:E; simpl in H;
      [|injection H as <-; apply getitem_byte_exn in E; exact E]
  | context [if ?c then _ else _] => destruct c; simpl in H
  end; congruence.
Qed.

(** Whatever the [try] block of [read_incoming_sms] raises is an
    [IndexError] or a [ValueError], both caught by [except Exception]. *)
Lemma read_incoming_sms_try_exn pdu_hex now e :
  read_incoming_sms_try pdu_hex now = Raise e -> is_Exception e = true.
Proof.
  unfold read_incoming_sms_try. intros H.
  destruct (fromhex pdu_hex) as [bs|e0] eqn:Hhex; simpl in H;
    [|injection H as <-; apply fromhex_exn in Hhex; subst; reflexivity].
  repeat match type of H with
  | context [mbind _ (getitem_byte ?b ?i)] =>
      let E := fresh "E" in
      destruct (getitem_byte b i) eqn:E; simpl in H;
      [|injection H as <-; apply getitem_byte_exn in E; subst; reflexivity]
  | context [mbind _ (decode_timestamp ?b ?n)] =>
      let E := fresh "E" in
      destruct (decode_timestamp_ok b n) as [? E]; rewrite E in H; simpl in H
  | context [mbind _ (read_udh ?p ?d)] =>
      let E := fresh "E" in
      destruct (read_udh p d) as [[? ?]|] eqn:E; simpl in H;
      [|injection H as <-; apply read_udh_exn in E; subst; reflexivity]
  end.
  match type of H with
  | context [if ?c then _ else _] => destruct c
  end; simpl in H; [|congruence].
  match type of H with
  | context [decode_ucs2 ?b] => destruct (decode_ucs2_ok b) as [? Eucs]; rewrite Eucs in H
  end.
  simpl in H. congruence.
Qed.

Lemma getitem_byte_inv bs i v :
  0 <= i -> getitem_byte bs i = Ok v -> i < len bs /\ 0 <= v < 256.
Proof.
  intros Hi H. split; [|eauto using getitem_byte_range].
  destruct (Z_lt_le_dec i (len bs)) as [|Hge]; [assumption|].
  rewrite (getitem_byte_short bs i Hi Hge) in H. discriminate.
Qed.

(** A PDU of fewer than 14 octets ends before its user-data length: one of
    the indexing steps fails. *)
Lemma read_incoming_sms_try_short pdu_hex now bs :
  fromhex pdu_hex = Ok bs -> len bs < 14 ->
  exists e, read_incoming_sms_try pdu_hex now = Raise e.
Proof.
  intros Hhex Hlen. unfold read_incoming_sms_try. rewrite Hhex. simpl.
  repeat match goal with
  | |- context [mbind _ (getitem_byte ?b ?i)] =>
      let E := fresh "E" in
      destruct (getitem_byte b i) eqn:E; simpl; [|eauto];
      apply getitem_byte_inv in E;
      [|Z.div_mod_to_equations; lia]
  | |- context [mbind _ (decode_timestamp ?b ?n)] =>
      let E := fresh "E" in
      destruct (decode_timestamp_ok b n) as [? E]; rewrite E; simpl
  end.
  Z.div_mod_to_equations. lia.
Qed.

(** Only two kinds of error leave the [try] block: the [ValueError] of
    [bytes.fromhex] and the [IndexError] of an index past the end.  What
    [decode_ucs2] and [decode_timestamp] meet stays inside them. *)
Lemma read_incoming_sms_try_raises pdu_hex now e :
  read_incoming_sms_try pdu_hex now = Raise e ->
  (e = ValueError /\ fromhex pdu_hex = Raise ValueError)
  \/ (e = IndexError /\ exists bs, fromhex pdu_hex = Ok bs).
Proof.
  unfold read_incoming_sms_try. intros H.
  destruct (fromhex pdu_hex) as [bs|e0] eqn:Hhex; simpl in H;
    [|injection H as <-; apply fromhex_exn in Hhex; subst; auto].
  right. split; [|eauto].
  repeat match type of H with
  | context [mbind _ (getitem_byte ?b ?i)] =>
      let E := fresh "E" in
      destruct (getitem_byte b i) eqn:E; simpl in H;
      [|injection H as <-; apply getitem_byte_exn in E; subst; reflexivity]
  | context [mbind _ (decode_timestamp ?b ?n)] =>
      let E := fresh "E" in
      destruct (decode_timestamp_ok b n) as [? E]; rewrite E in H; simpl in H
  | context [mbind _ (read_udh ?p ?d)] =>
      let E := fresh "E" in
      destruct (read_udh p d) as [[? ?]|] eqn:E; simpl in H;
      [|injection H as <-; apply read_udh_exn in E; subst; reflexivity]
  end.
  match type of H with
  | context [if ?c then _ else _] => destruct c
  end; simpl in H; [|congruence].
  match type of H with
  | context [decode_ucs2 ?b] => destruct (decode_ucs2_ok b) as [? Eucs]; rewrite Eucs in H
  end.
  simpl in H. congruence.
Qed.

(** The sender of a decoded message is made of decimal digits. *)
Lemma str_of_Z_nibble (d : Z) : 0 <= d <= 9 -> Forall (fun c => (48 <= c <= 57)%N) (str_of_Z d).
Proof.
  intros Hd. rewrite str_of_Z_digit by done. constructor; [|constructor]. lia.
Qed.

Lemma decode_number_digits bs L : Forall (fun c => (48 <= c <= 57)%N) (decode_number bs L).
Proof.
  unfold decode_number.
  assert (H : forall acc, Forall (fun c => (48 <= c <= 57)%N) acc ->
            Forall (fun c => (48 <= c <= 57)%N) (fold_left (decode_number_step L) bs acc)).
  { induction bs as [|b bs IH]; intros acc Hacc; [exact Hacc|].
    simpl. apply IH. unfold decode_number_step.
    assert (0 <= Z.land (byte_val b) 15).
    { apply Z.land_nonneg. right. lia. }
    assert (0 <= Z.shiftr (byte_val b) 4).
    { apply Z.shiftr_nonneg. unfold byte_val. lia. }
    destruct (Z.leb_spec (Z.land (byte_val b) 15) 9);
      destruct (Z.leb_spec (Z.shiftr (byte_val b) 4) 9);
      rewrite ?andb_false_r; repeat case_match;
      repeat (apply Forall_app; split); auto using str_of_Z_nibble with lia. }
  apply H. constructor.
Qed.

Lemma read_incoming_sms_try_sender pdu_hex now d :
  read_incoming_sms_try pdu_hex now = Ok d -> Forall (fun c => (48 <= c <= 57)%N) (sender d).
Proof.
  unfold read_incoming_sms_try. intros H.
  destruct (fromhex pdu_hex) as [bs|e0] eqn:Hhex; simpl in H; [|discriminate].
  repeat match type of H with
  | context [mbind _ (getitem_byte ?b ?i)] =>
      let E := fresh "E" in
      destruct (getitem_byte b i) eqn:E; simpl in H; [|discriminate]
  | context [mbind _ (decode_timestamp ?b ?n)] =>
      let E := fresh "E" in
      destruct (decode_timestamp_ok b n) as [? E]; rewrite E in H; simpl in H
  | context [mbind _ (read_udh ?p ?d)] =>
      let E := fresh "E" in
      destruct (read_udh p d) as [[? ?]|] eqn:E; simpl in H; [|discriminate]
  end.
  match type of H with
  | context [mbind _ ?m] => destruct m; simpl in H; [|discriminate]
  end.
  injection H as <-. simpl. apply decode_number_digits.
Qed.

(** Reading a known layout. *)
Lemma getitem_byte_app (pre : bytes) (b : byte) (post : bytes) (i : Z) :
  i = len pre -> getitem_byte (pre ++ b :: post) i = Ok (byte_val b).
Proof.
  intros ->. unfold getitem_byte, getitem, len.
  destruct (Z.ltb_spec (Z.of_nat (List.length pre)) 0); [lia|].
  destruct (Z.ltb_spec (Z.of_nat (List.length pre)) 0); [lia|].
  rewrite Nat2Z.id, list_lookup_middle by reflexivity. reflexivity.
Qed.

Lemma clamp_index_in {A} (l : list A) (i : Z) :
  0 <= i <= len l -> clamp_index l i = Z.to_nat i.
Proof.
  intros Hi. unfold clamp_index.
  destruct (Z.ltb_spec i 0); [lia|]. f_equal. lia.
Qed.

Lemma slice_app_mid {A} (pre mid post : list A) (a b : Z) :
  a = len pre -> b = len pre + len mid -> slice (pre ++ mid ++ post) a b = mid.
Proof.
  intros -> ->. unfold slice.
  rewrite !clamp_index_in by (rewrite !len_app; unfold len; lia).
  unfold len. rewrite Nat2Z.id, drop_app_length.
  replace (_ - _)%nat with (List.length mid) by lia.
  by rewrite take_app_length.
Qed.

Lemma slice_from_app {A} (pre post : list A) (a : Z) :
  a = len pre -> slice_from (pre ++ post) a = post.
Proof.
  intros ->. unfold slice_from.
  rewrite clamp_index_in by (rewrite !len_app; unfold len; lia).
  unfold len. by rewrite Nat2Z.id, drop_app_length.
Qed.

Lemma read_incoming_sms_try_layout (pdu_hex : pystr) (now : datetime)
    (pdu_type sender_length sender_type pid dcs data_length : byte)
    (sender_bytes timestamp data : bytes) :
  fromhex pdu_hex
    = Ok ([x00; pdu_type; sender_length; sender_type] ++ sender_bytes
          ++ [pid; dcs] ++ timestamp ++ [data_length] ++ data) ->
  len sender_bytes = (byte_val sender_length + 1) / 2 ->
  len timestamp = 7 ->
  Z.land (byte_val pdu_type) 0x40 = 0 ->
  read_incoming_sms_try pdu_hex now
  = (date ← decode_timestamp timestamp now;
     content ← (if Z.land (byte_val dcs) 0x0F =? 0x08 then decode_ucs2 data
                else Ok (decode_7bit data (byte_val data_length)));
     Ok (mk_sms_dict (decode_number sender_bytes (byte_val sender_length)) content date None)).
Proof.
  intros Hhex Hsender Hts Htype. unfold read_incoming_sms_try. rewrite Hhex.
  set (bs := [x00; pdu_type; sender_length; sender_type] ++ sender_bytes
          ++ [pid; dcs] ++ timestamp ++ [data_length] ++ data).
  cbn [mbind result_bind].
  assert (H0 : getitem_byte bs 0 = Ok 0) by reflexivity.
  rewrite H0. cbn [mbind result_bind].
  assert (H1 : getitem_byte bs (0 + (1 + 0)) = Ok (byte_val pdu_type)) by reflexivity.
  rewrite H1. cbn [mbind result_bind].
  assert (H2 : getitem_byte bs (0 + (1 + 0) + 1) = Ok (byte_val sender_length)) by reflexivity.
  rewrite H2. cbn [mbind result_bind].
  assert (H3 : getitem_byte bs (0 + (1 + 0) + 1 + 1) = Ok (byte_val sender_type)) by reflexivity.
  rewrite H3. cbn [mbind result_bind].
  set (k := (byte_val sender_length + 1) / 2) in *.
  replace (0 + (1 + 0) + 1 + 1 + 1) with 4 by reflexivity.
  assert (Hsb : slice bs 4 (4 + k) = sender_bytes).
  { apply (slice_app_mid [x00; pdu_type; sender_length; sender_type]); [reflexivity|].
    rewrite Hsender. reflexivity. }
  rewrite Hsb.
  assert (Hdcs : getitem_byte bs (4 + k + 1) = Ok (byte_val dcs)).
  { subst bs. rewrite (app_assoc _ sender_bytes). 
    change ([pid; dcs] ++ timestamp ++ [data_length] ++ data)
      with ([pid] ++ dcs :: (timestamp ++ [data_length] ++ data)).
    rewrite (app_assoc _ [pid]).
    apply getitem_byte_app. rewrite !len_app, Hsender. unfold len; cbn [List.length]; lia. }
  rewrite Hdcs. cbn [mbind result_bind].
  assert (Hslice : slice bs (4 + k + 1 + 1) (4 + k + 1 + 1 + 7) = timestamp).
  { subst bs. rewrite (app_assoc _ sender_bytes), (app_assoc _ [pid; dcs]).
    apply slice_app_mid; rewrite !len_app, Hsender, ?Hts; unfold len; cbn [List.length]; lia. }
  rewrite Hslice.
  destruct (decode_timestamp timestamp now) as [date|e]; [|reflexivity].
  cbn [mbind result_bind].
  assert (Hdl : getitem_byte bs (4 + k + 1 + 1 + 7) = Ok (byte_val data_length)).
  { subst bs. rewrite (app_assoc _ sender_bytes), (app_assoc _ [pid; dcs]), (app_assoc _ timestamp).
    apply getitem_byte_app. rewrite !len_app, Hsender, Hts. unfold len; cbn [List.length]; lia. }
  rewrite Hdl. cbn [mbind result_bind].
  assert (Hdata : slice_from bs (4 + k + 1 + 1 + 7 + 1) = data).
  { subst bs. rewrite (app_assoc _ sender_bytes), (app_assoc _ [pid; dcs]), (app_assoc _ timestamp),
      (app_assoc _ [data_length]).
    apply slice_from_app. rewrite !len_app, Hsender, Hts. unfold len; cbn [List.length]; lia. }
  rewrite Hdata.
  unfold read_udh. rewrite Htype. cbn [Z.eqb negb mbind result_bind].
  assert (Hall : slice_from data 0 = data) by (apply (slice_from_app [] data); reflexivity).
  rewrite Hall. reflexivity.
Qed.

End PduFacts.

(** C5, as the code has it.  [read_incoming_sms] never raises.  It
    returns the dictionary with sender "unknown", the failure message
    followed by the original text, the current time and no [partial]
    exactly when an error leaves its [try] block, and only two kinds do:
    the text is not hexadecimal, or an index runs past the end of the
    octets, as it must for a PDU of fewer than 14 octets.  Errors of
    decoding the payload or the timestamp do not: for a PDU without SMSC
    address and without user-data header, whatever its payload and
    timestamp octets are, the result has the decoded sender, the text
    [decode_ucs2] or [decode_7bit] returns and the time
    [decode_timestamp] returns. *)
Theorem read_incoming_sms_decode_failed (pdu_hex : pystr) (now now' : Pdu.datetime) :
  (exists d, Pdu.read_incoming_sms pdu_hex now now' = Ok d) /\
  (forall e, Pdu.read_incoming_sms_try pdu_hex now = Raise e ->
     Pdu.read_incoming_sms pdu_hex now now'
       = Ok (Pdu.mk_sms_dict (u "unknown") (u "PDU解码失败: " ++ pdu_hex) now' None)) /\
  (forall e, Pdu.fromhex pdu_hex = Raise e ->
     Pdu.read_incoming_sms pdu_hex now now'
       = Ok (Pdu.mk_sms_dict (u "unknown") (u "PDU解码失败: " ++ pdu_hex) now' None)) /\
  (forall bs, Pdu.fromhex pdu_hex = Ok bs -> len bs < 14 ->
     Pdu.read_incoming_sms pdu_hex now now'
       = Ok (Pdu.mk_sms_dict (u "unknown") (u "PDU解码失败: " ++ pdu_hex) now' None)) /\
  (forall e, Pdu.read_incoming_sms_try pdu_hex now = Raise e ->
     (e = ValueError /\ Pdu.fromhex pdu_hex = Raise ValueError)
     \/ (e = IndexError /\ exists bs, Pdu.fromhex pdu_hex = Ok bs)) /\
  (Pdu.read_incoming_sms pdu_hex now now'
     = Ok (Pdu.mk_sms_dict (u "unknown") (u "PDU解码失败: " ++ pdu_hex) now' None) ->
   exists e, Pdu.read_incoming_sms_try pdu_hex now = Raise e) /\
  (forall (pdu_type sender_length sender_type pid dcs data_length : byte)
          (sender_bytes timestamp data : bytes),
     Pdu.fromhex pdu_hex
       = Ok ([x00; pdu_type; sender_length; sender_type] ++ sender_bytes
             ++ [pid; dcs] ++ timestamp ++ [data_length] ++ data) ->
     len sender_bytes = (byte_val sender_length + 1) / 2 ->
     len timestamp = 7 ->
     Z.land (byte_val pdu_type) 0x40 = 0 ->
     exists content date,
       Pdu.read_incoming_sms pdu_hex now now'
         = Ok (Pdu.mk_sms_dict (Pdu.decode_number sender_bytes (byte_val sender_length))
                 content date None) /\
       Pdu.decode_timestamp timestamp now = Ok date /\
       (if Z.land (byte_val dcs) 0x0F =? 0x08
        then Pdu.decode_ucs2 data = Ok content
        else content = Pdu.decode_7bit data (byte_val data_length))).
Proof.
  assert (Hraise : forall e, Pdu.read_incoming_sms_try pdu_hex now = Raise e ->
     Pdu.read_incoming_sms pdu_hex now now' = Ok (Pdu.decode_failed pdu_hex now')).
  { intros e He. unfold Pdu.read_incoming_sms, try_except_Exception.
    rewrite He, (read_incoming_sms_try_exn _ _ _ He). reflexivity. }
  split; [|split; [|split; [|split; [|split; [|split]]]]].
  - unfold Pdu.read_incoming_sms, try_except_Exception.
    destruct (Pdu.read_incoming_sms_try pdu_hex now) as [d|e] eqn:E; [eauto|].
    rewrite (read_incoming_sms_try_exn _ _ _ E). eauto.
  - exact Hraise.
  - intros e He. apply (Hraise e).
    unfold Pdu.read_incoming_sms_try. rewrite He. reflexivity.
  - intros bs Hbs Hlen.
    destruct (read_incoming_sms_try_short pdu_hex now bs Hbs Hlen) as [e He].
    exact (Hraise e He).
  - apply read_incoming_sms_try_raises.
  - unfold Pdu.read_incoming_sms, try_except_Exception.
    destruct (Pdu.read_incoming_sms_try pdu_hex now) as [d|e] eqn:E; [|eauto].
    intros [= ->]. apply read_incoming_sms_try_sender in E.
    apply list.Forall_cons in E as [Hu _]. vm_compute in Hu. destruct Hu as [_ Hu].
    exfalso. apply Hu. reflexivity.
  - intros pdu_type sender_length sender_type pid dcs data_length sender_bytes timestamp data
      Hhex Hsender Hts Htype.
    unfold Pdu.read_incoming_sms.
    rewrite (read_incoming_sms_try_layout _ now _ _ _ _ _ _ _ _ _ Hhex Hsender Hts Htype).
    destruct (decode_timestamp_ok timestamp now) as [date ->].
    cbn [mbind result_bind].
    destruct (Z.land (byte_val dcs) 15 =? 8).
    + destruct (decode_ucs2_ok data) as [content Hc]. rewrite Hc.
      exists content, date. auto.
    + eexists _, date. cbn [mbind result_bind try_except_Exception]. auto.
Qed.

(** The empty text and a text that is not hexadecimal both decode to the
    failure dictionary. *)
Lemma read_incoming_sms_decode_failed_witness :
  Pdu.read_incoming_sms [] (Pdu.mk_datetime 2026 11 4 12 0 0) (Pdu.mk_datetime 2026 11 4 12 0 1)
    = Ok (Pdu.mk_sms_dict (u "unknown") (u "PDU解码失败: " ++ [])
            (Pdu.mk_datetime 2026 11 4 12 0 1) None) /\
  Pdu.read_incoming_sms (u "0Z") (Pdu.mk_datetime 2026 11 4 12 0 0)
      (Pdu.mk_datetime 2026 11 4 12 0 1)
    = Ok (Pdu.mk_sms_dict (u "unknown") (u "PDU解码失败: " ++ u "0Z")
            (Pdu.mk_datetime 2026 11 4 12 0 1) None).
Proof.
  split.
  - apply (proj1 (proj2 (proj2 (proj2 (read_incoming_sms_decode_failed []
             (Pdu.mk_datetime 2026 11 4 12 0 0) (Pdu.mk_datetime 2026 11 4 12 0 1))))) []).
    + reflexivity.
    + unfold len. simpl. lia.
  - apply (proj1 (proj2 (proj2 (read_incoming_sms_decode_failed (u "0Z")
             (Pdu.mk_datetime 2026 11 4 12 0 0) (Pdu.mk_datetime 2026 11 4 12 0 1))))
             ValueError).
    reflexivity.
Defined.

(** C5 as stated fails for decoding errors: a PDU whose timestamp octets
    are all [FF] and whose UCS-2 payload has three octets.  Neither the
    timestamp nor the payload can be decoded, yet the result is no failure
    dictionary: it has the sender, one ['?'] as content and the time of
    the call as date. *)
Lemma read_incoming_sms_undecodable_payload :
  Pdu.read_incoming_sms (u "00040B913108108300F00008FFFFFFFFFFFFFF03004100")
    (Pdu.mk_datetime 2026 11 4 12 0 0) (Pdu.mk_datetime 2026 11 4 12 0 1)
  = Ok (Pdu.mk_sms_dict (u "13800138000") (u "?") (Pdu.mk_datetime 2026 11 4 12 0 0) None).
Proof. vm_compute. reflexivity. Qed.

Section Ucs2Facts.

Import Pdu.

Lemma utf16_be_units_odd bs :
  Nat.Odd (List.length bs) -> utf16_be_units bs = Raise UnicodeDecodeError.
Proof.
  enough (H : (Nat.Odd (List.length bs) -> utf16_be_units bs = Raise UnicodeDecodeError)
              /\ forall b, Nat.Odd (List.length (b :: bs)) ->
                           utf16_be_units (b :: bs) = Raise UnicodeDecodeError)
    by apply H.
  induction bs as [|b0 bs [IH1 IH2]].
  - split; [intros [k Hk]; simpl in Hk; lia | reflexivity].
  - split; [apply IH2|].
    intros b Hodd. simpl. rewrite IH1; [reflexivity|].
    destruct Hodd as [k Hk]. simpl in Hk. exists (k - 1)%nat. lia.
Qed.

Lemma str_repeat_half (c : N) (bs : bytes) :
  str_repeat c (len bs / 2) = replicate (List.length bs / 2)%nat c.
Proof.
  unfold str_repeat, len. f_equal.
  rewrite <- (Nat2Z.inj_div _ 2), Nat2Z.id. reflexivity.
Qed.

Lemma byte_val_of_Z (n : Z) : 0 <= n < 256 -> byte_val (byte_of_Z n) = n.
Proof.
  intros Hn. unfold byte_val, byte_of_Z. rewrite Z.mod_small by lia.
  destruct (Byte.of_N (Z.to_N n)) as [b|] eqn:E.
  - apply Byte.to_of_N in E. rewrite E. lia.
  - apply Byte.of_N_None_iff in E. lia.
Qed.

Lemma utf16_be_units_unit (w : Z) (rest : bytes) :
  0 <= w < 65536 ->
  utf16_be_units (utf16_be_unit w ++ rest) = (us ← utf16_be_units rest; Ok (w :: us)).
Proof.
  intros Hw. unfold utf16_be_unit. simpl.
  rewrite !byte_val_of_Z by (Z.div_mod_to_equations; lia).
  replace (w / 256 * 256 + w mod 256) with w by (Z.div_mod_to_equations; lia).
  reflexivity.
Qed.

Lemma is_scalar_value_range (c : N) :
  is_scalar_value c = true ->
  0 <= Z.of_N c < 0xD800 \/ 0xDFFF < Z.of_N c < 0x110000.
Proof.
  unfold is_scalar_value. rewrite orb_true_iff, andb_true_iff, !N.ltb_lt. lia.
Qed.

Lemma utf16_be_units_encode (s : pystr) :
  Forall (fun c => is_scalar_value c = true) s ->
  utf16_be_units (encode_utf_16_be s) = Ok (List.concat (map units_of_char s)).
Proof.
  induction 1 as [|c s Hc%is_scalar_value_range _ IH]; [reflexivity|].
  unfold encode_utf_16_be in *. simpl.
  unfold encode_utf_16_be_char, units_of_char in *.
  destruct (Z.ltb_spec (Z.of_N c) 65536).
  - rewrite utf16_be_units_unit by lia. rewrite IH. reflexivity.
  - rewrite <- app_assoc, utf16_be_units_unit by (Z.div_mod_to_equations; lia).
    rewrite utf16_be_units_unit by (Z.div_mod_to_equations; lia).
    rewrite IH. reflexivity.
Qed.

Lemma utf16_code_points_units (s : pystr) :
  Forall (fun c => is_scalar_value c = true) s ->
  utf16_code_points (List.concat (map units_of_char s)) = Ok s.
Proof.
  induction 1 as [|c s Hc%is_scalar_value_range _ IH]; [reflexivity|].
  simpl. unfold units_of_char at 1.
  destruct (Z.ltb_spec (Z.of_N c) 65536).
  - simpl. unfold is_high_surrogate, is_low_surrogate.
    destruct (Z.leb_spec 0xD800 (Z.of_N c)), (Z.leb_spec (Z.of_N c) 0xDBFF),
             (Z.leb_spec 0xDC00 (Z.of_N c)), (Z.leb_spec (Z.of_N c) 0xDFFF);
      simpl; try lia; rewrite IH; simpl; rewrite N2Z.id; reflexivity.
  - simpl. unfold is_high_surrogate, is_low_surrogate.
    set (v := Z.of_N c - 65536) in *.
    assert (0 <= v < 0x100000) by lia.
    destruct (Z.leb_spec 0xD800 (55296 + v / 1024)); [|Z.div_mod_to_equations; lia].
    destruct (Z.leb_spec (55296 + v / 1024) 0xDBFF); [|Z.div_mod_to_equations; lia].
    destruct (Z.leb_spec 0xDC00 (56320 + v mod 1024)); [|Z.div_mod_to_equations; lia].
    destruct (Z.leb_spec (56320 + v mod 1024) 0xDFFF); [|Z.div_mod_to_equations; lia].
    simpl. rewrite IH. simpl. f_equal. f_equal.
    replace (65536 + (55296 + v / 1024 - 55296) * 1024 + (56320 + v mod 1024 - 56320))
      with (Z.of_N c) by (subst v; Z.div_mod_to_equations; lia).
    apply N2Z.id.
Qed.

(** Decoding inverts encoding. *)
Lemma decode_encode_utf_16_be (s : pystr) :
  Forall (fun c => is_scalar_value c = true) s ->
  decode_utf_16_be (encode_utf_16_be s) = Ok s.
Proof.
  intros Hs. unfold decode_utf_16_be.
  rewrite (utf16_be_units_encode s Hs). simpl. apply utf16_code_points_units, Hs.
Qed.

End Ucs2Facts.

(** C10: [decode_ucs2] returns for every byte string.  When the strict
    UTF-16 big-endian decoder accepts the input, its text is the result --
    in particular the UTF-16 big-endian form of a text decodes to that
    text; when the decoder fails -- as it does on every input of odd
    length -- the result is the character '?' repeated floor(n/2) times,
    n the input length. *)
Theorem decode_ucs2_total (encoded_bytes : bytes) :
  (exists s, Pdu.decode_ucs2 encoded_bytes = Ok s) /\
  (forall s, Pdu.decode_utf_16_be encoded_bytes = Ok s ->
     Pdu.decode_ucs2 encoded_bytes = Ok s) /\
  (forall s, Forall (fun c => Pdu.is_scalar_value c = true) s ->
     encoded_bytes = Pdu.encode_utf_16_be s ->
     Pdu.decode_ucs2 encoded_bytes = Ok s) /\
  (forall e, Pdu.decode_utf_16_be encoded_bytes = Raise e ->
     Pdu.decode_ucs2 encoded_bytes
       = Ok (replicate (List.length encoded_bytes / 2)%nat 63%N)) /\
  (Nat.Odd (List.length encoded_bytes) ->
     Pdu.decode_ucs2 encoded_bytes
       = Ok (replicate (List.length encoded_bytes / 2)%nat 63%N)).
Proof.
  assert (Hfail : forall e, Pdu.decode_utf_16_be encoded_bytes = Raise e ->
     Pdu.decode_ucs2 encoded_bytes
       = Ok (replicate (List.length encoded_bytes / 2)%nat 63%N)).
  { intros e He. unfold Pdu.decode_ucs2, try_except_all. rewrite He.
    f_equal. apply str_repeat_half. }
  assert (Hok : forall s, Pdu.decode_utf_16_be encoded_bytes = Ok s ->
     Pdu.decode_ucs2 encoded_bytes = Ok s).
  { intros s Hs. unfold Pdu.decode_ucs2, try_except_all. rewrite Hs. reflexivity. }
  repeat split.
  - apply decode_ucs2_ok.
  - exact Hok.
  - intros s Hs ->. apply Hok, decode_encode_utf_16_be, Hs.
  - exact Hfail.
  - intros Hodd. apply (Hfail UnicodeDecodeError).
    unfold Pdu.decode_utf_16_be. rewrite (utf16_be_units_odd _ Hodd). reflexivity.
Qed.

(** Three octets (odd length), a lone low surrogate, and the text "A"
    followed by one character outside the basic plane. *)
Lemma decode_ucs2_total_witness :
  Pdu.decode_ucs2 [x00; x41; x00] = Ok [63%N] /\
  Pdu.decode_ucs2 [xdc; x00; x00; x41] = Ok [63%N; 63%N] /\
  Pdu.decode_ucs2 [x00; x41; xd8; x3d; xde; x00] = Ok [65%N; 0x1F600%N].
Proof.
  split; [|split].
  - apply (proj2 (proj2 (proj2 (proj2 (decode_ucs2_total [x00; x41; x00]))))).
    exists 1%nat. reflexivity.
  - apply (proj1 (proj2 (proj2 (proj2 (decode_ucs2_total [xdc; x00; x00; x41]))))
             UnicodeDecodeError).
    reflexivity.
  - apply (proj1 (proj2 (proj2 (decode_ucs2_total [x00; x41; xd8; x3d; xde; x00])))
             [65%N; 0x1F600%N]).
    + repeat constructor.
    + reflexivity.
Defined.

(** The user-data header of a segment with an 8-bit reference
    ([05 00 03 ref total seq]) yields that reference, total and sequence. *)
Lemma read_udh_8bit_reference (pdu_type : Z) (ref total seq : byte) (rest : bytes) :
  Z.land pdu_type 0x40 <> 0 ->
  Pdu.read_udh pdu_type (x05 :: x00 :: x03 :: ref :: total :: seq :: rest)
    = Ok (6, Some (Pdu.mk_partial (byte_val ref) (byte_val total) (byte_val seq))).
Proof.
  intros Hbit. unfold Pdu.read_udh.
  destruct (Z.eqb_spec (Z.land pdu_type 64) 0) as [E|_]; [contradiction|].
  reflexivity.
Qed.

(** C6, at a segment with a 16-bit reference: the user data starts with
    the header [06 08 04 12 34 02 01] (reference 0x1234, 2 parts, part 1),
    yet the decoder reports reference 0x12, 0x34 parts and part 2. *)
Theorem read_incoming_sms_16bit_reference :
  Pdu.read_incoming_sms
    (u "00440B913108108300F00008421101410000000B0608041234020100410042")
    (Pdu.mk_datetime 2026 11 4 12 0 0) (Pdu.mk_datetime 2026 11 4 12 0 0)
  = Ok (Pdu.mk_sms_dict (u "13800138000") (u "AB")
          (Pdu.mk_datetime 2024 11 10 14 0 0)
          (Some (Pdu.mk_partial 0x12 0x34 2))).
Proof. vm_compute. reflexivity. Qed.

(* --------------------------------------------------------------------- *)
(** *** Ordered dictionaries *)

Section DictFacts.
Import Dict.
Context {K V : Type} `{EqDecision K}.
Implicit Types (d : dict K V) (k : K) (v : V).

Lemma dict_get_app_None k d1 d2 :
  Dict.get k d1 = None -> Dict.get k (d1 ++ d2) = Dict.get k d2.
Proof.
  induction d1 as [|[k' v] d1 IH]; simpl; [reflexivity|].
  destruct (decide (k' = k)); [discriminate | exact IH].
Qed.

Lemma dict_get_app_Some k v d1 d2 :
  Dict.get k d1 = Some v -> Dict.get k (d1 ++ d2) = Some v.
Proof.
  induction d1 as [|[k' v'] d1 IH]; simpl; [discriminate|].
  destruct (decide (k' = k)); [trivial | exact IH].
Qed.

Lemma dict_get_None k d : Dict.get k d = None <-> Forall (fun kv => kv.1 <> k) d.
Proof.
  induction d as [|[k' v] d IH]; simpl.
  - split; [constructor | reflexivity].
  - destruct (decide (k' = k)) as [->|Hne].
    + split; [discriminate|]. intros HF. inversion HF; subst. simpl in *. congruence.
    + rewrite IH. split; [intros; constructor; assumption|].
      intros HF. inversion HF; assumption.
Qed.

Lemma dict_get_elem k v d : Dict.get k d = Some v -> (k, v) ∈ d.
Proof.
  induction d as [|[k' v'] d IH]; simpl; [discriminate|].
  destruct (decide (k' = k)) as [->|Hne].
  - intros [= ->]. left.
  - intros Hg. right. auto.
Qed.

Lemma dict_get_keys k d : k ∈ Dict.keys d -> exists v, Dict.get k d = Some v.
Proof.
  induction d as [|[k' v'] d IH]; simpl; [inversion 1|].
  destruct (decide (k' = k)) as [->|Hne]; [eauto|].
  intros Hin. apply elem_of_cons in Hin as [->|Hin]; [congruence | auto].
Qed.

Lemma dict_del_absent k d : Dict.get k d = None -> Dict.del k d = d.
Proof.
  rewrite dict_get_None. unfold Dict.del.
  induction 1 as [|[k' v] d Hk HF IH]; [reflexivity|].
  rewrite filter_cons_True by exact Hk. f_equal. exact IH.
Qed.

Lemma dict_del_app k d1 d2 : Dict.del k (d1 ++ d2) = Dict.del k d1 ++ Dict.del k d2.
Proof. unfold Dict.del. apply list.filter_app. Qed.

Lemma dict_del_single_eq k (v : V) : Dict.del k [(k, v)] = [].
Proof.
  unfold Dict.del. rewrite (filter_cons_False _ (k, v)); [reflexivity|].
  simpl. tauto.
Qed.

Lemma dict_del_single_ne k k' v : k' <> k -> Dict.del k [(k', v)] = [(k', v)].
Proof.
  intros Hne. unfold Dict.del. rewrite (filter_cons_True _ (k', v)); [reflexivity|].
  exact Hne.
Qed.

Lemma dict_del_Forall (P : K * V -> Prop) k d : Forall P d -> Forall P (Dict.del k d).
Proof.
  unfold Dict.del. induction 1 as [|kv d HP HF IH]; [constructor|].
  destruct (decide (kv.1 <> k)).
  - rewrite filter_cons_True by assumption. constructor; assumption.
  - rewrite filter_cons_False by assumption. assumption.
Qed.

Lemma dict_del_length k d : (List.length (Dict.del k d) <= List.length d)%nat.
Proof. unfold Dict.del. apply length_filter. Qed.

Lemma dict_del_fold_Forall (P : K * V -> Prop) ks d :
  Forall P d -> Forall P (fold_left (fun d k => Dict.del k d) ks d).
Proof.
  revert d. induction ks as [|k ks IH]; intros d HF; simpl; [assumption|].
  apply IH, dict_del_Forall, HF.
Qed.

Lemma dict_del_fold_app ks d k v :
  k ∉ ks ->
  fold_left (fun d k => Dict.del k d) ks (d ++ [(k, v)])
  = fold_left (fun d k => Dict.del k d) ks d ++ [(k, v)].
Proof.
  revert d. induction ks as [|k0 ks IH]; intros d Hk; simpl; [reflexivity|].
  apply not_elem_of_cons in Hk as [Hne Hk].
  rewrite dict_del_app, dict_del_single_ne by assumption.
  apply IH, Hk.
Qed.

Lemma dict_alter_absent f k d : Dict.get k d = None -> Dict.alter f k d = d.
Proof.
  rewrite dict_get_None. unfold Dict.alter.
  induction 1 as [|[k' v] d Hk HF IH]; [reflexivity|].
  simpl in *. rewrite IH. destruct (decide (k' = k)); [contradiction | reflexivity].
Qed.

Lemma dict_alter_app f k d1 d2 :
  Dict.alter f k (d1 ++ d2) = Dict.alter f k d1 ++ Dict.alter f k d2.
Proof. unfold Dict.alter. apply map_app. Qed.

Lemma dict_alter_single f k v : Dict.alter f k [(k, v)] = [(k, f v)].
Proof. unfold Dict.alter. simpl. destruct (decide (k = k)); [reflexivity | contradiction]. Qed.

End DictFacts.

Section MinFacts.
Context {A : Type} (f : A -> Z).

Lemma min_from_app best xs ys :
  Dict.min_from f best (xs ++ ys) = Dict.min_from f (Dict.min_from f best xs) ys.
Proof. revert best. induction xs as [|x xs IH]; intros best; simpl; [reflexivity | apply IH]. Qed.

Lemma min_from_elem best xs : Dict.min_from f best xs ∈ best :: xs.
Proof.
  revert best. induction xs as [|x xs IH]; intros best; simpl; [left|].
  specialize (IH (if f x <? f best then x else best)).
  apply elem_of_cons in IH as [->|IH].
  - destruct (f x <? f best); [right; left | left].
  - right. right. exact IH.
Qed.

End MinFacts.

(* --------------------------------------------------------------------- *)
(** *** The reassembly store *)

Section ReassemblyFacts.

Import Dict Effects Client Segments.

Variables (sender : pystr) (ref n : Z) (text : Z -> pystr) (t1 : Z).

Let key : pystr := key_of sender ref.

(** The record of the message under reassembly, created at [t1]. *)
Let entry (parts : gmap Z pystr) : partial_message :=
  mk_partial_message sender parts n t1.

(** The other records: none under [key], none newer than [t1]. *)
Let others_ok (rest : store) : Prop :=
  Forall (fun kv : pystr * partial_message => kv.1 <> key /\ pm_timestamp kv.2 <= t1) rest.

Lemma others_ok_get rest : others_ok rest -> Dict.get key rest = None.
Proof.
  intros H. apply dict_get_None. eapply List.Forall_impl; [|exact H]. simpl. tauto.
Qed.

Lemma expired_keys_others t rest : others_ok rest -> key ∉ expired_keys t rest.
Proof.
  unfold expired_keys, Dict.keys. induction 1 as [|kv rest [Hk _] _ IH]; simpl.
  - inversion 1.
  - destruct (decide (t - pm_timestamp kv.2 > 3600)).
    + rewrite filter_cons_True by assumption. simpl.
      intros Hin%elem_of_cons. destruct Hin; [congruence | contradiction].
    + rewrite filter_cons_False by assumption. exact IH.
Qed.

Lemma expired_keys_app_fresh t rest parts :
  t - t1 <= 3600 ->
  expired_keys t (rest ++ [(key, entry parts)]) = expired_keys t rest.
Proof.
  intros Ht. unfold expired_keys. rewrite list.filter_app.
  rewrite (filter_cons_False _ (key, entry parts)) by (simpl; lia).
  rewrite filter_nil, app_nil_r. reflexivity.
Qed.

Lemma delete_expired_others t rest : others_ok rest -> others_ok (delete_expired t rest).
Proof. apply dict_del_fold_Forall. Qed.

Lemma delete_expired_app_fresh t rest parts :
  others_ok rest -> t - t1 <= 3600 ->
  delete_expired t (rest ++ [(key, entry parts)])
  = delete_expired t rest ++ [(key, entry parts)].
Proof.
  intros Hrest Ht. unfold delete_expired.
  rewrite expired_keys_app_fresh by assumption.
  apply dict_del_fold_app, expired_keys_others, Hrest.
Qed.

Lemma evict_oldest_others rest : others_ok rest -> others_ok (evict_oldest rest).
Proof.
  intros H. unfold evict_oldest. destruct (len rest >? 100); [|assumption].
  destruct (py_min _ _); [|assumption]. apply dict_del_Forall, H.
Qed.

Lemma timestamp_of_others rest parts k :
  others_ok rest -> k ∈ Dict.keys rest ->
  timestamp_of (rest ++ [(key, entry parts)]) k <= t1 /\ k <> key.
Proof.
  intros Hrest Hk. destruct (dict_get_keys _ _ Hk) as [v Hv].
  unfold timestamp_of. rewrite (dict_get_app_Some _ _ _ _ Hv).
  apply dict_get_elem in Hv.
  unfold others_ok in Hrest. rewrite list.Forall_forall in Hrest.
  exact (conj (proj2 (Hrest _ Hv)) (proj1 (Hrest _ Hv))).
Qed.

Lemma timestamp_of_key rest parts :
  others_ok rest -> timestamp_of (rest ++ [(key, entry parts)]) key = t1.
Proof.
  intros Hrest. unfold timestamp_of.
  rewrite dict_get_app_None by (apply others_ok_get, Hrest).
  simpl. destruct (decide (key = key)); [reflexivity | contradiction].
Qed.

(** On overflow the record evicted is one of the others: the record of
    [key] comes last and is not older than any of them. *)
Lemma evict_oldest_app_fresh rest parts :
  others_ok rest ->
  exists rest', others_ok rest' /\
    evict_oldest (rest ++ [(key, entry parts)]) = rest' ++ [(key, entry parts)].
Proof.
  intros Hrest. unfold evict_oldest.
  destruct (len (rest ++ [(key, entry parts)]) >? 100) eqn:Hlen; [|eauto].
  destruct rest as [|[k0 v0] rest0]; [discriminate Hlen|].
  set (pms := ((k0, v0) :: rest0) ++ [(key, entry parts)]).
  unfold py_min, Dict.keys. simpl map. rewrite map_app. simpl map.
  rewrite min_from_app. simpl.
  set (best := min_from (timestamp_of pms) k0 (map fst rest0)).
  assert (Hbest : best ∈ Dict.keys ((k0, v0) :: rest0)) by apply min_from_elem.
  destruct (timestamp_of_others _ parts _ Hrest Hbest) as [Hts Hne].
  fold pms in Hts. unfold pms at 1. rewrite timestamp_of_key by assumption.
  destruct (Z.ltb_spec t1 (timestamp_of pms best)) as [Hlt|_]; [lia|].
  exists (Dict.del best ((k0, v0) :: rest0)). split.
  - apply dict_del_Forall, Hrest.
  - unfold pms. rewrite dict_del_app, dict_del_single_ne by congruence. reflexivity.
Qed.

Lemma join_parts_full (parts : gmap Z pystr) :
  (forall i, 1 <= i <= n -> parts !! i = Some (text i)) ->
  join_parts parts n = Ok (full_text n text).
Proof.
  intros Hall. unfold join_parts, full_text.
  rewrite (mapM_Some_2 _ _ (map text (seqZ 1 n))); [reflexivity|].
  apply Forall2_fmap_r, Forall_Forall2_diag, list.Forall_forall.
  intros i Hi%elem_of_seqZ. apply Hall. lia.
Qed.

(** What a call does once the store has been cleaned: the tail of
    [_handle_partial_sms], from [if key not in ...] on. *)
Lemma handle_cleaned rest (fresh : bool) parts (d : delivery) t :
  others_ok rest ->
  (if fresh then parts = ∅ /\ t = t1 else True) ->
  delete_expired t
    (if fresh then rest else rest ++ [(key, entry parts)])
  = (if fresh then delete_expired t rest
     else delete_expired t rest ++ [(key, entry parts)]) ->
  exists rest', others_ok rest' /\
    _handle_partial_sms (if fresh then rest else rest ++ [(key, entry parts)])
        (segment sender ref n text d) t
    = let parts' := <[d_part d := text (d_part d)]> parts in
      if Z.of_nat (size parts') =? n then
        match join_parts parts' n with
        | Ok full =>
            (rest',
             [NotifyAll sender full (u "SMS") false;
              Broadcast (new_sms_complete sender full (d_stamp d))],
             Ok ())
        | Raise e => (rest' ++ [(key, entry parts')], [], Raise e)
        end
      else (rest' ++ [(key, entry parts')], [], Ok ()).
Proof.
  intros Hrest Hfresh Hdel.
  pose proof (delete_expired_others t _ Hrest) as Hrest1.
  unfold _handle_partial_sms. simpl partial. cbv iota beta.
  simpl Client.sender. simpl Pdu.reference. simpl Pdu.part_number.
  simpl Pdu.parts_count. simpl Client.content. simpl Client.timestamp.
  fold (key_of sender ref). fold key. rewrite Hdel.
  assert (Hev : exists rest',
    others_ok rest' /\
    (if fresh then evict_oldest (delete_expired t rest)
     else evict_oldest (delete_expired t rest ++ [(key, entry parts)]))
    = (if fresh then rest' else rest' ++ [(key, entry parts)])).
  { destruct fresh.
    - eexists. split; [apply evict_oldest_others, Hrest1 | reflexivity].
    - apply evict_oldest_app_fresh, Hrest1. }
  destruct Hev as (rest' & Hrest' & Hev). exists rest'. split; [assumption|].
  pose proof (others_ok_get _ Hrest') as Hget.
  destruct fresh.
  - destruct Hfresh as [-> ->]. rewrite Hev.
    unfold Dict.mem. rewrite Hget.
    rewrite bool_decide_eq_false_2 by (intros [? ?]; discriminate).
    unfold Dict.add. rewrite dict_alter_app, dict_alter_absent by assumption.
    rewrite dict_alter_single, dict_get_app_None by assumption.
    simpl Dict.get. destruct (decide (key = key)); [|contradiction].
    unfold set_part. simpl. fold (entry (<[d_part d := text (d_part d)]> ∅)).
    destruct (_ =? n); [|reflexivity].
    destruct (join_parts _ _); [|reflexivity].
    rewrite dict_del_app, dict_del_single_eq, app_nil_r, dict_del_absent by assumption.
    reflexivity.
  - rewrite Hev.
    unfold Dict.mem. rewrite dict_get_app_None by assumption.
    simpl Dict.get. destruct (decide (key = key)); [|contradiction].
    rewrite bool_decide_eq_true_2 by eauto.
    rewrite dict_alter_app, dict_alter_absent by assumption.
    rewrite dict_alter_single, dict_get_app_None by assumption.
    simpl Dict.get. destruct (decide (key = key)); [|contradiction].
    unfold set_part. simpl. fold (entry (<[d_part d := text (d_part d)]> parts)).
    destruct (_ =? n); [|reflexivity].
    destruct (join_parts _ _); [|reflexivity].
    rewrite dict_del_app, dict_del_single_eq, app_nil_r, dict_del_absent by assumption.
    reflexivity.
Qed.

Lemma handle_partial_all_cons (pms : store) sms t cs :
  handle_partial_all pms ((sms, t) :: cs)
  = match _handle_partial_sms pms sms t with
    | (pms', effects, Ok _) =>
        let '(pms'', effects', r) := handle_partial_all pms' cs in
        (pms'', effects ++ effects', r)
    | (pms', effects, Raise e) => (pms', effects, Raise e)
    end.
Proof. reflexivity. Qed.

Lemma calls_cons d ds :
  calls sender ref n text (d :: ds)
  = (segment sender ref n text d, d_time d) :: calls sender ref n text ds.
Proof. reflexivity. Qed.

(** The calls after the first: the record of [key] holds [parts]; the
    remaining deliveries [ds] bring the missing parts, each once. *)
Lemma handle_partial_rest (ds : list delivery) :
  forall (parts : gmap Z pystr) (rest : store) (d0 : delivery),
  others_ok rest ->
  Forall (fun d => d_time d - t1 <= 3600) ds ->
  NoDup (map d_part ds) ->
  (forall p, p ∈ map d_part ds -> parts !! p = None) ->
  (forall i, 1 <= i <= n -> parts !! i = Some (text i) \/ i ∈ map d_part ds) ->
  Z.of_nat (size parts) + len ds = n ->
  ds <> [] ->
  exists rest', others_ok rest' /\
    handle_partial_all (rest ++ [(key, entry parts)]) (calls sender ref n text ds)
    = (rest',
       [NotifyAll sender (full_text n text) (u "SMS") false;
        Broadcast (new_sms_complete sender (full_text n text)
                     (d_stamp (List.last ds d0)))],
       Ok ()).
Proof.
  induction ds as [|d ds IH]; intros parts rest d0 Hrest Htime Hnodup Hnone Hcover Hsize Hne;
    [contradiction|].
  apply list.Forall_cons in Htime as [Ht Htime].
  apply list.NoDup_cons in Hnodup as [Hd Hnodup].
  destruct (handle_cleaned rest false parts d (d_time d)) as (rest1 & Hrest1 & Hstep);
    [assumption | exact I | apply delete_expired_app_fresh; assumption |].
  cbv zeta in Hstep. rewrite calls_cons, handle_partial_all_cons, Hstep. clear Hstep.
  assert (Hfresh : parts !! d_part d = None) by (apply Hnone; left).
  rewrite (map_size_insert_None _ _ _ Hfresh).
  assert (Hcover' : forall i, 1 <= i <= n ->
            <[d_part d := text (d_part d)]> parts !! i = Some (text i)
            \/ i ∈ map d_part ds).
  { intros i Hi. destruct (decide (i = d_part d)) as [->|Hneq].
    - left. apply lookup_insert_eq.
    - rewrite lookup_insert_ne by congruence.
      destruct (Hcover i Hi) as [|Hin]; [tauto|].
      apply elem_of_cons in Hin as [|]; [contradiction | tauto]. }
  destruct ds as [|d' ds'].
  - unfold len in Hsize. simpl in Hsize.
    destruct (Z.eqb_spec (Z.of_nat (S (size parts))) n) as [_|Hbad]; [|lia].
    rewrite join_parts_full.
    + exists rest1. split; [assumption | reflexivity].
    + intros i Hi. destruct (Hcover' i Hi) as [|Hin]; [assumption | inversion Hin].
  - unfold len in Hsize. simpl length in Hsize.
    destruct (Z.eqb_spec (Z.of_nat (S (size parts))) n) as [Hbad|_]; [lia|].
    destruct (IH (<[d_part d := text (d_part d)]> parts) rest1 d0) as (rest2 & Hrest2 & Hrun);
      try assumption.
    + intros p Hp. rewrite lookup_insert_ne; [apply Hnone; right; exact Hp|].
      intros <-. contradiction.
    + rewrite (map_size_insert_None _ _ _ Hfresh). unfold len. simpl length. lia.
    + discriminate.
    + exists rest2. split; [assumption|].
      rewrite Hrun. reflexivity.
Qed.

End ReassemblyFacts.

(** C1, as the code has it.  The [n] parts of a concatenated message carry
    the part numbers 1..n, in any order, under one (sender, reference) key.
    If the store holds no record under that key and no record newer than
    the first arrival, and every later part arrives at most 3600 seconds
    after the first, then the calls to [_handle_partial_sms] together
    perform exactly one [notify_all] of type SMS and one [new_sms]
    broadcast with [isComplete] true, both carrying the parts concatenated
    in ascending part number, and the record is gone afterwards. *)
Theorem partial_sms_any_order
    (sender : pystr) (ref n : Z) (text : Z -> pystr)
    (d1 : Segments.delivery) (ds : list Segments.delivery)
    (pms : list (pystr * Client.partial_message)) :
  map Segments.d_part (d1 :: ds) ≡ₚ seqZ 1 n ->
  Forall (fun d => Segments.d_time d - Segments.d_time d1 <= 3600) ds ->
  Dict.get (Segments.key_of sender ref) pms = None ->
  Forall (fun kv => Client.pm_timestamp kv.2 <= Segments.d_time d1) pms ->
  exists pms',
    Client.handle_partial_all pms (Segments.calls sender ref n text (d1 :: ds))
    = (pms',
       [Effects.NotifyAll sender (Segments.full_text n text) (u "SMS") false;
        Effects.Broadcast
          (Client.new_sms_complete sender (Segments.full_text n text)
             (Segments.d_stamp (List.last ds d1)))],
       Ok ())
    /\ Dict.get (Segments.key_of sender ref) pms' = None.
Proof.
  intros Hperm Htime Hkey Hold.
  set (t1 := Segments.d_time d1) in *.
  assert (Hrest : Forall (fun kv : pystr * Client.partial_message =>
                    kv.1 <> Segments.key_of sender ref /\ Client.pm_timestamp kv.2 <= t1) pms).
  { apply dict_get_None in Hkey. rewrite list.Forall_forall in *. intros kv Hin.
    split; [apply Hkey, Hin | apply Hold, Hin]. }
  assert (Hnodup : NoDup (map Segments.d_part (d1 :: ds)))
    by (rewrite Hperm; apply NoDup_seqZ).
  assert (Hlen : len (d1 :: ds) = n).
  { apply Permutation_length in Hperm as Hl. rewrite length_map, length_seqZ in Hl.
    unfold len. simpl length in *. lia. }
  assert (Hcover : forall i, 1 <= i <= n -> i ∈ map Segments.d_part (d1 :: ds)).
  { intros i Hi. rewrite Hperm. apply elem_of_seqZ. lia. }
  apply list.NoDup_cons in Hnodup as [Hd1 Hnodup].
  destruct (handle_cleaned sender ref n text t1 pms true ∅ d1 t1)
    as (rest1 & Hrest1 & Hstep); [assumption | split; reflexivity | reflexivity |].
  cbv zeta in Hstep. rewrite calls_cons, handle_partial_all_cons.
  fold t1. rewrite Hstep. clear Hstep.
  rewrite map_size_insert_None, map_size_empty by apply lookup_empty.
  unfold len in Hlen. simpl length in Hlen.
  destruct ds as [|d' ds'].
  - simpl in Hlen.
    destruct (Z.eqb_spec (Z.of_nat 1) n) as [_|Hbad]; [|lia].
    rewrite (join_parts_full n text).
    + exists rest1. split; [reflexivity|].
      apply dict_get_None. eapply List.Forall_impl; [|exact Hrest1]. simpl. tauto.
    + intros i Hi. specialize (Hcover i Hi).
      apply elem_of_cons in Hcover as [->|Hin]; [apply lookup_insert_eq | inversion Hin].
  - simpl length in Hlen.
    destruct (Z.eqb_spec (Z.of_nat 1) n) as [Hbad|_]; [lia|].
    destruct (handle_partial_rest sender ref n text t1 (d' :: ds')
                (<[Segments.d_part d1 := text (Segments.d_part d1)]> ∅) rest1 d1)
      as (rest2 & Hrest2 & Hrun); try assumption.
    + intros p Hp. rewrite lookup_insert_ne; [apply lookup_empty|].
      intros <-. contradiction.
    + intros i Hi. specialize (Hcover i Hi).
      apply elem_of_cons in Hcover as [->|Hin]; [left; apply lookup_insert_eq | tauto].
    + rewrite map_size_insert_None, map_size_empty by apply lookup_empty.
      unfold len. simpl length. lia.
    + discriminate.
    + exists rest2. split.
      * rewrite Hrun. reflexivity.
      * apply dict_get_None. eapply List.Forall_impl; [|exact Hrest2]. simpl. tauto.
Qed.

(** Parts 1, 3, 2 of a three-part message, five seconds apart, into an
    empty store. *)
Lemma partial_sms_any_order_witness :
  exists pms',
    Client.handle_partial_all []
      (Segments.calls (u "13800138000") 42 3 str_of_Z
         [Segments.mk_delivery 1 (u "0") (u "2024-11-10 14:00:00") 0;
          Segments.mk_delivery 3 (u "0") (u "2024-11-10 14:00:05") 5;
          Segments.mk_delivery 2 (u "0") (u "2024-11-10 14:00:10") 10])
    = (pms',
       [Effects.NotifyAll (u "13800138000") (Segments.full_text 3 str_of_Z) (u "SMS") false;
        Effects.Broadcast
          (Client.new_sms_complete (u "13800138000") (Segments.full_text 3 str_of_Z)
             (u "2024-11-10 14:00:10"))],
       Ok ())
    /\ Dict.get (Segments.key_of (u "13800138000") 42) pms' = None.
Proof.
  apply (partial_sms_any_order (u "13800138000") 42 3 str_of_Z
           (Segments.mk_delivery 1 (u "0") (u "2024-11-10 14:00:00") 0)
           [Segments.mk_delivery 3 (u "0") (u "2024-11-10 14:00:05") 5;
            Segments.mk_delivery 2 (u "0") (u "2024-11-10 14:00:10") 10]
           []).
  - vm_compute. apply perm_skip, perm_swap.
  - repeat constructor; simpl; lia.
  - reflexivity.
  - constructor.
Defined.

(** C1 as stated fails when the parts are more than an hour apart: part 1
    at second 0 and part 2 at second 3601 of a two-part message produce no
    notification and no broadcast, and a record stays in the store.  It
    also fails when the store already holds a record under the key: with
    part 3 of an older three-part message there, the two parts "1" and "2"
    are announced as "12old". *)
Lemma partial_sms_expired_between_parts :
  Client.handle_partial_all []
    (Segments.calls (u "13800138000") 42 2 str_of_Z
       [Segments.mk_delivery 1 (u "0") (u "2024-11-10 14:00:00") 0;
        Segments.mk_delivery 2 (u "0") (u "2024-11-10 15:00:01") 3601])
  = ([(Segments.key_of (u "13800138000") 42,
       Client.mk_partial_message (u "13800138000") {[2 := u "2"]} 2 3601)],
     [], Ok ())
  /\
  Client.handle_partial_all
    [(Segments.key_of (u "13800138000") 42,
      Client.mk_partial_message (u "13800138000") {[3 := u "old"]} 3 0)]
    (Segments.calls (u "13800138000") 42 2 str_of_Z
       [Segments.mk_delivery 1 (u "0") (u "2024-11-10 14:00:10") 10;
        Segments.mk_delivery 2 (u "0") (u "2024-11-10 14:00:20") 20])
  = ([],
     [Effects.NotifyAll (u "13800138000") (u "12old") (u "SMS") false;
      Effects.Broadcast
        (Client.new_sms_complete (u "13800138000") (u "12old") (u "2024-11-10 14:00:20"))],
     Ok ()).
Proof. split; vm_compute; reflexivity. Qed.

Section StoreBound.

Import Dict Client.

Lemma dict_del_length_lt {V} (k : pystr) (d : dict pystr V) :
  k ∈ Dict.keys d -> (List.length (Dict.del k d) < List.length d)%nat.
Proof.
  intros Hk. apply list_elem_of_fmap in Hk as ([k' v] & -> & Hin).
  unfold Dict.del. eapply length_filter_lt; [exact Hin|]. simpl. tauto.
Qed.

Lemma delete_expired_length t (pms : store) : len (delete_expired t pms) <= len pms.
Proof.
  unfold delete_expired. generalize (expired_keys t pms). intros ks. revert pms.
  induction ks as [|k ks IH]; intros pms; simpl; [lia|].
  etransitivity; [apply IH|]. unfold len. pose proof (dict_del_length k pms). lia.
Qed.

Lemma evict_oldest_length (pms : store) :
  len pms <= 101 -> len (evict_oldest pms) <= 100.
Proof.
  intros Hlen. unfold evict_oldest.
  destruct (Z.gtb_spec (len pms) 100) as [Hgt|]; [|assumption].
  destruct pms as [|[k0 v0] pms0]; [unfold len in Hgt; simpl in Hgt; lia|].
  unfold py_min, Dict.keys. simpl map. cbv iota.
  match goal with |- context [Dict.del ?k ?d] =>
    pose proof (dict_del_length_lt k d) as Hlt
  end.
  unfold len in *. specialize (Hlt (min_from_elem _ _ _)). lia.
Qed.

(** What the code does maintain: at most 101 records. *)
Lemma partial_store_at_most_101 (pms : store) (sms : SMS) (current_time : Z) :
  len pms <= 101 ->
  len (_handle_partial_sms pms sms current_time).1.1 <= 101.
Proof.
  intros Hlen. unfold _handle_partial_sms.
  destruct (partial sms) as [p|]; [|assumption].
  pose proof (delete_expired_length current_time pms) as H1.
  pose proof (evict_oldest_length (delete_expired current_time pms)) as H2.
  set (cleaned := evict_oldest (delete_expired current_time pms)) in *.
  set (key := sender sms ++ u "_" ++ str_of_Z (Pdu.reference p)).
  set (added := if Dict.mem key cleaned then cleaned else Dict.add key _ cleaned).
  assert (Hadded : len added <= 101).
  { subst added. destruct (Dict.mem key cleaned); [lia|].
    unfold Dict.add, len in *. rewrite length_app. simpl. lia. }
  set (altered := Dict.alter _ key added).
  assert (Haltered : len altered = len added).
  { unfold altered, Dict.alter, len. rewrite length_map. reflexivity. }
  destruct (Dict.get key altered); simpl; [|lia].
  destruct (_ =? _); simpl; [|lia].
  destruct (join_parts _ _); simpl; [|lia].
  pose proof (dict_del_length key altered). unfold len in *. lia.
Qed.

End StoreBound.

(** C2, at 101 arrivals: the first parts of two-part messages from 101
    different senders, one second apart.  The store ends with 101 records,
    not 100: the overflow test [len(...) > 100] runs before the new record
    is added. *)
Theorem partial_store_holds_101 :
  len (Client.handle_partial_all []
         (map (fun i => (Client.mk_SMS (u "0") (str_of_Z i) (u "x") (u "2024-11-10 14:00:00")
                           (Some (Pdu.mk_partial 7 2 1)), i))
              (seqZ 0 101))).1.1
  = 101.
Proof. vm_compute. reflexivity. Qed.

(* --------------------------------------------------------------------- *)
(** *** The AT connection *)

Section ConnectionFacts.

Import Logging Connection.

Lemma slice_to_take {A} (l : list A) (b : Z) :
  0 <= b -> slice_to l b = take (Z.to_nat b) l.
Proof.
  intros Hb. unfold slice_to, clamp_index, len.
  destruct (Z.ltb_spec b 0) as [|_]; [lia|].
  destruct (Z_le_gt_dec b (Z.of_nat (List.length l))) as [Hle|Hgt].
  - f_equal. lia.
  - rewrite !take_ge by lia. reflexivity.
Qed.

Lemma len_nonneg {A} (l : list A) : 0 <= len l.
Proof. unfold len. lia. Qed.

(** The truncated buffer is exactly full. *)
Lemma truncated_length (response chunk : bytes) :
  len response <= max_response_size ->
  len response + len chunk > max_response_size ->
  len (response ++ slice_to chunk (max_response_size - len response)) = max_response_size.
Proof.
  intros Hle Hgt. rewrite len_app, slice_to_take by lia.
  unfold len in *. rewrite length_take. lia.
Qed.

Lemma receive_loop_cap outcomes : forall response log log' r,
  len response <= max_response_size ->
  receive_loop outcomes response log = (log', Returned r)
  \/ receive_loop outcomes response log = (log', TimedOut r) ->
  len r <= max_response_size.
Proof.
  induction outcomes as [|[chunk|e] outcomes IH]; intros response log log' r Hle H; simpl in H.
  - destruct H as [H|H]; [discriminate|]. injection H as _ <-. assumption.
  - destruct (bool_decide (chunk = [])); simpl in H; [eauto|].
    destruct (Z.gtb_spec (len response + len chunk) max_response_size) as [Hgt|Hfit].
    + destruct H as [H|H]; [|discriminate]. injection H as _ <-.
      rewrite truncated_length by lia. lia.
    + destruct (has_terminator (response ++ chunk)).
      * destruct H as [H|H]; [|discriminate]. injection H as _ <-.
        rewrite len_app. lia.
      * eapply IH; [|exact H]. rewrite len_app. lia.
  - destruct (is_Exception e); [eauto|]. destruct H; discriminate.
Qed.

(** What the loop lets through is no [Exception], and a [receive] raised it. *)
Lemma receive_loop_exn outcomes : forall response log log' e,
  receive_loop outcomes response log = (log', Propagated e) ->
  is_Exception e = false /\ Raise e ∈ outcomes.
Proof.
  induction outcomes as [|[chunk|e0] outcomes IH]; intros response log log' e H; simpl in H.
  - discriminate.
  - assert (Hrec : forall response log,
              receive_loop outcomes response log = (log', Propagated e) ->
              is_Exception e = false /\ Raise e ∈ Ok chunk :: outcomes).
    { intros r l Hr. destruct (IH _ _ _ _ Hr). split; [assumption | by right]. }
    destruct (bool_decide (chunk = [])); simpl in H; [eauto|].
    destruct (_ >? _); [discriminate|].
    destruct (has_terminator _); [discriminate | eauto].
  - destruct (is_Exception e0) eqn:He0.
    + destruct (IH _ _ _ _ H). split; [assumption | by right].
    + injection H as _ <-. split; [assumption | by left].
Qed.

(** A loop that ran out of [receive] outcomes would have gone on with more. *)
Lemma receive_loop_app pre more : forall response log log1 r,
  receive_loop pre response log = (log1, TimedOut r) ->
  receive_loop (pre ++ more) response log = receive_loop more r log1.
Proof.
  induction pre as [|[chunk|e] pre IH]; intros response log log1 r H; simpl in *.
  - injection H as <- <-. reflexivity.
  - destruct (bool_decide (chunk = [])); simpl in *; [eauto|].
    destruct (_ >? _); [discriminate|].
    destruct (has_terminator _); [discriminate | eauto].
  - destruct (is_Exception e); [eauto | discriminate].
Qed.

(** At the timeout the buffer holds no terminator. *)
Lemma receive_loop_timed_out outcomes : forall response log log' r,
  receive_loop outcomes response log = (log', TimedOut r) ->
  r = response \/ has_terminator r = false.
Proof.
  induction outcomes as [|[chunk|e] outcomes IH]; intros response log log' r H; simpl in H.
  - injection H as _ <-. left. reflexivity.
  - destruct (bool_decide (chunk = [])); simpl in H; [eauto|].
    destruct (_ >? _); [discriminate|].
    destruct (has_terminator (response ++ chunk)) eqn:Hterm; [discriminate|].
    destruct (IH _ _ _ _ H) as [->|]; [right; assumption | right; assumption].
  - destruct (is_Exception e); [eauto | discriminate].
Qed.

Lemma receive_loop_log_grows outcomes : forall response log log' x,
  receive_loop outcomes response log = (log', x) -> exists more, log' = log ++ more.
Proof.
  induction outcomes as [|[chunk|e] outcomes IH]; intros response log log' x H; simpl in H.
  - injection H as <- _. exists []. rewrite app_nil_r. reflexivity.
  - destruct (bool_decide (chunk = [])); simpl in H; [eauto|].
    destruct (_ >? _); [injection H as <- _; eauto|].
    destruct (has_terminator _); [|eauto].
    injection H as <- _. exists []. rewrite app_nil_r. reflexivity.
  - destruct (is_Exception e).
    + destruct (IH _ _ _ _ H) as [more ->]. rewrite <- app_assoc. eauto.
    + injection H as <- _. exists []. rewrite app_nil_r. reflexivity.
Qed.

Lemma send_command_try_loop self command t :
  reaches_loop self t ->
  exists buf snt,
    send_command_try self command t
    = match receive_loop (receive_outcomes t) [] (logged self) with
      | (log, Returned response) => (mk_conn true buf snt log, Ok response)
      | (log, Propagated e) => (mk_conn true buf snt log, Raise e)
      | (log, TimedOut response) =>
          if bool_decide (response = [])
          then (mk_conn false buf snt log, Raise ConnectionError)
          else (mk_conn true buf snt log, Ok response)
      end.
Proof.
  intros [Hconn [k Hsend]]. unfold send_command_try. rewrite Hsend.
  destruct (is_connected self) eqn:Hc.
  - simpl. rewrite Hc. eauto.
  - destruct Hconn as [|Hconn]; [discriminate|]. rewrite Hconn. simpl. eauto.
Qed.

(** What the [try] block raises: the [ConnectionError] of an empty
    response, or what [connect], [send] or a [receive] raised. *)
Lemma send_command_try_raises self command t self' e :
  send_command_try self command t = (self', Raise e) ->
  e = ConnectionError \/
  (connect_outcome t = Raise e \/ send_outcome t = Raise e \/ Raise e ∈ receive_outcomes t).
Proof.
  unfold send_command_try. intros H.
  assert (Hconnect : forall e0, connect_outcome t = Raise e0 -> e0 = e ->
            e = ConnectionError \/
            (connect_outcome t = Raise e \/ send_outcome t = Raise e
             \/ Raise e ∈ receive_outcomes t)) by (intros e0 He0 <-; auto).
  destruct (is_connected self); [|destruct (connect_outcome t) as [[|]|e0] eqn:Hc];
    cbv beta iota zeta in H; try discriminate;
    try (apply (Hconnect e0 eq_refl); congruence);
    clear Hconnect;
    (destruct (send_outcome t) as [k|e1]; [|injection H as _ <-; auto]);
    (destruct (receive_loop _ _ _) as [log [response|e2|response]] eqn:Hl;
     [discriminate
     |injection H as _ <-; apply receive_loop_exn in Hl as [_ Hin]; auto
     |destruct (bool_decide (response = [])); [injection H as _ <-; auto | discriminate]]).
Qed.

End ConnectionFacts.




Section BufferCap.

Import Logging Connection.

Lemma send_command_try_cap self command t self' r :
  send_command_try self command t = (self', Ok r) -> len r <= max_response_size.
Proof.
  unfold send_command_try.
  set (connected := if is_connected self then _ else _).
  destruct connected as [s [[|]|e]]; try discriminate.
  - destruct (send_outcome t); [|discriminate]. simpl.
    destruct (receive_loop _ _ _) as [log [response|e|response]] eqn:Hloop.
    + intros [= _ <-]. eapply receive_loop_cap; [|left; exact Hloop]. vm_compute. discriminate.
    + discriminate.
    + destruct (bool_decide (response = [])); [discriminate|].
      intros [= _ <-]. eapply receive_loop_cap; [|right; exact Hloop]. vm_compute. discriminate.
  - intros [= _ <-]. vm_compute. discriminate.
Qed.

Lemma contains_replicate (x : byte) (pat : bytes) (k : nat) :
  match head pat with Some p => p <> x | None => False end ->
  contains pat (replicate k x) = false.
Proof.
  destruct pat as [|p pat]; simpl; [tauto|]. intros Hne.
  induction k as [|k IH]; [reflexivity|].
  simpl. rewrite bool_decide_eq_false_2 by assumption. exact IH.
Qed.

Lemma has_terminator_replicate_A (k : nat) : has_terminator (replicate k x41) = false.
Proof.
  unfold has_terminator.
  rewrite !contains_replicate by (vm_compute; discriminate). reflexivity.
Qed.

Lemma receive_loop_single (chunk : bytes) (log : list log_record) :
  chunk <> [] -> len chunk <= max_response_size -> has_terminator chunk = false ->
  receive_loop [Ok chunk] [] log = (log, TimedOut chunk).
Proof.
  intros Hne Hlen Hterm. simpl.
  rewrite bool_decide_eq_false_2 by assumption. simpl.
  destruct (Z.gtb_spec (len (@nil byte) + len chunk) max_response_size) as [Hgt|_].
  - change (len (@nil byte)) with 0 in Hgt. lia.
  - rewrite Hterm. reflexivity.
Qed.

End BufferCap.

(** C4.  The response [send_command] returns never exceeds 1 MiB.  When
    the buffer holds [resp] and the next chunk would take it past the cap,
    the call returns [resp] followed by as much of the chunk as fits --
    exactly 1 MiB -- and the truncation warning is the last record logged. *)
Theorem send_command_buffer_cap
    (self : Connection.ATConnection) (command : pystr) (t : Connection.transport) :
  (forall self' r,
     Connection.send_command self command t = (self', Ok r) ->
     len r <= 1048576) /\
  (forall pre chunk rest log1 resp,
     Connection.reaches_loop self t ->
     Connection.receive_outcomes t = pre ++ Ok chunk :: rest ->
     Connection.receive_loop pre [] (Connection.logged self) = (log1, Connection.TimedOut resp) ->
     chunk <> [] ->
     len resp + len chunk > 1048576 ->
     exists self',
       Connection.send_command self command t
         = (self', Ok (resp ++ take (Z.to_nat (1048576 - len resp)) chunk)) /\
       len (resp ++ take (Z.to_nat (1048576 - len resp)) chunk) = 1048576 /\
       Connection.logged self' = log1 ++ [Connection.truncation_warning]).
Proof.
  change 1048576 with Connection.max_response_size. split.
  - intros self' r H. unfold Connection.send_command in H.
    destruct (Connection.send_command_try self command t) as [s [r0|e]] eqn:Htry.
    + injection H as _ <-. eapply send_command_try_cap, Htry.
    + destruct (is_Exception e); [|discriminate]. injection H as _ <-.
      vm_compute. discriminate.
  - intros pre chunk rest log1 resp Hreach Houts Hpre Hne Hover.
    assert (Hcap : len resp <= Connection.max_response_size).
    { eapply receive_loop_cap; [|right; exact Hpre]. vm_compute. discriminate. }
    destruct (send_command_try_loop self command t Hreach) as (buf & snt & Htry).
    rewrite Houts, (receive_loop_app _ _ _ _ _ _ Hpre) in Htry.
    simpl in Htry. rewrite bool_decide_eq_false_2 in Htry by assumption.
    simpl in Htry.
    destruct (Z.gtb_spec (len resp + len chunk) Connection.max_response_size) as [_|]; [|lia].
    rewrite slice_to_take in Htry by lia.
    unfold Connection.send_command. rewrite Htry.
    eexists. split; [reflexivity|]. split; [|reflexivity].
    rewrite <- slice_to_take by lia. apply truncated_length; assumption.
Qed.

(** One mebibyte of "A" arrives, then one byte more. *)
Lemma send_command_buffer_cap_witness :
  exists self',
    Connection.send_command (Connection.mk_conn true [] [] []) (u "AT")
      (Connection.mk_transport (Ok true) (Ok 3)
         [Ok (replicate (Z.to_nat 1048576) x41); Ok [x41]])
    = (self',
       Ok (replicate (Z.to_nat 1048576) x41
           ++ take (Z.to_nat (1048576 - len (replicate (Z.to_nat 1048576) x41))) [x41])) /\
    len (replicate (Z.to_nat 1048576) x41
         ++ take (Z.to_nat (1048576 - len (replicate (Z.to_nat 1048576) x41))) [x41])
    = 1048576 /\
    Connection.logged self' = [] ++ [Connection.truncation_warning].
Proof.
  assert (Hlen : len (replicate (Z.to_nat 1048576) x41) = 1048576).
  { unfold len. rewrite length_replicate. lia. }
  apply (proj2 (send_command_buffer_cap (Connection.mk_conn true [] [] []) (u "AT")
           (Connection.mk_transport (Ok true) (Ok 3)
              [Ok (replicate (Z.to_nat 1048576) x41); Ok [x41]]))
           [Ok (replicate (Z.to_nat 1048576) x41)] [x41] []).
  - split; [left; reflexivity | exists 3; reflexivity].
  - reflexivity.
  - apply receive_loop_single.
    + intros Heq. rewrite Heq in Hlen. discriminate Hlen.
    + rewrite Hlen. reflexivity.
    + apply has_terminator_replicate_A.
  - discriminate.
  - rewrite Hlen. reflexivity.
Defined.

(* --------------------------------------------------------------------- *)
(** *** The call handler *)

Section CallFacts.

Import Effects Calls.

Lemma handle_invariant self line now time_str :
  call_invariant self -> call_invariant (handle self line now time_str).1.
Proof.
  intros (Ht & Hring & Hidle). unfold handle.
  destruct (contains (u "RING") line || contains (u "IRING") line).
  { repeat split; simpl; [assumption | discriminate]. }
  destruct (startswith (u "+CLIP:") line).
  { destruct (ring_received self) eqn:Hr; simpl;
      destruct (clip_search line) as [phone|];
      try destruct (should_notify _ phone now);
      repeat split; simpl; try congruence; auto. }
  destruct (contains (u "^CEND:") line || contains (u "NO CARRIER") line).
  { repeat split; simpl; congruence. }
  repeat split; assumption.
Qed.

Lemma reachable_invariant self : reachable self -> call_invariant self.
Proof.
  induction 1 as [|self line now time_str _ IH].
  - repeat split; simpl; congruence.
  - apply handle_invariant, IH.
Qed.

(** A text that does not contain [sub] does not contain [c :: sub]. *)
Lemma contains_longer {A} `{EqDecision A} (c : A) (sub l : list A) :
  contains sub l = false -> contains (c :: sub) l = false.
Proof.
  induction l as [|x l IH]; intros Hno.
  - reflexivity.
  - change (contains sub (x :: l)) with (startswith sub (x :: l) || contains sub l) in Hno.
    apply orb_false_iff in Hno as [_ Hrest].
    change (contains (c :: sub) (x :: l))
      with (bool_decide (c = x) && startswith sub l || contains (c :: sub) l).
    rewrite (IH Hrest), orb_false_r.
    assert (Hs : startswith sub l = false).
    { destruct l; simpl in Hrest; apply orb_false_iff in Hrest; tauto. }
    rewrite Hs. apply andb_false_r.
Qed.

(** On a [+CLIP] line the handler is ringing by the time [should_notify]
    is evaluated, so the test comes down to the number and the time. *)
Lemma handle_clip self line number now time_str :
  call_invariant self -> clip_line line number ->
  handle self line now time_str
  = if negb (bool_decide (Some number = last_call_number self))
       || (now - last_call_time self >? 30)
    then (mk_handler (Some number) now 30 (ring_received self) ringing,
          [NotifyAll sender_label (ringing_content time_str number) (u "CALL") false;
           Broadcast (incoming_call time_str number (u "ringing"))])
    else (mk_handler (last_call_number self) (last_call_time self) 30
                     (ring_received self) ringing, []).
Proof.
  intros (Ht & Hring & Hidle) (Hnoring & Hclip & Hnum). unfold handle.
  assert (Hiring : contains (u "IRING") line = false).
  { change (u "IRING") with (73%N :: u "RING"). apply contains_longer, Hnoring. }
  rewrite Hnoring, Hiring, Hclip, Hnum. simpl.
  unfold should_notify.
  destruct self as [last_number last_time timeout [|] state]; simpl in *; subst timeout.
  - rewrite (Hring eq_refl). simpl. rewrite orb_false_r.
    destruct (_ || _); reflexivity.
  - rewrite orb_false_r. destruct (_ || _); reflexivity.
Qed.

End CallFacts.

Section CallEnd.

Import Effects Calls.

Lemma handle_end self line now time_str :
  call_invariant self -> end_line line ->
  (handle self line now time_str).1 = mk_handler None 0 30 false idle.
Proof.
  intros (Ht & _) (Hnoring & Hclip & Hend). unfold handle.
  assert (Hiring : contains (u "IRING") line = false).
  { change (u "IRING") with (73%N :: u "RING"). apply contains_longer, Hnoring. }
  rewrite Hnoring, Hiring, Hclip. simpl.
  assert (Hor : contains (u "^CEND:") line || contains (u "NO CARRIER") line = true)
    by (destruct Hend as [-> | ->]; [reflexivity | apply orb_true_r]).
  rewrite Hor. simpl. rewrite Ht. reflexivity.
Qed.

End CallEnd.

(** C7, as the code has it.  For a handler state reached from
    [__init__] and a line that does not contain RING, starts with +CLIP:
    and carries an extractable number: the CALL notification and the
    incoming_call broadcast with state "ringing" are sent if the number
    differs from [last_call_number], or more than 30 seconds have passed
    since [last_call_time], or the state was idle; otherwise nothing is
    sent.  Hence two such lines with the same number within 30 seconds,
    the first of which notifies, send exactly one notification, and after
    a NO CARRIER or ^CEND: line (which resets the handler) the next such
    line always notifies. *)
Theorem clip_notification
    (self : Calls.CallHandler) (line number : pystr) (now : Z) (time_str : pystr) :
  Calls.reachable self ->
  Calls.clip_line line number ->
  ((Some number <> Calls.last_call_number self
    \/ now - Calls.last_call_time self > 30
    \/ Calls.current_call_state self = Calls.idle) ->
   (Calls.handle self line now time_str).2 = Calls.ringing_effects time_str number) /\
  (~ (Some number <> Calls.last_call_number self
      \/ now - Calls.last_call_time self > 30
      \/ Calls.current_call_state self = Calls.idle) ->
   (Calls.handle self line now time_str).2 = []) /\
  (forall line2 now2 time_str2,
     Calls.clip_line line2 number ->
     now2 - now <= 30 ->
     (Some number <> Calls.last_call_number self
      \/ now - Calls.last_call_time self > 30
      \/ Calls.current_call_state self = Calls.idle) ->
     (Calls.handle self line now time_str).2
       ++ (Calls.handle (Calls.handle self line now time_str).1 line2 now2 time_str2).2
     = Calls.ringing_effects time_str number) /\
  (forall end_line now0 time_str0,
     Calls.end_line end_line ->
     (Calls.handle self end_line now0 time_str0).1
       = Calls.mk_handler None 0 30 false Calls.idle /\
     (Calls.handle (Calls.handle self end_line now0 time_str0).1 line now time_str).2
       = Calls.ringing_effects time_str number).
Proof.
  intros Hreach Hline.
  pose proof (reachable_invariant self Hreach) as Hinv.
  pose proof (handle_clip self line number now time_str Hinv Hline) as Hstep.
  assert (Hcond : (Some number <> Calls.last_call_number self
                   \/ now - Calls.last_call_time self > 30
                   \/ Calls.current_call_state self = Calls.idle)
                  <-> negb (bool_decide (Some number = Calls.last_call_number self))
                      || (now - Calls.last_call_time self >? 30) = true).
  { rewrite orb_true_iff, negb_true_iff, bool_decide_eq_false, Z.gtb_gt.
    split; [|tauto]. intros [H|[H|H]]; [tauto | tauto |].
    left. destruct Hinv as (_ & _ & Hidle). rewrite (Hidle H). discriminate. }
  assert (Hyes : (Some number <> Calls.last_call_number self
                  \/ now - Calls.last_call_time self > 30
                  \/ Calls.current_call_state self = Calls.idle) ->
                 Calls.handle self line now time_str
                 = (Calls.mk_handler (Some number) now 30 (Calls.ring_received self)
                      Calls.ringing,
                    Calls.ringing_effects time_str number)).
  { intros H%Hcond. rewrite Hstep, H. reflexivity. }
  repeat split.
  - intros H. rewrite (Hyes H). reflexivity.
  - intros H. rewrite Hstep. rewrite Hcond in H.
    apply not_true_is_false in H. rewrite H. reflexivity.
  - intros line2 now2 time_str2 Hline2 Hsoon H.
    rewrite (Hyes H). simpl.
    rewrite (handle_clip _ line2 number now2 time_str2); [|repeat split; simpl; congruence | assumption].
    simpl. rewrite bool_decide_eq_true_2 by reflexivity. simpl.
    destruct (Z.gtb_spec (now2 - now) 30) as [|_]; [lia|]. reflexivity.
  - apply handle_end; assumption.
  - rewrite (handle_end _ _ _ _ Hinv H).
    rewrite (handle_clip _ line number now time_str); [|repeat split; simpl; congruence | assumption].
    reflexivity.
Qed.

(** A fresh handler and the line [+CLIP: "15555550100",129]. *)
Lemma clip_notification_witness :
  (Calls.handle Calls.init
     (u "+CLIP: " ++ [34%N] ++ u "15555550100" ++ [34%N] ++ u ",129")
     1000 (u "2024-11-10 14:00:00")).2
  = Calls.ringing_effects (u "2024-11-10 14:00:00") (u "15555550100").
Proof.
  refine (proj1 (clip_notification Calls.init
            (u "+CLIP: " ++ [34%N] ++ u "15555550100" ++ [34%N] ++ u ",129")
            (u "15555550100") 1000 (u "2024-11-10 14:00:00") _ _) _).
  - apply Calls.reachable_init.
  - repeat split; vm_compute; reflexivity.
  - left. discriminate.
Defined.

(** C7 as stated fails for a +CLIP line that contains RING, here in the
    name field: the handler takes the line as a RING, so a fresh handler
    sends nothing although the number differs from [last_call_number]. *)
Lemma clip_line_containing_ring :
  Calls.handle Calls.init
    (u "+CLIP: " ++ [34%N] ++ u "13800138000" ++ [34%N] ++ u ",129,,,"
       ++ [34%N] ++ u "SPRING" ++ [34%N] ++ u ",0")
    1000 (u "2024-11-10 14:00:00")
  = (Calls.mk_handler None 0 30 true Calls.ringing, [])
  /\ Calls.clip_search
       (u "+CLIP: " ++ [34%N] ++ u "13800138000" ++ [34%N] ++ u ",129,,,"
          ++ [34%N] ++ u "SPRING" ++ [34%N] ++ u ",0")
     = Some (u "13800138000").
Proof. split; vm_compute; reflexivity. Qed.

(* --------------------------------------------------------------------- *)
(** *** The webhook sender *)

Section WeChatFacts.

Import Logging WeChat.

Variables (self : WeChatNotification) (sender content : pystr) (attempts : nat -> attempt).

Lemma do_send_loop_posts fuel : forall k retries,
  (List.length (List.filter is_post (do_send_loop self sender content attempts fuel k retries).1)
   <= fuel)%nat.
Proof.
  induction fuel as [|fuel IH]; intros k retries; simpl; [lia|].
  destruct (retries <? max_retries self); [|simpl; lia].
  destruct (attempt_result (attempts k)) as [|e]; [simpl; lia|].
  destruct (is_Exception e); [|simpl; lia].
  destruct (bool_decide (e = TimeoutError)); [simpl; lia|].
  destruct (retries + 1 <? max_retries self); [|simpl; lia].
  specialize (IH (S k) (retries + 1)).
  destruct (do_send_loop self sender content attempts fuel (S k) (retries + 1)) as [steps r].
  simpl in *. lia.
Qed.

(** What [_do_send] raises is no [Exception], and one of the attempts
    made raised it. *)
Lemma do_send_loop_raises fuel : forall k retries e,
  (do_send_loop self sender content attempts fuel k retries).2 = Raise e ->
  is_Exception e = false /\
  exists j, (k <= j < k + fuel)%nat /\ attempt_result (attempts j) = Raise e.
Proof.
  induction fuel as [|fuel IH]; intros k retries e; simpl; [discriminate|].
  destruct (retries <? max_retries self); [|discriminate].
  destruct (attempt_result (attempts k)) as [|e0] eqn:Ha; [discriminate|].
  destruct (is_Exception e0) eqn:He0.
  - destruct (bool_decide (e0 = TimeoutError)); [discriminate|].
    destruct (retries + 1 <? max_retries self); [|discriminate].
    specialize (IH (S k) (retries + 1) e).
    destruct (do_send_loop self sender content attempts fuel (S k) (retries + 1)) as [steps r].
    simpl in *. intros Hr. destruct (IH Hr) as (He & j & Hj & Hraise).
    split; [assumption|]. exists j. split; [lia | assumption].
  - simpl. intros [= <-]. split; [assumption|]. exists k. split; [lia | assumption].
Qed.

End WeChatFacts.

Section WeChatAttempt.

Import WeChat.

Lemma attempt_result_ok a :
  attempt_result a = Ok () <->
  exists items, a = Response 200 (Ok (JDict items))
                /\ equals_zero (Dict.get (u "errcode") items) = true.
Proof.
  split.
  - destruct a as [e|status body]; simpl; [discriminate|].
    destruct (Z.eqb_spec status 200) as [->|]; [|discriminate].
    destruct body as [[items|v]|e]; try discriminate.
    + destruct (equals_zero _) eqn:E; [eauto | discriminate].
    + destruct e; discriminate.
  - intros (items & -> & Hz). simpl. rewrite Hz. reflexivity.
Qed.

End WeChatAttempt.

(** C8, as the code has it.  [_do_send] posts at most 3 times.  An attempt
    succeeds exactly when the status is 200 and the JSON body is an object
    whose errcode equals 0, and a success ends the call.  An attempt that
    raises [asyncio.TimeoutError] -- the first, the second or the third --
    ends the call at once with a warning and no retry.  An attempt that
    raises what is no [Exception] ([KeyboardInterrupt], or the
    [asyncio.CancelledError] of a cancelled task) ends the call by raising
    it to the caller; nothing else is raised.  Every other failing attempt
    is tried again, after 1 s x the number of failures so far; after 3
    such failures the message is dropped with an error record. *)
Theorem do_send_retry (url sender content : pystr) (attempts : nat -> WeChat.attempt) :
  (List.length
     (List.filter WeChat.is_post
        (WeChat._do_send (WeChat.init url) sender content attempts).1) <= 3)%nat /\
  (forall a, WeChat.attempt_result a = Ok () <->
     exists items, a = WeChat.Response 200 (Ok (WeChat.JDict items))
                   /\ WeChat.equals_zero (Dict.get (u "errcode") items) = true) /\
  (forall e, (WeChat._do_send (WeChat.init url) sender content attempts).2 = Raise e ->
     is_Exception e = false /\
     exists k, (k < 3)%nat /\ WeChat.attempt_result (attempts k) = Raise e) /\
  (WeChat.attempt_result (attempts 0%nat) = Ok () ->
   WeChat._do_send (WeChat.init url) sender content attempts
   = ([WeChat.Post url content; WeChat.succeeded sender], Ok ())) /\
  (WeChat.attempt_result (attempts 0%nat) = Raise TimeoutError ->
   WeChat._do_send (WeChat.init url) sender content attempts
   = ([WeChat.Post url content; WeChat.timed_out], Ok ())) /\
  (forall e, WeChat.attempt_result (attempts 0%nat) = Raise e -> is_Exception e = false ->
   WeChat._do_send (WeChat.init url) sender content attempts
   = ([WeChat.Post url content], Raise e)) /\
  (forall e0, WeChat.retriable (attempts 0%nat) e0 ->
     WeChat.attempt_result (attempts 1%nat) = Ok () ->
     WeChat._do_send (WeChat.init url) sender content attempts
     = ([WeChat.Post url content; WeChat.failed 1 3 e0; WeChat.Sleep 1;
         WeChat.Post url content; WeChat.succeeded sender], Ok ())) /\
  (forall e0, WeChat.retriable (attempts 0%nat) e0 ->
     WeChat.attempt_result (attempts 1%nat) = Raise TimeoutError ->
     WeChat._do_send (WeChat.init url) sender content attempts
     = ([WeChat.Post url content; WeChat.failed 1 3 e0; WeChat.Sleep 1;
         WeChat.Post url content; WeChat.timed_out], Ok ())) /\
  (forall e0 e, WeChat.retriable (attempts 0%nat) e0 ->
     WeChat.attempt_result (attempts 1%nat) = Raise e -> is_Exception e = false ->
     WeChat._do_send (WeChat.init url) sender content attempts
     = ([WeChat.Post url content; WeChat.failed 1 3 e0; WeChat.Sleep 1;
         WeChat.Post url content], Raise e)) /\
  (forall e0 e1, WeChat.retriable (attempts 0%nat) e0 ->
     WeChat.retriable (attempts 1%nat) e1 ->
     WeChat.attempt_result (attempts 2%nat) = Ok () ->
     WeChat._do_send (WeChat.init url) sender content attempts
     = ([WeChat.Post url content; WeChat.failed 1 3 e0; WeChat.Sleep 1;
         WeChat.Post url content; WeChat.failed 2 3 e1; WeChat.Sleep 2;
         WeChat.Post url content; WeChat.succeeded sender], Ok ())) /\
  (forall e0 e1, WeChat.retriable (attempts 0%nat) e0 ->
     WeChat.retriable (attempts 1%nat) e1 ->
     WeChat.attempt_result (attempts 2%nat) = Raise TimeoutError ->
     WeChat._do_send (WeChat.init url) sender content attempts
     = ([WeChat.Post url content; WeChat.failed 1 3 e0; WeChat.Sleep 1;
         WeChat.Post url content; WeChat.failed 2 3 e1; WeChat.Sleep 2;
         WeChat.Post url content; WeChat.timed_out], Ok ())) /\
  (forall e0 e1 e, WeChat.retriable (attempts 0%nat) e0 ->
     WeChat.retriable (attempts 1%nat) e1 ->
     WeChat.attempt_result (attempts 2%nat) = Raise e -> is_Exception e = false ->
     WeChat._do_send (WeChat.init url) sender content attempts
     = ([WeChat.Post url content; WeChat.failed 1 3 e0; WeChat.Sleep 1;
         WeChat.Post url content; WeChat.failed 2 3 e1; WeChat.Sleep 2;
         WeChat.Post url content], Raise e)) /\
  (forall e0 e1 e2, WeChat.retriable (attempts 0%nat) e0 ->
     WeChat.retriable (attempts 1%nat) e1 ->
     WeChat.retriable (attempts 2%nat) e2 ->
     WeChat._do_send (WeChat.init url) sender content attempts
     = ([WeChat.Post url content; WeChat.failed 1 3 e0; WeChat.Sleep 1;
         WeChat.Post url content; WeChat.failed 2 3 e1; WeChat.Sleep 2;
         WeChat.Post url content; WeChat.failed 3 3 e2; WeChat.gave_up], Ok ())).
Proof.
  assert (Hretry : forall a e, WeChat.retriable a e ->
            WeChat.attempt_result a = Raise e /\ is_Exception e = true
            /\ bool_decide (e = TimeoutError) = false).
  { intros a e (Hr & Hex & Hne). rewrite bool_decide_eq_false. auto. }
  split; [apply do_send_loop_posts|].
  split; [apply attempt_result_ok|].
  split.
  { intros e He. apply do_send_loop_raises in He as (Hex & j & Hj & Hraise).
    split; [assumption|]. exists j. split; [exact (proj2 Hj) | assumption]. }
  unfold WeChat._do_send. simpl.
  split; [intros ->; reflexivity|].
  split; [intros ->; reflexivity|].
  split; [intros e -> ->; reflexivity|].
  split.
  { intros e0 (-> & -> & ->)%Hretry ->. reflexivity. }
  split.
  { intros e0 (-> & -> & ->)%Hretry ->. reflexivity. }
  split.
  { intros e0 e (-> & -> & ->)%Hretry -> ->. reflexivity. }
  split.
  { intros e0 e1 (-> & -> & ->)%Hretry (-> & -> & ->)%Hretry ->. reflexivity. }
  split.
  { intros e0 e1 (-> & -> & ->)%Hretry (-> & -> & ->)%Hretry ->. reflexivity. }
  split.
  { intros e0 e1 e (-> & -> & ->)%Hretry (-> & -> & ->)%Hretry -> ->. reflexivity. }
  intros e0 e1 e2 (-> & -> & ->)%Hretry (-> & -> & ->)%Hretry (-> & -> & ->)%Hretry.
  reflexivity.
Qed.

(** Two HTTP 500 replies followed by a 200 with errcode 0; three HTTP 500
    replies; and an HTTP 500 reply followed by a timeout. *)
Lemma do_send_retry_witness :
  WeChat._do_send (WeChat.init (u "https://example.invalid/hook")) (u "batch") (u "text")
    (fun k => match k with
              | 2%nat => WeChat.Response 200 (Ok (WeChat.JDict [(u "errcode", WeChat.JInt 0)]))
              | _ => WeChat.Response 500 (Raise JSONDecodeError)
              end)
  = ([WeChat.Post (u "https://example.invalid/hook") (u "text");
      WeChat.failed 1 3 GenericException; WeChat.Sleep 1;
      WeChat.Post (u "https://example.invalid/hook") (u "text");
      WeChat.failed 2 3 GenericException; WeChat.Sleep 2;
      WeChat.Post (u "https://example.invalid/hook") (u "text");
      WeChat.succeeded (u "batch")], Ok ())
  /\
  WeChat._do_send (WeChat.init (u "https://example.invalid/hook")) (u "batch") (u "text")
    (fun _ => WeChat.Response 500 (Raise JSONDecodeError))
  = ([WeChat.Post (u "https://example.invalid/hook") (u "text");
      WeChat.failed 1 3 GenericException; WeChat.Sleep 1;
      WeChat.Post (u "https://example.invalid/hook") (u "text");
      WeChat.failed 2 3 GenericException; WeChat.Sleep 2;
      WeChat.Post (u "https://example.invalid/hook") (u "text");
      WeChat.failed 3 3 GenericException; WeChat.gave_up], Ok ())
  /\
  WeChat._do_send (WeChat.init (u "https://example.invalid/hook")) (u "batch") (u "text")
    (fun k => match k with
              | O => WeChat.Response 500 (Raise JSONDecodeError)
              | _ => WeChat.PostRaises TimeoutError
              end)
  = ([WeChat.Post (u "https://example.invalid/hook") (u "text");
      WeChat.failed 1 3 GenericException; WeChat.Sleep 1;
      WeChat.Post (u "https://example.invalid/hook") (u "text");
      WeChat.timed_out], Ok ()).
Proof.
  split; [|split].
  - refine (proj1 (proj2 (proj2 (proj2 (proj2 (proj2 (proj2 (proj2 (proj2 (proj2
             (do_send_retry (u "https://example.invalid/hook") (u "batch") (u "text") _))))))))))
             GenericException GenericException _ _ _);
      [repeat split; discriminate | repeat split; discriminate | reflexivity].
  - refine (proj2 (proj2 (proj2 (proj2 (proj2 (proj2 (proj2 (proj2 (proj2 (proj2 (proj2 (proj2
             (do_send_retry (u "https://example.invalid/hook") (u "batch") (u "text") _))))))))))))
             GenericException GenericException GenericException _ _ _);
      repeat split; discriminate.
  - refine (proj1 (proj2 (proj2 (proj2 (proj2 (proj2 (proj2 (proj2
             (do_send_retry (u "https://example.invalid/hook") (u "batch") (u "text") _))))))))
             GenericException _ _);
      [repeat split; discriminate | reflexivity].
Defined.

(** C8 as stated fails for a timeout: when the first POST raises
    [asyncio.TimeoutError], [_do_send] logs a warning and returns after
    that single attempt, whatever later attempts would have met. *)
Lemma do_send_timeout_not_retried :
  WeChat._do_send (WeChat.init (u "https://example.invalid/hook")) (u "batch") (u "text")
    (fun k => match k with
              | O => WeChat.PostRaises TimeoutError
              | _ => WeChat.Response 200 (Ok (WeChat.JDict [(u "errcode", WeChat.JInt 0)]))
              end)
  = ([WeChat.Post (u "https://example.invalid/hook") (u "text"); WeChat.timed_out], Ok ()).
Proof. vm_compute. reflexivity. Qed.

(* --------------------------------------------------------------------- *)
(** *** The scheduled frequency lock *)

Section ScheduleFacts.

Import Effects Schedule.

Variable strftime : Z -> pystr.
Variable _build_lte_command : Z -> list pystr -> pystr -> pystr -> result pystr.
Variable _build_nr_command : Z -> list pystr -> pystr -> pystr -> pystr -> result pystr.

Implicit Types (s : ScheduleFrequencyLock * world) (self : ScheduleFrequencyLock).

Lemma runs_bind {A B} (m : M A) (k : A -> M B) s Q :
  runs m s (fun a self1 w1 => runs (k a) (self1, w1) Q) ->
  runs (m ≫= k) s Q.
Proof.
  intros (a & self1 & w1 & Hm & b & self2 & w2 & Hk & HQ).
  exists b, self2, w2. unfold mbind, M_bind. rewrite Hm. auto.
Qed.

Lemma runs_weaken {A} (m : M A) s (Q Q' : A -> ScheduleFrequencyLock -> world -> Prop) :
  runs m s Q -> (forall a self' w', Q a self' w' -> Q' a self' w') -> runs m s Q'.
Proof. intros (a & self' & w' & Hm & HQ) Himp. exists a, self', w'. auto. Qed.

Lemma runs_ret {A} (a : A) self w (Q : A -> ScheduleFrequencyLock -> world -> Prop) :
  Q a self w -> runs (mret a) (self, w) Q.
Proof. intros HQ. exists a, self, w. auto. Qed.

Lemma runs_send command self w Q :
  (forall response w',
     sent w' = sent w ++ [command] -> notified w' = notified w -> Q response self w') ->
  runs (send_command command) (self, w) Q.
Proof.
  intros HQ. unfold runs, send_command. simpl.
  destruct (replies w) as [|[response elapsed] rest]; do 3 eexists;
    (split; [reflexivity | apply HQ; reflexivity]).
Qed.

Lemma runs_sleep seconds self w (Q : unit -> ScheduleFrequencyLock -> world -> Prop) :
  (forall w', sent w' = sent w -> notified w' = notified w -> Q () self w') ->
  runs (sleep seconds) (self, w) Q.
Proof. intros HQ. do 3 eexists. split; [reflexivity | apply HQ; reflexivity]. Qed.

Lemma runs_time self w (Q : Z -> ScheduleFrequencyLock -> world -> Prop) :
  Q (clock w) self w -> runs time (self, w) Q.
Proof. intros HQ. do 3 eexists. split; [reflexivity | exact HQ]. Qed.

Lemma runs_get_self self w (Q : ScheduleFrequencyLock -> ScheduleFrequencyLock -> world -> Prop) :
  Q self self w -> runs get_self (self, w) Q.
Proof. intros HQ. do 3 eexists. split; [reflexivity | exact HQ]. Qed.

Lemma runs_set_self f self w (Q : unit -> ScheduleFrequencyLock -> world -> Prop) :
  Q () (f self) w -> runs (set_self f) (self, w) Q.
Proof. intros HQ. do 3 eexists. split; [reflexivity | exact HQ]. Qed.

Lemma runs_notify sender content typ self w
    (Q : unit -> ScheduleFrequencyLock -> world -> Prop) :
  (forall w', sent w' = sent w ->
              notified w' = notified w ++ [NotifyAll sender content typ false] ->
              Q () self w') ->
  runs (notify_all sender content typ) (self, w) Q.
Proof. intros HQ. do 3 eexists. split; [reflexivity | apply HQ; reflexivity]. Qed.

Lemma runs_try_except {A} (m : M A) h s Q : runs m s Q -> runs (try_except m h) s Q.
Proof.
  intros (a & self' & w' & Hm & HQ). exists a, self', w'.
  unfold try_except. rewrite Hm. auto.
Qed.

Lemma runs_try_finally {A} (m : M A) (f : M unit) s Q :
  runs m s (fun a self1 w1 => runs f (self1, w1) (fun _ self2 w2 => Q a self2 w2)) ->
  runs (try_finally m f) s Q.
Proof.
  intros (a & self1 & w1 & Hm & [] & self2 & w2 & Hf & HQ).
  exists a, self2, w2. unfold try_finally. rewrite Hm, Hf. auto.
Qed.

(** An unlock step sends its command exactly when the flag is set. *)
Lemma runs_unlock_step bands build (unlock : bool) command locked unlocked operations
    self w (Q : list pystr -> ScheduleFrequencyLock -> world -> Prop) :
  (forall operations' w',
     sent w' = sent w ++ (if unlock then [command] else []) ->
     notified w' = notified w ->
     Q operations' self w') ->
  runs (lock_step 0 bands build unlock command locked unlocked operations) (self, w) Q.
Proof.
  intros HQ. unfold lock_step. simpl. destruct unlock.
  - apply runs_bind, runs_send. intros response w1 Hs1 Hn1.
    apply runs_bind, runs_sleep. intros w2 Hs2 Hn2.
    apply runs_ret, HQ; congruence.
  - apply runs_ret, HQ; [rewrite app_nil_r|]; reflexivity.
Qed.

Lemma runs_unlock mode_text self w (Q : unit -> ScheduleFrequencyLock -> world -> Prop) :
  is_switching self = false ->
  (forall w' message,
     sent w' = sent w ++ unlock_commands self ->
     notified w' = notified w ++ [NotifyAll (u "定时锁频切换") message (u "SIGNAL") false] ->
     Q () (set_switching false (count_switch self)) w') ->
  runs (set_frequency_lock strftime _build_lte_command _build_nr_command unlock_config mode_text)
       (self, w) Q.
Proof.
  intros Hsw HQ. unfold set_frequency_lock.
  apply runs_bind, runs_get_self. rewrite Hsw.
  apply runs_bind, runs_set_self.
  apply runs_bind, runs_set_self.
  apply runs_try_finally, runs_try_except.
  apply runs_bind, runs_get_self.
  set (self1 := count_switch (set_switching true self)).
  change (toggle_airplane self1) with (toggle_airplane self).
  change (unlock_lte self1) with (unlock_lte self).
  change (unlock_nr self1) with (unlock_nr self).
  change (lte_type unlock_config) with 0. change (nr_type unlock_config) with 0.
  unfold unlock_commands in HQ.
  apply runs_bind.
  apply (runs_weaken _ _ (fun _ self' w' =>
           self' = self1 /\
           sent w' = sent w ++ (if toggle_airplane self then [u "AT+CFUN=0" ++ CRLF] else []) /\
           notified w' = notified w)).
  { destruct (toggle_airplane self).
    - apply runs_bind, runs_send. intros response w1 Hs1 Hn1.
      destruct (ok_in response).
      + apply runs_sleep. intros w2 Hs2 Hn2. repeat split; congruence.
      + apply runs_ret. auto.
    - apply runs_ret. rewrite app_nil_r. auto. }
  intros [] ? w1 (-> & Hs1 & Hn1).
  apply runs_bind, runs_unlock_step. intros ops2 w2 Hs2 Hn2.
  apply runs_bind, runs_unlock_step. intros ops3 w3 Hs3 Hn3.
  apply runs_bind.
  apply (runs_weaken _ _ (fun _ self' w' =>
           self' = self1 /\
           sent w' = sent w3 ++ (if toggle_airplane self then [u "AT+CFUN=1" ++ CRLF] else []) /\
           notified w' = notified w3)).
  { destruct (toggle_airplane self).
    - apply runs_bind, runs_send. intros response w4 Hs4 Hn4.
      apply runs_bind, runs_sleep. intros w5 Hs5 Hn5.
      apply runs_ret. repeat split; congruence.
    - apply runs_ret. rewrite app_nil_r. auto. }
  intros ops4 ? w4 (-> & Hs4 & Hn4).
  apply runs_bind, runs_time.
  apply runs_notify. intros w5 Hs5 Hn5.
  apply runs_set_self.
  eapply HQ.
  - rewrite Hs5, Hs4, Hs3, Hs2, Hs1, <- !app_assoc. reflexivity.
  - rewrite Hn5, Hn4, Hn3, Hn2, Hn1. reflexivity.
Qed.
Lemma check_network_status_eq self w :
  exists w1,
    check_network_status (self, w)
    = (Ok (registered (u "+CREG") (decode_ascii_ignore (reply 0 w))
           || registered (u "+CEREG") (decode_ascii_ignore (reply 1 w))),
       (self, w1)).
Proof.
  unfold check_network_status, try_except, mbind, M_bind, send_command, reply. simpl.
  destruct (replies w) as [|[r1 d1] rest]; simpl.
  - eexists. reflexivity.
  - destruct (registered (u "+CREG") (decode_ascii_ignore r1)); simpl; [eauto|].
    destruct rest as [|[r2 d2] rest]; simpl.
    + eexists. reflexivity.
    + destruct (registered (u "+CEREG") (decode_ascii_ignore r2)); simpl; eauto.
Qed.

End ScheduleFacts.

(** C9, as the code has it.  [check_network_status] reports service
    exactly when the answer to AT+CREG? contains "+CREG: 0,1" or
    "+CREG: 0,5", or the answer to AT+CEREG? contains "+CEREG: 0,1" or
    "+CEREG: 0,5".  In a round of the monitor loop with no switch in
    progress, when the check reports no service and the clock then reads
    at least [timeout] seconds past [last_service_time], the controller
    runs [set_frequency_lock] with the unlock configuration -- sending
    the unlock commands its options enable and one SIGNAL notification --
    and sets [last_service_time] to the clock reading after that.  With
    service, the timer is set to the current reading; without service and
    before the timeout, nothing more is done. *)
Theorem no_service_recovery
    (strftime : Z -> pystr)
    (_build_lte_command : Z -> list pystr -> pystr -> pystr -> result pystr)
    (_build_nr_command : Z -> list pystr -> pystr -> pystr -> pystr -> result pystr)
    (self : Schedule.ScheduleFrequencyLock) (w : Schedule.world) :
  (exists w1,
     Schedule.check_network_status (self, w)
     = (Ok (Schedule.registered (u "+CREG")
              (Schedule.decode_ascii_ignore (Schedule.reply 0 w))
            || Schedule.registered (u "+CEREG")
                 (Schedule.decode_ascii_ignore (Schedule.reply 1 w))),
        (self, w1))) /\
  (forall w1,
     Schedule.is_switching self = false ->
     Schedule.check_network_status (self, w) = (Ok false, (self, w1)) ->
     Schedule.clock w1 - Schedule.last_service_time self >= Schedule.timeout self ->
     exists self' w' message,
       Schedule.watch_service strftime _build_lte_command _build_nr_command (self, w)
       = (Ok (), (self', w')) /\
       Schedule.sent w' = Schedule.sent w1 ++ Schedule.unlock_commands self /\
       Schedule.notified w'
       = Schedule.notified w1
         ++ [Effects.NotifyAll (u "定时锁频切换") message (u "SIGNAL") false] /\
       Schedule.last_service_time self' = Schedule.clock w' /\
       Schedule.is_switching self' = false) /\
  (forall w1,
     Schedule.check_network_status (self, w) = (Ok false, (self, w1)) ->
     Schedule.clock w1 - Schedule.last_service_time self < Schedule.timeout self ->
     Schedule.watch_service strftime _build_lte_command _build_nr_command (self, w)
     = (Ok (), (self, w1))) /\
  (forall w1,
     Schedule.check_network_status (self, w) = (Ok true, (self, w1)) ->
     Schedule.watch_service strftime _build_lte_command _build_nr_command (self, w)
     = (Ok (), (Schedule.set_last_service_time (Schedule.clock w1) self, w1))) /\
  (forall target_mode,
     target_mode = Schedule.current_mode self ->
     Schedule.monitor_round strftime _build_lte_command _build_nr_command target_mode (self, w)
     = match Schedule.watch_service strftime _build_lte_command _build_nr_command (self, w) with
       | (Ok _, s') => Schedule.sleep (Schedule.check_interval self) s'
       | (Raise e, s') =>
           if is_Exception e then Schedule.sleep (Schedule.check_interval self) s'
           else (Raise e, s')
       end).
Proof.
  split; [apply check_network_status_eq|].
  split.
  { intros w1 Hsw Hcheck Hlate.
    unfold Schedule.watch_service, mbind at 1, Schedule.M_bind at 1. rewrite Hcheck.
    unfold mbind, Schedule.M_bind, Schedule.time, Schedule.get_self. simpl.
    destruct (Z.geb_spec (Schedule.clock w1 - Schedule.last_service_time self)
                (Schedule.timeout self)) as [_|]; [|lia].
    destruct (runs_unlock strftime _build_lte_command _build_nr_command (u "恢复") self w1
                (fun _ self' w' =>
                   self' = Schedule.set_switching false (Schedule.count_switch self)
                   /\ Schedule.sent w' = Schedule.sent w1 ++ Schedule.unlock_commands self
                   /\ exists message,
                        Schedule.notified w'
                        = Schedule.notified w1
                          ++ [Effects.NotifyAll (u "定时锁频切换") message (u "SIGNAL") false]))
      as ([] & self1 & w' & Hrun & -> & Hsent & message & Hnote); [assumption | eauto |].
    fold (@mbind Schedule.M _). unfold mbind, Schedule.M_bind in Hrun |- *.
    rewrite Hrun. simpl. eauto 10. }
  split.
  { intros w1 Hcheck Hearly.
    unfold Schedule.watch_service, mbind at 1, Schedule.M_bind at 1. rewrite Hcheck.
    unfold mbind, Schedule.M_bind, Schedule.time, Schedule.get_self. simpl.
    destruct (Z.geb_spec (Schedule.clock w1 - Schedule.last_service_time self)
                (Schedule.timeout self)) as [|_]; [lia|]. reflexivity. }
  split.
  { intros w1 Hcheck.
    unfold Schedule.watch_service, mbind at 1, Schedule.M_bind at 1. rewrite Hcheck.
    reflexivity. }
  intros target_mode ->.
  unfold Schedule.monitor_round, Schedule.try_except, Schedule.follow_mode.
  unfold mbind, Schedule.M_bind, Schedule.get_self. simpl.
  destruct (Schedule.current_mode self) as [m|] eqn:Hmode.
  - rewrite bool_decide_eq_true_2 by reflexivity. simpl.
    destruct (Schedule.watch_service _ _ _ _) as [[[]|e] s']; reflexivity.
  - simpl. destruct (Schedule.watch_service _ _ _ _) as [[[]|e] s']; reflexivity.
Qed.

(** Scenario S5: the timer stands at 0, the timeout at its default of 180;
    at second 181 both queries answer "not registered, searching"; the
    modem then answers OK to every command. *)
Lemma no_service_recovery_witness :
  exists self' w' message,
    Schedule.watch_service
      (fun _ => u "2024-11-10 14:03:01")
      (fun _ _ _ _ => Raise AttributeError) (fun _ _ _ _ _ => Raise AttributeError)
      (Schedule.mk_schedule 60 Schedule.default_timeout true true true
         Schedule.unlock_config Schedule.unlock_config 0 false 0 None,
       Schedule.mk_world 181
         [(b_ "+CREG: 0,2" ++ Connection.CRLF ++ b_ "OK" ++ Connection.CRLF, 0);
          (b_ "+CEREG: 0,2" ++ Connection.CRLF ++ b_ "OK" ++ Connection.CRLF, 0);
          (b_ "OK" ++ Connection.CRLF, 0); (b_ "OK" ++ Connection.CRLF, 0);
          (b_ "OK" ++ Connection.CRLF, 0); (b_ "OK" ++ Connection.CRLF, 0)]
         [] [])
    = (Ok (), (self', w')) /\
    Schedule.sent w'
    = [u "AT+CREG?" ++ Schedule.CRLF; u "AT+CEREG?" ++ Schedule.CRLF]
      ++ Schedule.unlock_commands
           (Schedule.mk_schedule 60 Schedule.default_timeout true true true
              Schedule.unlock_config Schedule.unlock_config 0 false 0 None) /\
    Schedule.notified w'
    = [] ++ [Effects.NotifyAll (u "定时锁频切换") message (u "SIGNAL") false] /\
    Schedule.last_service_time self' = Schedule.clock w' /\
    Schedule.is_switching self' = false.
Proof.
  refine (proj1 (proj2 (no_service_recovery
            (fun _ => u "2024-11-10 14:03:01")
            (fun _ _ _ _ => Raise AttributeError) (fun _ _ _ _ _ => Raise AttributeError)
            (Schedule.mk_schedule 60 Schedule.default_timeout true true true
               Schedule.unlock_config Schedule.unlock_config 0 false 0 None)
            (Schedule.mk_world 181
               [(b_ "+CREG: 0,2" ++ Connection.CRLF ++ b_ "OK" ++ Connection.CRLF, 0);
                (b_ "+CEREG: 0,2" ++ Connection.CRLF ++ b_ "OK" ++ Connection.CRLF, 0);
                (b_ "OK" ++ Connection.CRLF, 0); (b_ "OK" ++ Connection.CRLF, 0);
                (b_ "OK" ++ Connection.CRLF, 0); (b_ "OK" ++ Connection.CRLF, 0)]
               [] [])))
            (Schedule.mk_world 181
               [(b_ "OK" ++ Connection.CRLF, 0); (b_ "OK" ++ Connection.CRLF, 0);
                (b_ "OK" ++ Connection.CRLF, 0); (b_ "OK" ++ Connection.CRLF, 0)]
               [u "AT+CREG?" ++ Schedule.CRLF; u "AT+CEREG?" ++ Schedule.CRLF] [])
            _ _ _).
  - reflexivity.
  - vm_compute. reflexivity.
  - vm_compute. discriminate.
Defined.

(** C9 as stated fails when the modem answers in another report mode:
    "+CREG: 2,1" and "+CEREG: 2,1" show registration status 1 (registered,
    home network), yet [check_network_status] reports no service. *)
Lemma check_network_status_other_mode :
  (Schedule.check_network_status
     (Schedule.mk_schedule 60 Schedule.default_timeout true true true
        Schedule.unlock_config Schedule.unlock_config 0 false 0 None,
      Schedule.mk_world 0
        [(Connection.CRLF ++ b_ "+CREG: 2,1" ++ Connection.CRLF ++ Connection.CRLF
            ++ b_ "OK" ++ Connection.CRLF, 0);
         (Connection.CRLF ++ b_ "+CEREG: 2,1" ++ Connection.CRLF ++ Connection.CRLF
            ++ b_ "OK" ++ Connection.CRLF, 0)]
        [] [])).1
  = Ok false.
Proof. vm_compute. reflexivity. Qed.

(* ===================================================================== *)
(** ** Further properties of the code *)
(* ===================================================================== *)

Section PduDataFacts.

Import Pdu PduData.

Lemma nibbles (lo hi : Z) :
  0 <= lo < 16 -> 0 <= hi < 16 ->
  Z.land (byte_val (byte_of_Z (lo + 16 * hi))) 0x0F = lo
  /\ Z.shiftr (byte_val (byte_of_Z (lo + 16 * hi))) 4 = hi.
Proof.
  intros Hlo Hhi.
  rewrite byte_val_of_Z by lia.
  change 0x0F with (Z.ones 4). rewrite Z.land_ones by lia.
  rewrite Z.shiftr_div_pow2 by lia.
  change (2 ^ 4) with 16. split; Z.div_mod_to_equations; lia.
Qed.

Lemma decode_number_fold (L : Z) : forall (n : nat) (ds : list Z) (acc : pystr),
  (List.length ds <= n)%nat ->
  L = len acc + len ds ->
  Forall (fun d => 0 <= d <= 9) ds ->
  fold_left (decode_number_step L) (encode_number ds) acc = acc ++ digits_text ds.
Proof.
  induction n as [| n IH]; intros ds acc Hn HL Hds.
  - destruct ds; [simpl; by rewrite app_nil_r | simpl in Hn; lia].
  - destruct ds as [| d1 [| d2 rest]].
    + simpl. by rewrite app_nil_r.
    + apply list.Forall_cons in Hds as [Hd1 _].
      cbn [encode_number fold_left]. unfold decode_number_step.
      destruct (nibbles d1 15) as [-> ->]; [lia | lia |].
      replace (d1 <=? 9) with true by (symmetry; apply Z.leb_le; lia).
      replace (15 <=? 9) with false by reflexivity.
      rewrite andb_false_r. by rewrite str_of_Z_digit.
    + apply list.Forall_cons in Hds as [Hd1 Hds].
      apply list.Forall_cons in Hds as [Hd2 Hds].
      cbn [encode_number fold_left]. unfold decode_number_step at 2.
      destruct (nibbles d1 d2) as [-> ->]; [lia | lia |].
      replace (d1 <=? 9) with true by (symmetry; apply Z.leb_le; lia).
      replace (d2 <=? 9) with true by (symmetry; apply Z.leb_le; lia).
      rewrite !str_of_Z_digit by lia.
      assert ((len (acc ++ [Z.to_N (d1 + 48)]) <? L) = true) as ->.
      { apply Z.ltb_lt. subst L. unfold len. rewrite length_app. simpl. lia. }
      cbn [andb].
      rewrite IH.
      * unfold digits_text. cbn [map]. by rewrite <- !app_assoc.
      * simpl in Hn. lia.
      * subst L. unfold len. rewrite !length_app. simpl. lia.
      * done.
Qed.

Lemma septets_while_spec (fuel : nat) : forall (r : list Z) (s t : Z),
  0 <= s -> s < 7 * Z.of_nat fuel + 7 ->
  Forall (fun x => 0 <= x < 128) r ->
  exists r' s' t',
    septets_while fuel (r, s, t) = (r', s', t')
    /\ 0 <= s' < 7
    /\ 7 * len r' + s' = 7 * len r + s
    /\ Forall (fun x => 0 <= x < 128) r'.
Proof.
  induction fuel as [| fuel IH]; intros r s t Hs Hfuel Hr.
  - exists r, s, t. simpl. repeat split; [lia | lia | done].
  - cbn [septets_while]. destruct (s >=? 7) eqn:E.
    + apply Z.geb_le in E.
      destruct (IH (r ++ [Z.land t 127]) (s - 7) (Z.shiftr t 7)) as (r' & s' & t' & -> & ? & Hlen & ?).
      * lia.
      * lia.
      * apply Forall_app. split; [done |]. constructor; [| constructor].
        change 127 with (Z.ones 7). rewrite Z.land_ones by lia.
        change (2 ^ 7) with 128. apply Z.mod_pos_bound. lia.
      * exists r', s', t'. repeat split; try done; try lia.
        rewrite Hlen. unfold len. rewrite length_app. simpl. lia.
    + exists r, s, t. rewrite Z.geb_leb in E. apply Z.leb_gt in E.
      repeat split; try done; lia.
Qed.

Lemma septets_fold (bs : bytes) : forall (r : list Z) (s t : Z),
  0 <= s < 7 ->
  Forall (fun x => 0 <= x < 128) r ->
  exists r' s' t',
    fold_left septets_step bs (r, s, t) = (r', s', t')
    /\ 0 <= s' < 7
    /\ 7 * len r' + s' = 7 * len r + s + 8 * len bs
    /\ Forall (fun x => 0 <= x < 128) r'.
Proof.
  induction bs as [| b bs IH]; intros r s t Hs Hr.
  - exists r, s, t. simpl. repeat split; try done; try lia. unfold len. simpl. lia.
  - cbn [fold_left]. unfold septets_step at 2.
    destruct (septets_while_spec (Z.to_nat (s + 8)) r (s + 8)
                (Z.lor t (Z.shiftl (byte_val b) s)))
      as (r1 & s1 & t1 & -> & Hs1 & Hlen1 & Hr1); [lia | lia | done |].
    destruct (IH r1 s1 t1 Hs1 Hr1) as (r' & s' & t' & -> & Hs' & Hlen' & Hr').
    exists r', s', t'. repeat split; try done; try lia.
    rewrite Hlen'. unfold len in *. simpl. lia.
Qed.

Lemma slice_to_length {A} (l : list A) (b : Z) :
  0 <= b -> len (slice_to l b) = Z.min b (len l).
Proof.
  intros Hb. rewrite slice_to_take by done. unfold len.
  rewrite length_take. lia.
Qed.

(** The loop of [decode_7bit] keeps the number the octets spell: the
    septets taken out so far, with what is left in [tmp] above them. *)
Lemma lor_shiftl_add (t b s : Z) :
  0 <= s -> 0 <= t < 2 ^ s -> Z.lor t (Z.shiftl b s) = t + b * 2 ^ s.
Proof.
  intros Hs Ht. rewrite Z.shiftl_mul_pow2 by done.
  assert (Z.land t (b * 2 ^ s) = 0) as Hland.
  { apply Z.bits_inj'. intros n Hn. rewrite Z.land_spec, Z.bits_0.
    destruct (Z.lt_ge_cases n s).
    - rewrite (Z.mul_pow2_bits_low b s n) by done. apply andb_false_r.
    - rewrite <- (Z.mod_small t (2 ^ s)) by done.
      rewrite Z.mod_pow2_bits_high by lia. reflexivity. }
  rewrite (Z.add_nocarry_lxor _ _ Hland). by rewrite Z.lxor_lor.
Qed.

Lemma septets_value_app (r : list Z) (x : Z) :
  septets_value (r ++ [x]) = septets_value r + x * 2 ^ (7 * len r).
Proof.
  induction r as [| y r IH]; [change (len (@nil Z)) with 0; simpl; lia |].
  cbn [app septets_value]. rewrite IH.
  replace (len (y :: r)) with (len r + 1) by (unfold len; cbn [List.length]; lia).
  replace (7 * (len r + 1)) with (7 * len r + 7) by lia.
  rewrite Z.pow_add_r by (unfold len; lia). lia.
Qed.

Lemma septets_while_value (fuel : nat) : forall (r : list Z) (s t : Z),
  0 <= s -> s < 7 * Z.of_nat fuel + 7 -> 0 <= t < 2 ^ s ->
  Forall (fun x => 0 <= x < 128) r ->
  exists r' s' t',
    septets_while fuel (r, s, t) = (r', s', t')
    /\ 0 <= s' < 7
    /\ 7 * len r' + s' = 7 * len r + s
    /\ 0 <= t' < 2 ^ s'
    /\ Forall (fun x => 0 <= x < 128) r'
    /\ septets_value r' + t' * 2 ^ (7 * len r') = septets_value r + t * 2 ^ (7 * len r).
Proof.
  induction fuel as [| fuel IH]; intros r s t Hs Hfuel Ht Hr.
  - exists r, s, t. simpl. repeat split; try done; lia.
  - cbn [septets_while]. destruct (s >=? 7) eqn:E.
    + apply Z.geb_le in E.
      assert (Z.land t 127 = t mod 128) as Hland.
      { change 127 with (Z.ones 7). by rewrite Z.land_ones. }
      assert (Z.shiftr t 7 = t / 128) as Hshr by (by rewrite Z.shiftr_div_pow2).
      assert (2 ^ s = 128 * 2 ^ (s - 7)) as Hpow.
      { replace s with (7 + (s - 7)) at 1 by lia. by rewrite Z.pow_add_r by lia. }
      assert (0 < 2 ^ (s - 7)) by (apply Z.pow_pos_nonneg; lia).
      destruct (IH (r ++ [Z.land t 127]) (s - 7) (Z.shiftr t 7))
        as (r' & s' & t' & -> & ? & Hlen & ? & ? & Hval).
      * lia.
      * lia.
      * rewrite Hshr. split; [apply Z.div_pos; lia |].
        apply Z.div_lt_upper_bound; lia.
      * apply Forall_app. split; [done |]. constructor; [| constructor].
        rewrite Hland. apply Z.mod_pos_bound. lia.
      * exists r', s', t'. repeat split; try done; try lia.
        -- rewrite Hlen, len_app. unfold len. simpl. lia.
        -- rewrite Hval, septets_value_app, len_app, Hland, Hshr.
           change (len [t mod 128]) with 1.
           replace (7 * (len r + 1)) with (7 * len r + 7) by lia.
           rewrite Z.pow_add_r by (unfold len; lia).
           pose proof (Z.div_mod t 128 ltac:(lia)). change (2 ^ 7) with 128. nia.
    + exists r, s, t. rewrite Z.geb_leb in E. apply Z.leb_gt in E.
      repeat split; try done; lia.
Qed.

Lemma septets_fold_value (bs : bytes) : forall (r : list Z) (s t : Z),
  0 <= s < 7 -> 0 <= t < 2 ^ s ->
  Forall (fun x => 0 <= x < 128) r ->
  exists r' s' t',
    fold_left septets_step bs (r, s, t) = (r', s', t')
    /\ 0 <= s' < 7
    /\ 0 <= t' < 2 ^ s'
    /\ Forall (fun x => 0 <= x < 128) r'
    /\ septets_value r' + t' * 2 ^ (7 * len r')
       = septets_value r + t * 2 ^ (7 * len r) + octets_value bs * 2 ^ (7 * len r + s).
Proof.
  induction bs as [| b bs IH]; intros r s t Hs Ht Hr.
  - exists r, s, t. simpl. repeat split; try done; lia.
  - cbn [fold_left]. unfold septets_step at 2.
    assert (0 <= byte_val b < 256) as Hb.
    { unfold byte_val. pose proof (Byte.to_N_bounded b). lia. }
    rewrite lor_shiftl_add by lia.
    assert (2 ^ (s + 8) = 256 * 2 ^ s) as Hpow by (rewrite Z.pow_add_r by lia; lia).
    assert (0 < 2 ^ s) by (apply Z.pow_pos_nonneg; lia).
    destruct (septets_while_value (Z.to_nat (s + 8)) r (s + 8) (t + byte_val b * 2 ^ s))
      as (r1 & s1 & t1 & -> & Hs1 & Hlen1 & Ht1 & Hr1 & Hval1); [lia | lia | nia | done |].
    destruct (IH r1 s1 t1 Hs1 Ht1 Hr1) as (r' & s' & t' & -> & Hs' & Ht' & Hr' & Hval').
    exists r', s', t'. repeat split; try done; try lia.
    rewrite Hval', Hval1. cbn [octets_value].
    replace (7 * len r1 + s1) with ((7 * len r + s) + 8) by lia.
    rewrite (Z.pow_add_r 2 (7 * len r + s) 8) by (unfold len; lia).
    rewrite (Z.pow_add_r 2 (7 * len r) s) by (unfold len; lia).
    change (2 ^ 8) with 256. ring.
Qed.

Lemma septets_value_digit (r : list Z) : forall (i : nat) (T x : Z),
  Forall (fun x => 0 <= x < 128) r -> 0 <= T ->
  r !! i = Some x ->
  ((septets_value r + T * 2 ^ (7 * len r)) / 2 ^ (7 * Z.of_nat i)) mod 128 = x.
Proof.
  induction r as [| y r IH]; intros i T x Hr HT Hi; [done |].
  apply list.Forall_cons in Hr as [Hy Hr].
  replace (len (y :: r)) with (len r + 1) by (unfold len; cbn [List.length]; lia).
  replace (7 * (len r + 1)) with (7 + 7 * len r) by lia.
  rewrite Z.pow_add_r by (unfold len; lia). change (2 ^ 7) with 128.
  cbn [septets_value].
  replace (y + 128 * septets_value r + T * (128 * 2 ^ (7 * len r)))
    with (y + (septets_value r + T * 2 ^ (7 * len r)) * 128) by ring.
  destruct i as [| i].
  - injection Hi as ->. change (2 ^ (7 * Z.of_nat 0)) with 1. rewrite Z.div_1_r.
    rewrite Z.mod_add by lia. apply Z.mod_small. lia.
  - cbn [lookup list_lookup] in Hi.
    replace (7 * Z.of_nat (S i)) with (7 + 7 * Z.of_nat i) by lia.
    rewrite Z.pow_add_r by lia. change (2 ^ 7) with 128.
    assert (0 < 2 ^ (7 * Z.of_nat i)) by (apply Z.pow_pos_nonneg; lia).
    rewrite <- Z.div_div by lia.
    rewrite Z.div_add by lia. rewrite (Z.div_small y 128) by lia.
    rewrite Z.add_0_l. by apply IH.
Qed.

Lemma gsm_char_lookup (x : Z) :
  0 <= x < 128 -> GSM_7BIT_ALPHABET !! Z.to_nat x = Some (gsm_char x).
Proof.
  intros Hx. unfold gsm_char.
  assert (len GSM_7BIT_ALPHABET = 128) as Hlen by reflexivity.
  rewrite Hlen. replace (x <? 128) with true by (symmetry; apply Z.ltb_lt; lia).
  destruct (GSM_7BIT_ALPHABET !! Z.to_nat x) as [c |] eqn:E; [done |].
  apply lookup_ge_None_1 in E. unfold len in Hlen. lia.
Qed.

End PduDataFacts.

(** X1 ([decode_number]): the digits of a number packed two to the octet,
    the first in the low half and [0xF] filling the last octet of an odd
    count, are read back in order and in full. *)
Theorem decode_number_round_trip (digits : list Z) :
  Forall (fun d => 0 <= d <= 9) digits ->
  Pdu.decode_number (PduData.encode_number digits) (len digits)
  = PduData.digits_text digits.
Proof.
  intros Hds. unfold Pdu.decode_number.
  by rewrite (decode_number_fold (len digits) (List.length digits) digits []).
Qed.

Lemma decode_number_round_trip_witness :
  Forall (fun d => 0 <= d <= 9) [1; 3; 8; 0; 0; 1; 3; 8; 0; 0; 0] /\
  Pdu.decode_number (PduData.encode_number [1; 3; 8; 0; 0; 1; 3; 8; 0; 0; 0])
    (len [1; 3; 8; 0; 0; 1; 3; 8; 0; 0; 0])
  = PduData.digits_text [1; 3; 8; 0; 0; 1; 3; 8; 0; 0; 0].
Proof.
  assert (Forall (fun d => 0 <= d <= 9) [1; 3; 8; 0; 0; 1; 3; 8; 0; 0; 0]) as H
    by (repeat constructor; lia).
  split; [exact H | exact (decode_number_round_trip _ H)].
Defined.

(** X2 ([decode_7bit]): for a non-negative [length] the text has as many
    characters as asked for, or as many septets as the octets carry when
    that is less: [min(length, ceil(8 * len(encoded_bytes) / 7))]. *)
Theorem decode_7bit_length (encoded_bytes : bytes) (length : Z) :
  0 <= length ->
  len (Pdu.decode_7bit encoded_bytes length)
  = Z.min length (PduData.septets_of (len encoded_bytes)).
Proof.
  intros Hlen. unfold Pdu.decode_7bit, PduData.septets_of.
  destruct (septets_fold encoded_bytes [] 0 0) as (r & s & t & -> & Hs & Hr & _);
    [lia | constructor |].
  change (len (@nil Z)) with 0 in Hr.
  unfold len at 1. rewrite length_map. fold (len (slice_to
    (if (s >? 0) && (len r <? length) then r ++ [Z.land t 127] else r) length)).
  rewrite slice_to_length by done.
  destruct (Z.gtb_spec s 0); destruct (Z.ltb_spec (len r) length); cbn [andb];
    rewrite ?len_app; change (len [Z.land t 127]) with 1;
    Z.div_mod_to_equations; lia.
Qed.

Lemma decode_7bit_length_witness :
  0 <= 7 /\
  len (Pdu.decode_7bit [xc8; x32; x9b; xfd; x06] 7)
  = Z.min 7 (PduData.septets_of (len [xc8; x32; x9b; xfd; x06])).
Proof.
  assert (0 <= 7) as H by lia.
  split; [exact H | exact (decode_7bit_length _ 7 H)].
Defined.

(** X3 ([decode_7bit]): the character at position [i] of the text is the
    character of [GSM_7BIT_ALPHABET] at the index that bits [7 * i] to
    [7 * i + 6] of the octets spell, the lowest bit of the first octet
    being bit 0.  That index is below 128, the length of the alphabet, so
    the ['?'] of the [else] branch is never taken. *)
Theorem decode_7bit_alphabet (encoded_bytes : bytes) (length : Z) (i : nat) (c : N) :
  Pdu.decode_7bit encoded_bytes length !! i = Some c ->
  0 <= PduData.septet_at encoded_bytes i < 128
  /\ Pdu.GSM_7BIT_ALPHABET !! Z.to_nat (PduData.septet_at encoded_bytes i) = Some c.
Proof.
  intros Hc.
  assert (0 <= PduData.septet_at encoded_bytes i < 128) as Hrange.
  { unfold PduData.septet_at. apply Z.mod_pos_bound. lia. }
  split; [done |].
  unfold Pdu.decode_7bit in Hc.
  destruct (septets_fold_value encoded_bytes [] 0 0)
    as (r & s & t & Hfold & Hs & Ht & Hr & Hval); [lia | simpl; lia | constructor |].
  rewrite Hfold in Hc.
  change (PduData.septets_value [] + 0 * 2 ^ (7 * len (@nil Z))
          + PduData.octets_value encoded_bytes * 2 ^ (7 * len (@nil Z) + 0))
    with (PduData.octets_value encoded_bytes * 1) in Hval.
  rewrite Z.mul_1_r in Hval.
  assert (Z.land t 127 = t mod 128) as Hland.
  { change 127 with (Z.ones 7). by rewrite Z.land_ones. }
  assert (forall x, (r ++ [Z.land t 127]) !! i = Some x ->
            PduData.septet_at encoded_bytes i = x) as Hdigit.
  { intros x Hx. unfold PduData.septet_at. rewrite <- Hval.
    replace (PduData.septets_value r + t * 2 ^ (7 * len r))
      with (PduData.septets_value (r ++ [Z.land t 127])
            + (t / 128) * 2 ^ (7 * len (r ++ [Z.land t 127]))).
    - apply septets_value_digit; [| apply Z.div_pos; lia | done].
      apply Forall_app. split; [done |]. constructor; [| constructor].
      rewrite Hland. apply Z.mod_pos_bound. lia.
    - rewrite septets_value_app, len_app, Hland. change (len [t mod 128]) with 1.
      replace (7 * (len r + 1)) with (7 * len r + 7) by lia.
      rewrite Z.pow_add_r by (unfold len; lia). change (2 ^ 7) with 128.
      pose proof (Z.div_mod t 128 ltac:(lia)). nia. }
  rewrite list_lookup_fmap in Hc.
  destruct (slice_to _ length !! i) as [x |] eqn:Hx; [| done].
  injection Hc as <-.
  unfold slice_to in Hx. apply lookup_take_Some in Hx as [Hx _].
  assert ((r ++ [Z.land t 127]) !! i = Some x) as Hx'.
  { destruct ((s >? 0) && (len r <? length)); [done |].
    by apply lookup_app_l_Some. }
  rewrite (Hdigit x Hx').
  apply gsm_char_lookup.
  rewrite <- (Hdigit x Hx'). done.
Qed.

Lemma decode_7bit_alphabet_witness :
  Pdu.decode_7bit [xc8; x32; x9b; xfd; x06] 5 !! 4%nat = Some 111%N /\
  0 <= PduData.septet_at [xc8; x32; x9b; xfd; x06] 4 < 128 /\
  Pdu.GSM_7BIT_ALPHABET !! Z.to_nat (PduData.septet_at [xc8; x32; x9b; xfd; x06] 4)
  = Some 111%N.
Proof.
  assert (Pdu.decode_7bit [xc8; x32; x9b; xfd; x06] 5 !! 4%nat = Some 111%N) as H
    by (vm_compute; reflexivity).
  split; [exact H | exact (decode_7bit_alphabet _ 5 4 111%N H)].
Defined.

Section TimestampFacts.

Import Pdu PduData.

Lemma strptime_20_calendar (y mo d h mi s : Z) (dt : datetime) :
  strptime_20 y mo d h mi s = Ok dt -> calendar_date dt /\ 10 <= y.
Proof.
  unfold strptime_20. destruct (_ && _) eqn:E; [| discriminate].
  intros [= <-]. repeat (apply andb_true_iff in E as [E ?]).
  unfold calendar_date. simpl. lia.
Qed.

End TimestampFacts.

(** X4 ([decode_timestamp]): the call always returns; what it returns is
    the current time or a date of the years 2010 to 2099 that exists in
    the calendar; fewer than six octets, or a year field below 10 (which
    prints as [20] and one digit, not a year of four digits), give the
    current time. *)
Theorem decode_timestamp_calendar (timestamp_bytes : bytes) (now : Pdu.datetime) :
  exists d,
    Pdu.decode_timestamp timestamp_bytes now = Ok d
    /\ (d = now \/ PduData.calendar_date d)
    /\ (len timestamp_bytes < 6 -> d = now)
    /\ (forall b0 rest, timestamp_bytes = b0 :: rest ->
          Pdu.semi_octet (byte_val b0) < 10 -> d = now).
Proof.
  unfold Pdu.decode_timestamp.
  destruct (Pdu.getitem_byte timestamp_bytes 5) as [b5 | e5] eqn:E5.
  - pose proof (getitem_byte_inv timestamp_bytes 5 b5 ltac:(lia) E5) as [Hlen _].
    destruct (Pdu.getitem_byte timestamp_bytes 0) as [b0 |] eqn:E0; simpl;
      [| exists now; split; [done | split; [by left | split; done]]].
    destruct (Pdu.getitem_byte timestamp_bytes 1) as [b1 |]; simpl;
      [| exists now; split; [done | split; [by left | split; done]]].
    destruct (Pdu.getitem_byte timestamp_bytes 2) as [b2 |]; simpl;
      [| exists now; split; [done | split; [by left | split; done]]].
    destruct (Pdu.getitem_byte timestamp_bytes 3) as [b3 |]; simpl;
      [| exists now; split; [done | split; [by left | split; done]]].
    destruct (Pdu.getitem_byte timestamp_bytes 4) as [b4 |]; simpl;
      [| exists now; split; [done | split; [by left | split; done]]].
    destruct (Pdu.strptime_20 _ _ _ _ _ _) as [d |] eqn:ES; simpl;
      [| exists now; split; [done | split; [by left | split; done]]].
    apply strptime_20_calendar in ES as [Hc Hy].
    exists d. split; [done |]. split; [by right |]. split; [lia |].
    intros b0' rest -> Hlt. exfalso.
    unfold Pdu.getitem_byte, getitem in E0. simpl in E0.
    injection E0 as <-. lia.
  - exists now.
    destruct (Pdu.getitem_byte timestamp_bytes 0); simpl; [| by eauto 10].
    destruct (Pdu.getitem_byte timestamp_bytes 1); simpl; [| by eauto 10].
    destruct (Pdu.getitem_byte timestamp_bytes 2); simpl; [| by eauto 10].
    destruct (Pdu.getitem_byte timestamp_bytes 3); simpl; [| by eauto 10].
    destruct (Pdu.getitem_byte timestamp_bytes 4); simpl; by eauto 10.
Qed.

Section StoreFacts.

Import Dict Effects Client.

Lemma dict_get_alter {V} (f : V -> V) (k : pystr) (d : dict pystr V) :
  Dict.get k (Dict.alter f k d) = f <$> Dict.get k d.
Proof.
  unfold Dict.alter. induction d as [| [k' v] d IH]; [reflexivity |].
  cbn [map Dict.get fst snd]. destruct (decide (k' = k)) as [-> | Hne].
  - cbn [fst]. by rewrite decide_True.
  - cbn [fst]. by rewrite decide_False.
Qed.

(** Once the parts are counted complete and joined, the part just stored
    is one of the parts [1 .. total_parts]. *)
Lemma join_parts_complete (parts : gmap Z pystr) (total p : Z) (c full : pystr) :
  parts !! p = Some c ->
  Z.of_nat (size parts) = total ->
  join_parts parts total = Ok full ->
  1 <= p <= total.
Proof.
  intros Hp Hsize Hjoin. unfold join_parts in Hjoin.
  destruct (mapM _ _) as [cs |] eqn:E; [| discriminate].
  apply mapM_Some_1 in E.
  destruct (decide (1 <= p <= total)) as [| Hout]; [done | exfalso].
  assert (list_to_set (seqZ 1 total) ∪ {[p]} ⊆ dom parts) as Hsub.
  { intros i [Hi | Hi]%elem_of_union.
    - apply elem_of_list_to_set in Hi.
      apply list_elem_of_lookup in Hi as [j Hj].
      destruct (Forall2_lookup_l _ _ _ _ _ E Hj) as (y & _ & Hy).
      apply elem_of_dom. by eexists.
    - apply elem_of_singleton in Hi as ->. apply elem_of_dom. by eexists. }
  apply subseteq_size in Hsub.
  rewrite size_union in Hsub.
  2: { intros i Hi1 Hi2. apply elem_of_singleton in Hi2 as ->.
       apply elem_of_list_to_set, elem_of_seqZ in Hi1. lia. }
  rewrite size_singleton, size_list_to_set, length_seqZ, size_dom in Hsub
    by apply NoDup_seqZ.
  lia.
Qed.

Lemma dict_get_del {V} (k k' : pystr) (d : dict pystr V) :
  Dict.get k (Dict.del k' d) = if decide (k = k') then None else Dict.get k d.
Proof.
  unfold Dict.del. induction d as [| [k0 v] d IH].
  - by destruct (decide (k = k')).
  - destruct (decide (k0 = k')) as [-> | Hne].
    + rewrite filter_cons_False by (simpl; tauto). rewrite IH.
      destruct (decide (k = k')) as [-> | Hk]; [done |].
      cbn [Dict.get]. by rewrite decide_False.
    + rewrite filter_cons_True by done. cbn [Dict.get]. rewrite IH.
      destruct (decide (k0 = k)) as [-> | Hk0]; [by rewrite decide_False |].
      done.
Qed.

Lemma dict_get_del_Some {V} (k k' : pystr) (d : dict pystr V) (v : V) :
  Dict.get k (Dict.del k' d) = Some v -> Dict.get k d = Some v.
Proof. rewrite dict_get_del. by destruct (decide (k = k')). Qed.

Lemma delete_expired_get_Some t (pms : store) k v :
  Dict.get k (delete_expired t pms) = Some v -> Dict.get k pms = Some v.
Proof.
  unfold delete_expired. generalize (expired_keys t pms). intros ks. revert pms.
  induction ks as [| k' ks IH]; intros pms H; simpl in H; [done |].
  by apply IH, dict_get_del_Some in H.
Qed.

Lemma evict_oldest_get_Some (pms : store) k v :
  Dict.get k (evict_oldest pms) = Some v -> Dict.get k pms = Some v.
Proof.
  unfold evict_oldest. destruct (len pms >? 100); [| done].
  destruct (py_min _ _); [| done]. apply dict_get_del_Some.
Qed.

End StoreFacts.

(** X5 ([_handle_partial_sms]): however many segments arrive and whatever
    they carry, a store that holds at most 101 records never holds more. *)
Theorem partial_store_never_above_101
    (pms : list (pystr * Client.partial_message)) (calls : list (Client.SMS * Z)) :
  len pms <= 101 ->
  len (Client.handle_partial_all pms calls).1.1 <= 101.
Proof.
  revert pms. induction calls as [| [sms t] calls IH]; intros pms Hlen; [done |].
  rewrite handle_partial_all_cons.
  pose proof (partial_store_at_most_101 pms sms t Hlen) as H1.
  destruct (Client._handle_partial_sms pms sms t) as [[pms' effects] [[] | e]];
    simpl in H1; [| done].
  specialize (IH pms' H1).
  by destruct (Client.handle_partial_all pms' calls) as [[pms'' effects'] r].
Qed.

Lemma partial_store_never_above_101_witness :
  len (@nil (pystr * Client.partial_message)) <= 101 /\
  len (Client.handle_partial_all []
         [(Client.mk_SMS (u "0") (u "10086") (u "a") (u "2024-11-10 14:00:00")
             (Some (Pdu.mk_partial 7 2 1)), 0)]).1.1 <= 101.
Proof.
  assert (len (@nil (pystr * Client.partial_message)) <= 101) as H by (vm_compute; discriminate).
  split; [exact H | exact (partial_store_never_above_101 [] _ H)].
Defined.

(** X7 ([_handle_partial_sms]): a segment whose part number is not one of
    [1 .. parts_count], for its own [parts_count] and for the one of the
    record already stored under its key, never completes a message: the
    call sends nothing, and it either returns or raises [KeyError] (the
    parts stored reach the count while one of [1 .. parts_count] is
    missing). *)
Theorem partial_part_out_of_range
    (pms : list (pystr * Client.partial_message)) (sms : Client.SMS)
    (p : Pdu.partial_info) (current_time : Z) :
  Client.partial sms = Some p ->
  ~ (1 <= Pdu.part_number p <= Pdu.parts_count p) ->
  (forall e, Dict.get (Segments.key_of (Client.sender sms) (Pdu.reference p)) pms = Some e ->
     ~ (1 <= Pdu.part_number p <= Client.pm_total_parts e)) ->
  (Client._handle_partial_sms pms sms current_time).1.2 = []
  /\ ((Client._handle_partial_sms pms sms current_time).2 = Ok ()
      \/ (Client._handle_partial_sms pms sms current_time).2 = Raise KeyError).
Proof.
  intros Hp Hout Hstored. unfold Client._handle_partial_sms. rewrite Hp.
  set (cleaned := Client.evict_oldest (Client.delete_expired current_time pms)).
  unfold Segments.key_of in Hstored.
  set (key := Client.sender sms ++ u "_" ++ str_of_Z (Pdu.reference p)) in *.
  set (added := if Dict.mem key cleaned then cleaned else Dict.add key _ cleaned).
  rewrite dict_get_alter.
  destruct (Dict.get key added) as [e0 |] eqn:Hget; simpl; [| by auto].
  assert (~ (1 <= Pdu.part_number p <= Client.pm_total_parts e0)) as Hout0.
  { subst added. unfold Dict.mem in Hget.
    destruct (Dict.get key cleaned) as [e1 |] eqn:Hc.
    - rewrite bool_decide_eq_true_2 in Hget by by eexists.
      rewrite Hc in Hget. injection Hget as <-.
      by apply Hstored, delete_expired_get_Some with current_time, evict_oldest_get_Some.
    - rewrite bool_decide_eq_false_2 in Hget by (by intros [? ?]).
      unfold Dict.add in Hget. rewrite dict_get_app_None in Hget by done.
      simpl in Hget. rewrite decide_True in Hget by done. by injection Hget as <-. }
  destruct (Z.eqb_spec (Z.of_nat (size (<[Pdu.part_number p := Client.content sms]>
                                           (Client.pm_parts e0))))
                       (Client.pm_total_parts e0)) as [Hsize |]; simpl; [| by auto].
  destruct (Client.join_parts _ _) as [full | e] eqn:Hjoin; simpl.
  - exfalso. apply Hout0.
    eapply join_parts_complete; [| exact Hsize | exact Hjoin].
    apply lookup_insert_eq.
  - split; [done |]. right. unfold Client.join_parts in Hjoin.
    destruct (mapM _ _); [discriminate | by injection Hjoin as <-].
Qed.

Lemma partial_part_out_of_range_witness :
  (Client._handle_partial_sms []
     (Client.mk_SMS (u "0") (u "10086") (u "a") (u "2024-11-10 14:00:00")
        (Some (Pdu.mk_partial 7 1 2))) 0).1.2 = []
  /\ ((Client._handle_partial_sms []
         (Client.mk_SMS (u "0") (u "10086") (u "a") (u "2024-11-10 14:00:00")
            (Some (Pdu.mk_partial 7 1 2))) 0).2 = Ok ()
      \/ (Client._handle_partial_sms []
            (Client.mk_SMS (u "0") (u "10086") (u "a") (u "2024-11-10 14:00:00")
               (Some (Pdu.mk_partial 7 1 2))) 0).2 = Raise KeyError).
Proof.
  apply (partial_part_out_of_range []
           (Client.mk_SMS (u "0") (u "10086") (u "a") (u "2024-11-10 14:00:00")
              (Some (Pdu.mk_partial 7 1 2)))
           (Pdu.mk_partial 7 1 2) 0).
  - reflexivity.
  - simpl. lia.
  - intros e He. discriminate He.
Defined.

Section ConnectionMore.

Import Logging Connection.

(** [encode] is inverted by the UTF-8 decoder that reads the literals. *)
Lemma to_N_byte_of_Z (n : Z) : 0 <= n < 256 -> Byte.to_N (byte_of_Z n) = Z.to_N n.
Proof.
  intros Hn. pose proof (byte_val_of_Z n Hn) as H. unfold byte_val in H. lia.
Qed.

Lemma utf8_decode_encode_char (c : N) (rest : list N) :
  Pdu.is_scalar_value c = true ->
  utf8_decode (map Byte.to_N (encode_char c) ++ rest) = c :: utf8_decode rest.
Proof.
  intros Hc%is_scalar_value_range. unfold encode_char.
  destruct (Z.ltb_spec (Z.of_N c) 128); [| destruct (Z.ltb_spec (Z.of_N c) 2048);
    [| destruct (Z.ltb_spec (Z.of_N c) 65536)]];
    cbn [map app]; rewrite !to_N_byte_of_Z by (Z.div_mod_to_equations; lia);
    cbn [utf8_decode].
  - replace (Z.to_N (Z.of_N c) <? 128)%N with true by (symmetry; apply N.ltb_lt; lia).
    f_equal. lia.
  - replace (Z.to_N (192 + Z.of_N c / 64) <? 128)%N with false
      by (symmetry; apply N.ltb_ge; Z.div_mod_to_equations; lia).
    replace (Z.to_N (192 + Z.of_N c / 64) <? 224)%N with true
      by (symmetry; apply N.ltb_lt; Z.div_mod_to_equations; lia).
    f_equal. Z.div_mod_to_equations. lia.
  - replace (Z.to_N (224 + Z.of_N c / 4096) <? 128)%N with false
      by (symmetry; apply N.ltb_ge; Z.div_mod_to_equations; lia).
    replace (Z.to_N (224 + Z.of_N c / 4096) <? 224)%N with false
      by (symmetry; apply N.ltb_ge; Z.div_mod_to_equations; lia).
    replace (Z.to_N (224 + Z.of_N c / 4096) <? 240)%N with true
      by (symmetry; apply N.ltb_lt; Z.div_mod_to_equations; lia).
    f_equal. Z.div_mod_to_equations. lia.
  - replace (Z.to_N (240 + Z.of_N c / 262144) <? 128)%N with false
      by (symmetry; apply N.ltb_ge; Z.div_mod_to_equations; lia).
    replace (Z.to_N (240 + Z.of_N c / 262144) <? 224)%N with false
      by (symmetry; apply N.ltb_ge; Z.div_mod_to_equations; lia).
    replace (Z.to_N (240 + Z.of_N c / 262144) <? 240)%N with false
      by (symmetry; apply N.ltb_ge; Z.div_mod_to_equations; lia).
    f_equal. Z.div_mod_to_equations. lia.
Qed.

Lemma utf8_decode_encode (s : pystr) :
  Forall (fun c => Pdu.is_scalar_value c = true) s ->
  utf8_decode (map Byte.to_N (encode s)) = s.
Proof.
  induction 1 as [| c s Hc _ IH]; [reflexivity |].
  unfold encode in *. cbn [map List.concat]. rewrite map_app.
  rewrite utf8_decode_encode_char by done. by rewrite IH.
Qed.

Lemma send_command_sent self command t :
  sent (send_command self command t).1 = sent (send_command_try self command t).1.
Proof.
  unfold send_command.
  destruct (send_command_try self command t) as [s [r | e]]; [done |].
  by destruct (is_Exception e).
Qed.

End ConnectionMore.



(** X10 ([ATConnection.send_command]): the call returns as soon as the
    bytes received hold a terminator ([OK], [ERROR], [+CMS ERROR:] or
    [+CME ERROR:]): with [resp] received so far without one, a chunk that
    completes one ends the call with [resp] and the whole chunk, whatever
    the transport would deliver next; the connection stays marked
    connected and nothing more is logged. *)
Theorem send_command_returns_at_terminator
    (self : Connection.ATConnection) (command : pystr) (t : Connection.transport)
    (pre : list (result bytes)) (chunk : bytes) (rest : list (result bytes))
    (log1 : list Logging.log_record) (resp : bytes) :
  Connection.reaches_loop self t ->
  Connection.receive_outcomes t = pre ++ Ok chunk :: rest ->
  Connection.receive_loop pre [] (Connection.logged self) = (log1, Connection.TimedOut resp) ->
  len resp + len chunk <= Connection.max_response_size ->
  Connection.has_terminator (resp ++ chunk) = true ->
  exists self',
    Connection.send_command self command t = (self', Ok (resp ++ chunk))
    /\ Connection.is_connected self' = true
    /\ Connection.logged self' = log1.
Proof.
  intros Hreach Houts Hpre Hlen Hterm.
  assert (chunk <> []) as Hne.
  { intros ->. rewrite app_nil_r in Hterm.
    destruct (receive_loop_timed_out _ _ _ _ _ Hpre) as [-> | H]; [| congruence].
    discriminate Hterm. }
  destruct (send_command_try_loop self command t Hreach) as (buf & snt & Htry).
  rewrite Houts, (receive_loop_app _ _ _ _ _ _ Hpre) in Htry.
  simpl in Htry. rewrite bool_decide_eq_false_2 in Htry by assumption.
  simpl in Htry.
  destruct (Z.gtb_spec (len resp + len chunk) Connection.max_response_size) as [| _]; [lia |].
  rewrite Hterm in Htry.
  unfold Connection.send_command. rewrite Htry. eauto.
Qed.

Lemma send_command_returns_at_terminator_witness :
  exists self',
    Connection.send_command (Connection.mk_conn true [] [] []) (u "AT+CSQ")
      (Connection.mk_transport (Ok true) (Ok 7)
         [Ok (b_ "+CSQ: 20,99" ++ Connection.CRLF); Ok (b_ "OK" ++ Connection.CRLF);
          Ok (b_ "RING" ++ Connection.CRLF)])
    = (self', Ok ((b_ "+CSQ: 20,99" ++ Connection.CRLF) ++ (b_ "OK" ++ Connection.CRLF)))
    /\ Connection.is_connected self' = true
    /\ Connection.logged self' = [].
Proof.
  apply (send_command_returns_at_terminator (Connection.mk_conn true [] [] []) (u "AT+CSQ")
           (Connection.mk_transport (Ok true) (Ok 7)
              [Ok (b_ "+CSQ: 20,99" ++ Connection.CRLF); Ok (b_ "OK" ++ Connection.CRLF);
               Ok (b_ "RING" ++ Connection.CRLF)])
           [Ok (b_ "+CSQ: 20,99" ++ Connection.CRLF)] (b_ "OK" ++ Connection.CRLF)
           [Ok (b_ "RING" ++ Connection.CRLF)] [] (b_ "+CSQ: 20,99" ++ Connection.CRLF)).
  - split; [left; reflexivity | exists 7; reflexivity].
  - reflexivity.
  - vm_compute. reflexivity.
  - vm_compute. discriminate.
  - vm_compute. reflexivity.
Defined.

Section CallMore.

Import Effects Calls.

Lemma clip_match_here_nonempty (s number : pystr) :
  clip_match_here s = Some number -> number <> [].
Proof.
  unfold clip_match_here. destruct (startswith _ s); [| discriminate].
  destruct (drop_while _ _) as [| q s']; [discriminate |].
  destruct (bool_decide (q = quote)); [| discriminate].
  destruct (take_while _ s'); [discriminate |].
  destruct (drop_while _ s'); [discriminate |]. by intros [= <-].
Qed.

Lemma clip_search_nonempty (line number : pystr) :
  clip_search line = Some number -> number <> [].
Proof.
  induction line as [| c line IH]; cbn [clip_search].
  - destruct (clip_match_here []) eqn:E; [| discriminate].
    intros [= <-]. by eapply clip_match_here_nonempty.
  - destruct (clip_match_here (c :: line)) eqn:E.
    + intros [= <-]. by eapply clip_match_here_nonempty.
    + exact IH.
Qed.

Lemma handle_number_nonempty self line now time_str :
  last_call_number self <> Some [] ->
  last_call_number (handle self line now time_str).1 <> Some [].
Proof.
  intros H. unfold handle.
  destruct (_ || _); [done |].
  destruct (startswith _ line).
  - destruct (clip_search line) as [number |] eqn:E.
    + destruct (should_notify _ _ _); simpl.
      * intros [= ->]. by apply clip_search_nonempty in E.
      * by destruct (negb (ring_received self)).
    + by destruct (negb (ring_received self)).
  - destruct (_ || _); [done | done].
Qed.

Lemma reachable_number_nonempty self :
  reachable self -> last_call_number self <> Some [].
Proof.
  induction 1 as [| self line now time_str _ IH]; [done |].
  by apply handle_number_nonempty.
Qed.

End CallMore.

(** X11 ([CallHandler.handle]): in every state the handler can reach, a
    line that ends the call ([^CEND:] or [NO CARRIER]) resets the handler
    and, when a caller's number is remembered, sends the notification and
    the broadcast of the ended call with that number; when none is
    remembered it sends nothing. *)
Theorem call_end_notification
    (self : Calls.CallHandler) (line : pystr) (now : Z) (time_str : pystr) :
  Calls.reachable self ->
  Calls.end_line line ->
  Calls.handle self line now time_str
  = (Calls.mk_handler None 0 30 false Calls.idle,
     match Calls.last_call_number self with
     | Some number => Processor.ended_effects time_str number
     | None => []
     end).
Proof.
  intros Hreach (Hring & Hclip & Hend).
  pose proof (reachable_number_nonempty self Hreach) as Hne.
  destruct (reachable_invariant self Hreach) as (Htimeout & _ & _).
  unfold Calls.handle.
  assert (contains (u "IRING") line = false) as Hiring.
  { change (u "IRING") with (73%N :: u "RING"). apply contains_longer, Hring. }
  rewrite Hring, Hiring, Hclip. cbn [orb].
  assert (contains (u "^CEND:") line || contains (u "NO CARRIER") line = true) as ->
    by (destruct Hend as [-> | ->]; [done | apply orb_true_r]).
  rewrite Htimeout. f_equal.
  destruct (Calls.last_call_number self) as [[| c number] |]; [done | done | done].
Qed.

Lemma call_end_notification_witness :
  Calls.handle
    (Calls.handle Calls.init
       (u "+CLIP: " ++ [34%N] ++ u "13800138000" ++ [34%N] ++ u ",129")
       1000 (u "2024-11-10 14:00:00")).1
    (u "NO CARRIER") 1020 (u "2024-11-10 14:00:20")
  = (Calls.mk_handler None 0 30 false Calls.idle,
     match Calls.last_call_number
             (Calls.handle Calls.init
                (u "+CLIP: " ++ [34%N] ++ u "13800138000" ++ [34%N] ++ u ",129")
                1000 (u "2024-11-10 14:00:00")).1 with
     | Some number => Processor.ended_effects (u "2024-11-10 14:00:20") number
     | None => []
     end).
Proof.
  apply call_end_notification.
  - apply Calls.reachable_handle, Calls.reachable_init.
  - unfold Calls.end_line.
    split; [vm_compute; reflexivity |].
    split; [vm_compute; reflexivity | right; vm_compute; reflexivity].
Defined.

Section MemoryFullFacts.

Import Effects Processor.MemoryFullHandler.

Lemma handle_all_notified (lines : list pystr) :
  handle_all (mk_handler true) lines = (mk_handler true, []).
Proof.
  induction lines as [| line lines IH]; [done |].
  cbn [handle_all]. unfold handle. cbn [notified negb]. by rewrite IH.
Qed.

End MemoryFullFacts.

(** X12 ([MemoryFullHandler.handle]): the flag [notified] is never reset,
    so of all the memory-full reports a handler ever gets only the first
    is notified: one notification for a non-empty sequence of reports,
    and none for whatever follows. *)
Theorem memory_full_notified_once (line : pystr) (lines more : list pystr) :
  Processor.MemoryFullHandler.handle_all Processor.MemoryFullHandler.init (line :: lines)
  = (Processor.MemoryFullHandler.mk_handler true,
     [Effects.NotifyAll [] [] (u "MEMORY_FULL") true])
  /\ (Processor.MemoryFullHandler.handle_all
        (Processor.MemoryFullHandler.handle_all Processor.MemoryFullHandler.init
           (line :: lines)).1 more).2 = [].
Proof.
  assert (Processor.MemoryFullHandler.handle_all Processor.MemoryFullHandler.init (line :: lines)
  = (Processor.MemoryFullHandler.mk_handler true,
     [Effects.NotifyAll [] [] (u "MEMORY_FULL") true])) as H.
  { cbn [Processor.MemoryFullHandler.handle_all]. unfold Processor.MemoryFullHandler.handle.
    cbn [Processor.MemoryFullHandler.notified Processor.MemoryFullHandler.init negb].
    by rewrite handle_all_notified. }
  split; [exact H |]. rewrite H. cbn [fst]. by rewrite handle_all_notified.
Qed.

Section QueueFacts.

Import WeChatQueue.

Lemma enqueue_length (pending : list message) (m : message) :
  len pending <= max_pending_messages ->
  len (enqueue pending m) <= max_pending_messages.
Proof.
  unfold enqueue, max_pending_messages, len. intros H.
  destruct (Z.ltb_spec (Z.of_nat (List.length pending)) 1000).
  - rewrite length_app. simpl. lia.
  - rewrite length_app, length_drop. simpl. lia.
Qed.

Lemma process_round_pending self got current_time :
  len (_pending_messages self) <= max_pending_messages ->
  len (_pending_messages (process_round self got current_time).1) <= max_pending_messages
  /\ match (process_round self got current_time).2 with
     | Some f => len (flush_batch f) <= max_pending_messages
     | None => True
     end.
Proof.
  intros H. unfold process_round.
  set (pending := match got with Some m => _ | None => _ end).
  assert (len pending <= max_pending_messages) as Hp.
  { subst pending. destruct got; [by apply enqueue_length | done]. }
  destruct (_ && _); simpl; [| done]. split; [| done].
  unfold max_pending_messages. vm_compute. discriminate.
Qed.

Lemma process_queue_cons self got current_time rounds :
  _process_queue self ((got, current_time) :: rounds)
  = let '(self', sent) := process_round self got current_time in
    let '(self'', flushes) := _process_queue self' rounds in
    (self'', match sent with Some f => f :: flushes | None => flushes end).
Proof. reflexivity. Qed.

Lemma process_round_interval self got current_time :
  send_interval (process_round self got current_time).1 = send_interval self.
Proof. unfold process_round. by destruct (_ && _). Qed.

End QueueFacts.

(** X13 ([WeChatNotification._process_queue]): the list of pending
    messages never grows beyond 1000 entries, and no batch handed to
    [_combine_messages] is longer. *)
Theorem pending_messages_at_most_1000
    (self : WeChatQueue.WeChatNotification) (rounds : list (option WeChatQueue.message * Z)) :
  len (WeChatQueue._pending_messages self) <= 1000 ->
  len (WeChatQueue._pending_messages (WeChatQueue._process_queue self rounds).1) <= 1000
  /\ Forall (fun f => len (WeChatQueue.flush_batch f) <= 1000)
       (WeChatQueue._process_queue self rounds).2.
Proof.
  change 1000 with WeChatQueue.max_pending_messages.
  revert self. induction rounds as [| [got t] rounds IH]; intros self H; [by split |].
  rewrite process_queue_cons.
  destruct (process_round_pending self got t H) as [H1 H2].
  destruct (WeChatQueue.process_round self got t) as [self' sent]. simpl in H1, H2.
  destruct (IH self' H1) as [H3 H4].
  destruct (WeChatQueue._process_queue self' rounds) as [self'' flushes]. simpl in *.
  split; [done |]. destruct sent; [by constructor | done].
Qed.

Lemma pending_messages_at_most_1000_witness :
  len (WeChatQueue._pending_messages WeChatQueue.init) <= 1000 /\
  len (WeChatQueue._pending_messages
         (WeChatQueue._process_queue WeChatQueue.init
            [(Some (u "10086", u "a", false), 30); (None, 31);
             (Some (u "10010", u "b", false), 61)]).1) <= 1000
  /\ Forall (fun f => len (WeChatQueue.flush_batch f) <= 1000)
       (WeChatQueue._process_queue WeChatQueue.init
          [(Some (u "10086", u "a", false), 30); (None, 31);
           (Some (u "10010", u "b", false), 61)]).2.
Proof.
  assert (len (WeChatQueue._pending_messages WeChatQueue.init) <= 1000) as H
    by (vm_compute; discriminate).
  split; [exact H | exact (pending_messages_at_most_1000 WeChatQueue.init _ H)].
Defined.

(** X14 ([WeChatNotification._process_queue]): as long as the pending
    list cannot overflow, no message is lost, repeated or reordered: the
    batches sent, in order, followed by what is still pending, are the
    messages that were pending at the start followed by the messages
    taken from the queue. *)
Theorem process_queue_keeps_messages
    (self : WeChatQueue.WeChatNotification) (rounds : list (option WeChatQueue.message * Z)) :
  len (WeChatQueue._pending_messages self) + len (WeChatQueue.received rounds) <= 1000 ->
  List.concat (map WeChatQueue.flush_batch (WeChatQueue._process_queue self rounds).2)
    ++ WeChatQueue._pending_messages (WeChatQueue._process_queue self rounds).1
  = WeChatQueue._pending_messages self ++ WeChatQueue.received rounds.
Proof.
  revert self. induction rounds as [| [got t] rounds IH]; intros self H.
  - simpl. by rewrite app_nil_r.
  - rewrite process_queue_cons.
    unfold WeChatQueue.received in *. cbn [omap list_omap fst] in *.
    unfold WeChatQueue.process_round.
    set (pending := match got with Some m => _ | None => _ end).
    assert (pending ++ omap fst rounds
            = WeChatQueue._pending_messages self
              ++ match got with Some m => m :: omap fst rounds | None => omap fst rounds end
            /\ len pending + len (omap fst rounds) <= 1000) as [Heq Hlen].
    { subst pending. destruct got as [m |]; [| done].
      unfold WeChatQueue.enqueue, WeChatQueue.max_pending_messages, len in *.
      cbn [List.length] in H.
      destruct (Z.ltb_spec (Z.of_nat (List.length (WeChatQueue._pending_messages self))) 1000);
        [| lia].
      rewrite <- app_assoc. split; [done |]. rewrite length_app. simpl. lia. }
    rewrite <- Heq. clear Heq.
    destruct (_ && _).
    + specialize (IH (WeChatQueue.mk_wechat (WeChatQueue.send_interval self) t [])).
      destruct (WeChatQueue._process_queue _ rounds) as [self'' flushes].
      cbn [fst snd map List.concat WeChatQueue.flush_batch] in *.
      rewrite <- app_assoc, IH; [done |].
      cbn [WeChatQueue._pending_messages]. pose proof (len_nonneg pending).
      change (len (@nil WeChatQueue.message)) with 0. lia.
    + specialize (IH (WeChatQueue.mk_wechat (WeChatQueue.send_interval self)
                        (WeChatQueue._last_send_time self) pending)).
      destruct (WeChatQueue._process_queue _ rounds) as [self'' flushes].
      cbn [fst snd] in *. apply IH. done.
Qed.

Lemma process_queue_keeps_messages_witness :
  len (WeChatQueue._pending_messages WeChatQueue.init)
    + len (WeChatQueue.received
             [(Some (u "10086", u "a", false), 30); (None, 31);
              (Some (u "10010", u "b", false), 61); (Some (u "10010", u "c", false), 63)])
    <= 1000 /\
  List.concat (map WeChatQueue.flush_batch
     (WeChatQueue._process_queue WeChatQueue.init
        [(Some (u "10086", u "a", false), 30); (None, 31);
         (Some (u "10010", u "b", false), 61); (Some (u "10010", u "c", false), 63)]).2)
    ++ WeChatQueue._pending_messages
         (WeChatQueue._process_queue WeChatQueue.init
            [(Some (u "10086", u "a", false), 30); (None, 31);
             (Some (u "10010", u "b", false), 61); (Some (u "10010", u "c", false), 63)]).1
  = WeChatQueue._pending_messages WeChatQueue.init
    ++ WeChatQueue.received
         [(Some (u "10086", u "a", false), 30); (None, 31);
          (Some (u "10010", u "b", false), 61); (Some (u "10010", u "c", false), 63)].
Proof.
  assert (len (WeChatQueue._pending_messages WeChatQueue.init)
    + len (WeChatQueue.received
             [(Some (u "10086", u "a", false), 30); (None, 31);
              (Some (u "10010", u "b", false), 61); (Some (u "10010", u "c", false), 63)])
    <= 1000) as H by (vm_compute; discriminate).
  split; [exact H | exact (process_queue_keeps_messages WeChatQueue.init _ H)].
Defined.

(** X15 ([WeChatNotification._process_queue]): two batches are never sent
    less than [send_interval] seconds apart, and the first never less
    than that after [_last_send_time]. *)
Theorem process_queue_rate_limit
    (self : WeChatQueue.WeChatNotification) (rounds : list (option WeChatQueue.message * Z)) :
  WeChatQueue.spaced (WeChatQueue.send_interval self) (WeChatQueue._last_send_time self)
    (map WeChatQueue.flush_time (WeChatQueue._process_queue self rounds).2).
Proof.
  revert self. induction rounds as [| [got t] rounds IH]; intros self; [done |].
  rewrite process_queue_cons. unfold WeChatQueue.process_round.
  set (pending := match got with Some m => _ | None => _ end).
  destruct (negb _ && _) eqn:E.
  - apply andb_true_iff in E as [_ E]. apply Z.geb_le in E.
    specialize (IH (WeChatQueue.mk_wechat (WeChatQueue.send_interval self) t [])).
    destruct (WeChatQueue._process_queue _ rounds) as [self'' flushes].
    cbn [fst snd map WeChatQueue.flush_time WeChatQueue.spaced] in *.
    split; [lia | done].
  - specialize (IH (WeChatQueue.mk_wechat (WeChatQueue.send_interval self)
                      (WeChatQueue._last_send_time self) pending)).
    by destruct (WeChatQueue._process_queue _ rounds) as [self'' flushes].
Qed.

(** X16 ([WeChatNotification._combine_messages]): the text is empty for no
    message at all and for a lone signal-monitor message without content,
    and for nothing else; every other batch gives a text to send. *)
Theorem combine_messages_empty (messages : list WeChatQueue.message) :
  WeChatQueue._combine_messages messages = []
  <-> messages = [] \/ messages = [(u "信号监控", [], false)].
Proof.
  split.
  - destruct messages as [| [[sender content] is_memory_full] [| m2 rest]]; [by left | |].
    + unfold WeChatQueue._combine_messages, WeChatQueue.single_text.
      destruct is_memory_full.
      { intros H. exfalso. vm_compute in H. discriminate H. }
      destruct (bool_decide (sender = u "来电提醒")).
      { intros H. exfalso.
        apply (f_equal (fun l => List.length l)) in H. rewrite length_app in H.
        vm_compute in H. discriminate H. }
      destruct (bool_decide_reflect (sender = u "信号监控")) as [-> |].
      { intros ->. by right. }
      intros H. exfalso.
      apply (f_equal (fun l => List.length l)) in H. rewrite length_app in H.
      vm_compute in H. discriminate H.
    + unfold WeChatQueue._combine_messages. intros H. exfalso.
      apply (f_equal (fun l => List.length l)) in H. rewrite length_app in H.
      vm_compute in H. discriminate H.
  - intros [-> | ->]; [done |]. vm_compute. reflexivity.
Qed.

Section WindowFacts.

Import Schedule FrequencyLock.

Variable int : pystr -> result Z.

Lemma in_window_equal (m current_minutes : Z) : in_window m m current_minutes = false.
Proof.
  unfold in_window. destruct (Z.gtb_spec m m); [lia |].
  destruct (Z.leb_spec m current_minutes), (Z.ltb_spec current_minutes m); simpl; try done; lia.
Qed.

Lemma in_window_swap (start_minutes end_minutes current_minutes : Z) :
  start_minutes <> end_minutes ->
  in_window end_minutes start_minutes current_minutes
  = negb (in_window start_minutes end_minutes current_minutes).
Proof.
  intros Hne. unfold in_window.
  destruct (Z.gtb_spec start_minutes end_minutes), (Z.gtb_spec end_minutes start_minutes);
    try lia;
    destruct (Z.geb_spec current_minutes start_minutes), (Z.ltb_spec current_minutes end_minutes),
             (Z.geb_spec current_minutes end_minutes), (Z.ltb_spec current_minutes start_minutes),
             (Z.leb_spec start_minutes current_minutes), (Z.leb_spec end_minutes current_minutes);
    simpl; try done; lia.
Qed.

Lemma is_night_time_parsed self now sh sm eh em :
  hour_minute int (night_start self) = Ok (sh, sm) ->
  hour_minute int (night_end self) = Ok (eh, em) ->
  is_night_time int self now
  = Ok (in_window (sh * 60 + sm) (eh * 60 + em) (now_hour now * 60 + now_minute now)).
Proof. intros Hs He. unfold is_night_time. by rewrite Hs, He. Qed.

End WindowFacts.

(** X17 ([ScheduleFrequencyLock.is_night_time]): with start and end
    times that parse, a window whose start equals its end is never night
    (not always night); and exchanging start and end of any other window
    gives the complement: the one is night exactly when the other is
    not.  A start or end time that does not parse is never night. *)
Theorem is_night_time_window
    (int : pystr -> result Z) (self : FrequencyLock.window) (now : FrequencyLock.clock_reading)
    (sh sm eh em : Z) :
  FrequencyLock.hour_minute int (FrequencyLock.night_start self) = Ok (sh, sm) ->
  FrequencyLock.hour_minute int (FrequencyLock.night_end self) = Ok (eh, em) ->
  (sh * 60 + sm = eh * 60 + em -> FrequencyLock.is_night_time int self now = Ok false) /\
  (sh * 60 + sm <> eh * 60 + em ->
   exists b,
     FrequencyLock.is_night_time int self now = Ok b /\
     FrequencyLock.is_night_time int
       (FrequencyLock.mk_window (FrequencyLock.night_enabled self)
          (FrequencyLock.night_end self) (FrequencyLock.night_start self)
          (FrequencyLock.day_enabled self)) now
     = Ok (negb b)) /\
  (forall other e,
     FrequencyLock.hour_minute int other = Raise e -> is_Exception e = true ->
     FrequencyLock.is_night_time int
       (FrequencyLock.mk_window (FrequencyLock.night_enabled self) other
          (FrequencyLock.night_end self) (FrequencyLock.day_enabled self)) now = Ok false
     /\ FrequencyLock.is_night_time int
          (FrequencyLock.mk_window (FrequencyLock.night_enabled self)
             (FrequencyLock.night_start self) other (FrequencyLock.day_enabled self)) now
        = Ok false).
Proof.
  intros Hs He. split; [| split].
  - intros Heq. rewrite (is_night_time_parsed int self now sh sm eh em Hs He), Heq.
    by rewrite in_window_equal.
  - intros Hne. eexists. split; [by apply is_night_time_parsed |].
    rewrite (is_night_time_parsed int
               (FrequencyLock.mk_window (FrequencyLock.night_enabled self)
                  (FrequencyLock.night_end self) (FrequencyLock.night_start self)
                  (FrequencyLock.day_enabled self)) now eh em sh sm He Hs).
    by rewrite in_window_swap.
  - intros other e Ho Hexc. unfold FrequencyLock.is_night_time. simpl.
    rewrite Ho, Hs. simpl. by rewrite Hexc.
Qed.

Lemma is_night_time_window_witness :
  (22 * 60 + 0 = 6 * 60 + 0 ->
   FrequencyLock.is_night_time FrequencyLock.int_of_digits
     (FrequencyLock.mk_window true (u "22:00") (u "06:00") true)
     (FrequencyLock.mk_reading 23 30) = Ok false) /\
  (22 * 60 + 0 <> 6 * 60 + 0 ->
   exists b,
     FrequencyLock.is_night_time FrequencyLock.int_of_digits
       (FrequencyLock.mk_window true (u "22:00") (u "06:00") true)
       (FrequencyLock.mk_reading 23 30) = Ok b /\
     FrequencyLock.is_night_time FrequencyLock.int_of_digits
       (FrequencyLock.mk_window true (u "06:00") (u "22:00") true)
       (FrequencyLock.mk_reading 23 30) = Ok (negb b)) /\
  (forall other e,
     FrequencyLock.hour_minute FrequencyLock.int_of_digits other = Raise e ->
     is_Exception e = true ->
     FrequencyLock.is_night_time FrequencyLock.int_of_digits
       (FrequencyLock.mk_window true other (u "06:00") true)
       (FrequencyLock.mk_reading 23 30) = Ok false
     /\ FrequencyLock.is_night_time FrequencyLock.int_of_digits
          (FrequencyLock.mk_window true (u "22:00") other true)
          (FrequencyLock.mk_reading 23 30) = Ok false).
Proof.
  apply (is_night_time_window FrequencyLock.int_of_digits
           (FrequencyLock.mk_window true (u "22:00") (u "06:00") true)
           (FrequencyLock.mk_reading 23 30) 22 0 6 0).
  - vm_compute. reflexivity.
  - vm_compute. reflexivity.
Defined.

(** X18 ([ScheduleFrequencyLock.get_current_mode]): with night and day
    mode both enabled, the mode is [None] exactly when the first clock
    reading is outside the night window and the second one inside it
    (the clock enters the night between the two calls of
    [is_night_time]); on one and the same reading it is never [None]. *)
Theorem get_current_mode_none
    (int : pystr -> result Z) (self : FrequencyLock.window)
    (now1 now2 : FrequencyLock.clock_reading) (b1 b2 : bool) :
  FrequencyLock.night_enabled self = true ->
  FrequencyLock.day_enabled self = true ->
  FrequencyLock.is_night_time int self now1 = Ok b1 ->
  FrequencyLock.is_night_time int self now2 = Ok b2 ->
  (FrequencyLock.get_current_mode int self now1 now2 = Ok None
   <-> b1 = false /\ b2 = true) /\
  (b1 = b2 ->
   FrequencyLock.get_current_mode int self now1 now2
   = Ok (Some (if b1 then Schedule.night else Schedule.day))).
Proof.
  intros Hn Hd H1 H2. unfold FrequencyLock.get_current_mode.
  rewrite H1, Hn, Hd. simpl. destruct b1; simpl.
  - split; [split; [discriminate | by intros [? _]] | done].
  - rewrite H2. simpl. destruct b2; simpl.
    + split; [done | discriminate].
    + split; [split; [discriminate | by intros [_ ?]] | done].
Qed.

Lemma get_current_mode_none_witness :
  (FrequencyLock.get_current_mode FrequencyLock.int_of_digits
     (FrequencyLock.mk_window true (u "22:00") (u "06:00") true)
     (FrequencyLock.mk_reading 21 59) (FrequencyLock.mk_reading 22 0) = Ok None
   <-> false = false /\ true = true) /\
  (false = true ->
   FrequencyLock.get_current_mode FrequencyLock.int_of_digits
     (FrequencyLock.mk_window true (u "22:00") (u "06:00") true)
     (FrequencyLock.mk_reading 21 59) (FrequencyLock.mk_reading 22 0)
   = Ok (Some (if false then Schedule.night else Schedule.day))).
Proof.
  apply (get_current_mode_none FrequencyLock.int_of_digits
           (FrequencyLock.mk_window true (u "22:00") (u "06:00") true)
           (FrequencyLock.mk_reading 21 59) (FrequencyLock.mk_reading 22 0) false true).
  - reflexivity.
  - reflexivity.
  - vm_compute. reflexivity.
  - vm_compute. reflexivity.
Defined.

Section BuilderFacts.

Import Dict Schedule FrequencyLock.

Variable int : pystr -> result Z.

Lemma detect_scs_ok (Hint : raises_only_ValueError int) arfcns i band :
  detect_scs int arfcns i band = Ok (u "0") \/ detect_scs int arfcns i band = Ok (u "1").
Proof.
  unfold detect_scs.
  destruct (getitem arfcns i) as [a | e] eqn:Ea; simpl.
  2: { apply getitem_exn in Ea as ->. by right. }
  destruct (int a) as [arfcn | e] eqn:Ei; simpl.
  2: { apply Hint in Ei as ->. by right. }
  destruct (int band) as [band_num | e] eqn:Eb; simpl.
  2: { apply Hint in Eb as ->. by right. }
  destruct (among band_num [78; 79; 258; 260]); [by right |].
  destruct (among band_num [41; 77]); [by right |].
  destruct (among band_num [28; 71]); [by left | by right].
Qed.

Lemma detect_from_ok (Hint : raises_only_ValueError int) arfcns bands : forall i,
  exists scs_list,
    detect_from int arfcns i bands = Ok scs_list
    /\ len scs_list = len bands
    /\ Forall (fun s => s = u "0" \/ s = u "1") scs_list.
Proof.
  induction bands as [| band bands IH]; intros i.
  - exists []. by repeat split.
  - cbn [detect_from].
    destruct (IH (i + 1)) as (rest & -> & Hlen & Hall).
    destruct (detect_scs_ok Hint arfcns i band) as [-> | ->]; simpl;
      eexists; (split; [reflexivity |]);
      (split; [unfold len in *; simpl; lia | constructor; auto]).
Qed.

End BuilderFacts.

(** X19 ([_build_lte_command], [_build_nr_command]): called the way
    [set_frequency_lock] calls them, with the bands as a list, the
    builders raise [AttributeError] for the lock types 1, 2 and 3 (a list
    has no [split]); for every other lock type they return the unlock
    command. *)
Theorem build_command_with_list
    (int : pystr -> result Z) (lock_type : Z) (bands_list : list pystr)
    (arfcns scs_types pcis : pystr) :
  (lock_type = 1 \/ lock_type = 2 \/ lock_type = 3 ->
   FrequencyLock.lte_builder int lock_type bands_list arfcns pcis = Raise AttributeError
   /\ FrequencyLock.nr_builder int lock_type bands_list arfcns scs_types pcis
      = Raise AttributeError) /\
  (~ (lock_type = 1 \/ lock_type = 2 \/ lock_type = 3) ->
   FrequencyLock.lte_builder int lock_type bands_list arfcns pcis
   = Ok (u "AT^LTEFREQLOCK=0" ++ Schedule.CRLF)
   /\ FrequencyLock.nr_builder int lock_type bands_list arfcns scs_types pcis
      = Ok (u "AT^NRFREQLOCK=0" ++ Schedule.CRLF)).
Proof.
  unfold FrequencyLock.lte_builder, FrequencyLock.nr_builder,
    FrequencyLock._build_lte_command, FrequencyLock._build_nr_command.
  split.
  - intros [-> | [-> | ->]]; by split.
  - intros Hne.
    destruct (Z.eqb_spec lock_type 0); [done |].
    destruct (Z.eqb_spec lock_type 3); [lia |].
    destruct (Z.eqb_spec lock_type 1); [lia |].
    destruct (Z.eqb_spec lock_type 2); [lia | done].
Qed.

(** X21 ([_is_valid_lte_band_arfcn_pair]): the ranges of the LTE table
    do not overlap: an ARFCN is accepted for at most one of the bands the
    table knows. *)
Theorem lte_band_ranges_disjoint (band1 band2 arfcn : Z) :
  is_Some (Dict.get band1 FrequencyLock.lte_band_ranges) ->
  is_Some (Dict.get band2 FrequencyLock.lte_band_ranges) ->
  FrequencyLock._is_valid_lte_band_arfcn_pair band1 arfcn = true ->
  FrequencyLock._is_valid_lte_band_arfcn_pair band2 arfcn = true ->
  band1 = band2.
Proof.
  unfold FrequencyLock._is_valid_lte_band_arfcn_pair, FrequencyLock.in_band_ranges.
  intros [r1 H1] [r2 H2]. rewrite H1, H2. destruct r1 as [lo1 hi1], r2 as [lo2 hi2].
  intros V1 V2.
  apply andb_true_iff in V1 as [V1a V1b]. apply andb_true_iff in V2 as [V2a V2b].
  apply Z.leb_le in V1a, V1b, V2a, V2b.
  unfold FrequencyLock.lte_band_ranges in H1, H2. cbn [Dict.get] in H1, H2.
  repeat match type of H1 with
         | context [decide (?k = band1)] =>
             destruct (decide (k = band1)); [injection H1 as <- <- |]
         end; try discriminate H1;
  repeat match type of H2 with
         | context [decide (?k = band2)] =>
             destruct (decide (k = band2)); [injection H2 as <- <- |]
         end; try discriminate H2; lia.
Qed.

Lemma lte_band_ranges_disjoint_witness :
  is_Some (Dict.get 3 FrequencyLock.lte_band_ranges) /\
  FrequencyLock._is_valid_lte_band_arfcn_pair 3 1300 = true /\
  3 = 3.
Proof.
  assert (is_Some (Dict.get 3 FrequencyLock.lte_band_ranges)) as H
    by (vm_compute; by eexists).
  assert (FrequencyLock._is_valid_lte_band_arfcn_pair 3 1300 = true) as V by reflexivity.
  split; [exact H |]. split; [exact V |].
  exact (lte_band_ranges_disjoint 3 3 1300 H H V V).
Defined.

Section StripFacts.

Import Schedule.

Lemma drop_while_nil_Forall (p : N -> bool) (s : pystr) :
  Calls.drop_while p s = [] -> Forall (fun c => p c = true) s.
Proof.
  induction s as [| c s IH]; [constructor |].
  simpl. destruct (p c) eqn:E; [| discriminate].
  intros H. constructor; auto.
Qed.

Lemma drop_while_head (p : N -> bool) (s : pystr) c rest :
  Calls.drop_while p s = c :: rest -> p c = false.
Proof.
  induction s as [| c0 s IH]; [discriminate |].
  simpl. destruct (p c0) eqn:E; [exact IH |]. by intros [= <- _].
Qed.

Lemma strip_nil_spaces (s : pystr) :
  strip s = [] -> Forall (fun c => isspace c = true) s.
Proof.
  unfold strip. intros H.
  apply (f_equal reverse) in H. rewrite reverse_involutive in H. simpl in H.
  apply drop_while_nil_Forall in H. rewrite Forall_reverse in H.
  destruct (Calls.drop_while isspace s) as [| c rest] eqn:E.
  - by apply drop_while_nil_Forall.
  - apply drop_while_head in E. apply list.Forall_cons in H as [H _]. congruence.
Qed.

Lemma split_comma_no_comma (s : pystr) :
  Forall (fun c => (c =? 44)%N = false) s -> split_comma s = [s].
Proof.
  induction 1 as [| c s Hc _ IH]; [done |].
  cbn [split_comma]. by rewrite Hc, IH.
Qed.

Lemma bands_list_blank (bands : pystr) : strip bands = [] -> bands_list bands = [].
Proof.
  intros H. pose proof (strip_nil_spaces bands H) as Hsp.
  unfold bands_list. rewrite split_comma_no_comma.
  - simpl. rewrite H. reflexivity.
  - eapply list.Forall_impl; [exact Hsp |]. intros c Hc. simpl in Hc.
    destruct (N.eqb_spec c 44) as [-> |]; [discriminate Hc | done].
Qed.

End StripFacts.

Section LockRuns.

Import Effects Schedule FrequencyLock.

Variable strftime : Z -> pystr.

Lemma bind_unfold {A B} (m : M A) (k : A -> M B) s :
  (m ≫= k) s
  = match m s with
    | (Ok a, s') => k a s'
    | (Raise e, s') => (Raise e, s')
    end.
Proof. reflexivity. Qed.

Lemma lock_step_build_raises type bands build unlock command locked unlocked operations e s :
  type > 0 -> bands_list bands <> [] -> build (bands_list bands) = Raise e ->
  lock_step type bands build unlock command locked unlocked operations s = (Raise e, s).
Proof.
  intros Htype Hbands Hbuild. unfold lock_step.
  destruct (Z.gtb_spec type 0); [| lia].
  assert (bands <> []) as Hne by (intros ->; by apply Hbands).
  assert (strip bands <> []) as Hstrip by (intros Hs; by apply Hbands, bands_list_blank).
  rewrite !bool_decide_eq_false_2 by done. cbn [negb andb].
  destruct (bands_list bands) as [| b bs] eqn:E; [done |].
  rewrite bind_unfold. unfold lift. by rewrite Hbuild.
Qed.

Lemma send_command_eq command self w :
  exists response w',
    send_command command (self, w) = (Ok response, (self, w'))
    /\ sent w' = sent w ++ [command] /\ notified w' = notified w.
Proof.
  unfold send_command. simpl. destruct (replies w) as [| [response elapsed] rest]; eauto 10.
Qed.

End LockRuns.

(** What [set_frequency_lock] does when the LTE builder raises. *)
Lemma set_frequency_lock_lte_build_fails
    (strftime : Z -> pystr) (int : pystr -> result Z)
    (config : Schedule.lock_config) (mode_text : pystr)
    (self : Schedule.ScheduleFrequencyLock) (w : Schedule.world) :
  Schedule.is_switching self = false ->
  Schedule.lte_type config = 1 \/ Schedule.lte_type config = 2 \/ Schedule.lte_type config = 3 ->
  Schedule.bands_list (Schedule.lte_bands config) <> [] ->
  exists w',
    Schedule.set_frequency_lock strftime
      (FrequencyLock.lte_builder int) (FrequencyLock.nr_builder int) config mode_text (self, w)
    = (Ok (), (Schedule.set_switching false (Schedule.count_switch self), w'))
    /\ Schedule.sent w'
       = Schedule.sent w
         ++ (if Schedule.toggle_airplane self then [u "AT+CFUN=0" ++ Schedule.CRLF] else [])
    /\ Schedule.notified w' = Schedule.notified w.
Proof.
  intros Hsw Htype Hbands.
  assert (FrequencyLock.lte_builder int (Schedule.lte_type config)
            (Schedule.bands_list (Schedule.lte_bands config))
            (Schedule.lte_arfcns config) (Schedule.lte_pcis config) = Raise AttributeError)
    as Hbuild.
  { unfold FrequencyLock.lte_builder, FrequencyLock._build_lte_command.
    destruct Htype as [-> | [-> | ->]]; reflexivity. }
  unfold Schedule.set_frequency_lock.
  rewrite bind_unfold. unfold Schedule.get_self at 1. cbn [fst]. rewrite Hsw.
  rewrite bind_unfold. unfold Schedule.set_self at 1. cbn [fst snd].
  rewrite bind_unfold. unfold Schedule.set_self at 1. cbn [fst snd].
  unfold Schedule.try_finally, Schedule.try_except.
  rewrite bind_unfold. unfold Schedule.get_self at 1. cbn [fst].
  set (self1 := Schedule.count_switch (Schedule.set_switching true self)).
  assert (Schedule.toggle_airplane self1 = Schedule.toggle_airplane self) as -> by reflexivity.
  assert (Schedule.lte_type config > 0) as Hpos by lia.
  rewrite bind_unfold.
  destruct (Schedule.toggle_airplane self).
  - rewrite bind_unfold.
    destruct (send_command_eq (u "AT+CFUN=0" ++ Schedule.CRLF) self1 w)
      as (response & w1 & -> & Hs1 & Hn1).
    destruct (Schedule.ok_in response).
    + unfold Schedule.sleep at 1. cbn [fst snd].
      rewrite bind_unfold.
      erewrite lock_step_build_raises; [| exact Hpos | exact Hbands | exact Hbuild].
      cbn [is_Exception]. unfold mret, Schedule.M_ret, Schedule.set_self. cbn [fst snd].
      eexists. split; [reflexivity |]. by split.
    + unfold mret at 1, Schedule.M_ret at 1.
      rewrite bind_unfold.
      erewrite lock_step_build_raises; [| exact Hpos | exact Hbands | exact Hbuild].
      cbn [is_Exception]. unfold mret, Schedule.M_ret, Schedule.set_self. cbn [fst snd].
      eexists. split; [reflexivity |]. by split.
  - unfold mret at 1, Schedule.M_ret at 1.
    rewrite bind_unfold.
    erewrite lock_step_build_raises; [| exact Hpos | exact Hbands | exact Hbuild].
    cbn [is_Exception]. unfold mret, Schedule.M_ret, Schedule.set_self. cbn [fst snd].
    eexists. split; [reflexivity |]. split; [by rewrite app_nil_r | done].
Qed.


(** X20 ([set_frequency_lock] with [_build_lte_command]): a configuration
    of LTE lock type 1, 2 or 3 that names a band is never applied.  The
    builder raises, [set_frequency_lock] catches the error and returns:
    no lock command is sent and no notification is made; and when the
    airplane toggle is on, [AT+CFUN=0] has been sent and [AT+CFUN=1] is
    not.  The monitor loop takes the switch as done all the same: it
    records the mode, and on the next round with the same mode it sends
    nothing. *)
Theorem lte_lock_never_applied
    (strftime : Z -> pystr) (int : pystr -> result Z)
    (config : Schedule.lock_config) (mode_text : pystr)
    (self : Schedule.ScheduleFrequencyLock) (w : Schedule.world) :
  Schedule.is_switching self = false ->
  Schedule.lte_type config = 1 \/ Schedule.lte_type config = 2 \/ Schedule.lte_type config = 3 ->
  Schedule.bands_list (Schedule.lte_bands config) <> [] ->
  (exists w',
     Schedule.set_frequency_lock strftime
       (FrequencyLock.lte_builder int) (FrequencyLock.nr_builder int) config mode_text (self, w)
     = (Ok (), (Schedule.set_switching false (Schedule.count_switch self), w'))
     /\ Schedule.sent w'
        = Schedule.sent w
          ++ (if Schedule.toggle_airplane self then [u "AT+CFUN=0" ++ Schedule.CRLF] else [])
     /\ Schedule.notified w' = Schedule.notified w) /\
  (forall m,
     config = match m with
              | Schedule.night => Schedule.night_config self
              | Schedule.day => Schedule.day_config self
              end ->
     Schedule.current_mode self <> Some m ->
     exists self' w',
       Schedule.follow_mode strftime
         (FrequencyLock.lte_builder int) (FrequencyLock.nr_builder int) (Some m) (self, w)
       = (Ok (), (self', w'))
       /\ Schedule.current_mode self' = Some m
       /\ Schedule.sent w'
          = Schedule.sent w
            ++ (if Schedule.toggle_airplane self then [u "AT+CFUN=0" ++ Schedule.CRLF] else [])
       /\ Schedule.notified w' = Schedule.notified w
       /\ Schedule.follow_mode strftime
            (FrequencyLock.lte_builder int) (FrequencyLock.nr_builder int) (Some m) (self', w')
          = (Ok (), (self', w'))).
Proof.
  intros Hsw Htype Hbands. split.
  - by apply set_frequency_lock_lte_build_fails.
  - intros m Hconfig Hmode.
    destruct (set_frequency_lock_lte_build_fails strftime int config (Schedule.mode_name m)
                self w Hsw Htype Hbands) as (w' & Hrun & Hsent & Hnot).
    exists (Schedule.set_current_mode (Some m)
              (Schedule.set_switching false (Schedule.count_switch self))), w'.
    unfold Schedule.follow_mode.
    rewrite !bind_unfold. unfold Schedule.get_self. cbn [fst].
    rewrite bool_decide_eq_false_2 by congruence. cbn [negb].
    rewrite bind_unfold, <- Hconfig, Hrun.
    unfold Schedule.set_self. cbn [fst snd Schedule.current_mode Schedule.set_current_mode].
    rewrite bool_decide_eq_true_2 by done. cbn [negb].
    by repeat split.
Qed.

Lemma lte_lock_never_applied_witness :
  (exists w',
     Schedule.set_frequency_lock (fun _ => u "2024-11-10 22:00:00")
       (FrequencyLock.lte_builder FrequencyLock.int_of_digits)
       (FrequencyLock.nr_builder FrequencyLock.int_of_digits)
       (Schedule.mk_lock_config 3 (u "3,8") [] [] 0 [] [] [] []) (u "night")
       (Schedule.mk_schedule 60 180 true true true
          (Schedule.mk_lock_config 3 (u "3,8") [] [] 0 [] [] [] [])
          Schedule.unlock_config 0 false 0 None,
        Schedule.mk_world 0 [(b_ "OK" ++ Connection.CRLF, 0)] [] [])
     = (Ok (),
        (Schedule.set_switching false
           (Schedule.count_switch
              (Schedule.mk_schedule 60 180 true true true
                 (Schedule.mk_lock_config 3 (u "3,8") [] [] 0 [] [] [] [])
                 Schedule.unlock_config 0 false 0 None)), w'))
     /\ Schedule.sent w' = [] ++ [u "AT+CFUN=0" ++ Schedule.CRLF]
     /\ Schedule.notified w' = []) /\
  (forall m,
     Schedule.mk_lock_config 3 (u "3,8") [] [] 0 [] [] [] []
     = match m with
       | Schedule.night => Schedule.mk_lock_config 3 (u "3,8") [] [] 0 [] [] [] []
       | Schedule.day => Schedule.unlock_config
       end ->
     None <> Some m ->
     exists self' w',
       Schedule.follow_mode (fun _ => u "2024-11-10 22:00:00")
         (FrequencyLock.lte_builder FrequencyLock.int_of_digits)
         (FrequencyLock.nr_builder FrequencyLock.int_of_digits) (Some m)
         (Schedule.mk_schedule 60 180 true true true
            (Schedule.mk_lock_config 3 (u "3,8") [] [] 0 [] [] [] [])
            Schedule.unlock_config 0 false 0 None,
          Schedule.mk_world 0 [(b_ "OK" ++ Connection.CRLF, 0)] [] [])
       = (Ok (), (self', w'))
       /\ Schedule.current_mode self' = Some m
       /\ Schedule.sent w' = [] ++ [u "AT+CFUN=0" ++ Schedule.CRLF]
       /\ Schedule.notified w' = []
       /\ Schedule.follow_mode (fun _ => u "2024-11-10 22:00:00")
            (FrequencyLock.lte_builder FrequencyLock.int_of_digits)
            (FrequencyLock.nr_builder FrequencyLock.int_of_digits) (Some m) (self', w')
          = (Ok (), (self', w'))).
Proof.
  apply (lte_lock_never_applied (fun _ => u "2024-11-10 22:00:00")
           FrequencyLock.int_of_digits
           (Schedule.mk_lock_config 3 (u "3,8") [] [] 0 [] [] [] []) (u "night")
           (Schedule.mk_schedule 60 180 true true true
              (Schedule.mk_lock_config 3 (u "3,8") [] [] 0 [] [] [] [])
              Schedule.unlock_config 0 false 0 None)
           (Schedule.mk_world 0 [(b_ "OK" ++ Connection.CRLF, 0)] [] [])).
  - reflexivity.
  - right. right. reflexivity.
  - vm_compute. discriminate.
Defined.

Section KeepsSelf.

Import Effects Schedule FrequencyLock.

Lemma keeps_ret {A} (a : A) : keeps_self (mret a : M A).
Proof. intros self w. by exists (Ok a), w. Qed.

Lemma keeps_bind {A B} (m : M A) (k : A -> M B) :
  keeps_self m -> (forall a, keeps_self (k a)) -> keeps_self (m ≫= k).
Proof.
  intros Hm Hk self w. rewrite bind_unfold.
  destruct (Hm self w) as ([a | e] & w1 & ->); [apply Hk | eauto].
Qed.

Lemma keeps_send command : keeps_self (send_command command).
Proof.
  intros self w. destruct (send_command_eq command self w) as (r & w' & -> & _). eauto.
Qed.

Lemma keeps_sleep seconds : keeps_self (sleep seconds).
Proof. intros self w. unfold sleep. simpl. eauto. Qed.

Lemma keeps_time : keeps_self time.
Proof. intros self w. unfold time. simpl. eauto. Qed.

Lemma keeps_notify sender content typ : keeps_self (notify_all sender content typ).
Proof. intros self w. unfold notify_all. simpl. eauto. Qed.

Lemma keeps_get_self : keeps_self get_self.
Proof. intros self w. unfold get_self. simpl. eauto. Qed.

Lemma keeps_lift {A} (r : result A) : keeps_self (lift r).
Proof. intros self w. unfold lift. eauto. Qed.

Lemma keeps_try_except {A} (m : M A) (h : exn -> M A) :
  keeps_self m -> (forall e, keeps_self (h e)) -> keeps_self (try_except m h).
Proof.
  intros Hm Hh self w. unfold try_except.
  destruct (Hm self w) as ([a | e] & w1 & ->); [eauto |].
  destruct (is_Exception e); [apply Hh | eauto].
Qed.

Lemma keeps_lock_step type bands build unlock command locked unlocked operations :
  keeps_self (lock_step type bands build unlock command locked unlocked operations).
Proof.
  unfold lock_step. destruct (type >? 0).
  - destruct (_ && _); [| apply keeps_ret].
    destruct (bands_list bands) as [| b bs]; [apply keeps_ret |].
    apply keeps_bind; [apply keeps_lift |]. intros command'.
    apply keeps_bind; [apply keeps_send |]. intros response.
    apply keeps_bind; [apply keeps_sleep |]. intros _. apply keeps_ret.
  - destruct unlock; [| apply keeps_ret].
    apply keeps_bind; [apply keeps_send |]. intros response.
    apply keeps_bind; [apply keeps_sleep |]. intros _. apply keeps_ret.
Qed.

Lemma try_except_raises {A} (m : M A) (a : A) s e s' :
  try_except m (fun _ => mret a) s = (Raise e, s') -> is_Exception e = false.
Proof.
  unfold try_except. destruct (m s) as [[a' | e'] s1]; [discriminate |].
  destruct (is_Exception e') eqn:E; [discriminate |]. by intros [= <- _].
Qed.

End KeepsSelf.

(** X23 ([set_frequency_lock]): the call does nothing at all while a
    switch is under way; otherwise it counts the switch once and, whatever
    the modem answers and whatever the command builders return or raise,
    it ends with [is_switching] false again; and it raises no
    [Exception]. *)
Theorem set_frequency_lock_releases
    (strftime : Z -> pystr)
    (_build_lte_command : Z -> list pystr -> pystr -> pystr -> result pystr)
    (_build_nr_command : Z -> list pystr -> pystr -> pystr -> pystr -> result pystr)
    (config : Schedule.lock_config) (mode_text : pystr)
    (self : Schedule.ScheduleFrequencyLock) (w : Schedule.world) :
  (Schedule.is_switching self = true ->
   Schedule.set_frequency_lock strftime _build_lte_command _build_nr_command
     config mode_text (self, w) = (Ok (), (self, w))) /\
  (Schedule.is_switching self = false ->
   exists r w',
     Schedule.set_frequency_lock strftime _build_lte_command _build_nr_command
       config mode_text (self, w)
     = (r, (Schedule.set_switching false (Schedule.count_switch self), w'))
     /\ forall e, r = Raise e -> is_Exception e = false).
Proof.
  split; intros Hsw; unfold Schedule.set_frequency_lock;
    rewrite bind_unfold; unfold Schedule.get_self at 1; cbn [fst]; rewrite Hsw; [done |].
  rewrite bind_unfold. unfold Schedule.set_self at 1. cbn [fst snd].
  rewrite bind_unfold. unfold Schedule.set_self at 1. cbn [fst snd].
  set (self1 := Schedule.count_switch (Schedule.set_switching true self)).
  unfold Schedule.try_finally.
  match goal with
  | |- context [Schedule.try_except ?m ?h] =>
      assert (FrequencyLock.keeps_self (Schedule.try_except m h)) as Hkeeps;
      [| destruct (Hkeeps self1 w) as (r & w' & Hrun); rewrite Hrun ]
  end.
  - apply keeps_try_except; [| intros e; apply keeps_ret].
    apply keeps_bind; [apply keeps_get_self |]. intros self0.
    apply keeps_bind.
    { destruct (Schedule.toggle_airplane self0); [| apply keeps_ret].
      apply keeps_bind; [apply keeps_send |]. intros response.
      destruct (Schedule.ok_in response); [apply keeps_sleep | apply keeps_ret]. }
    intros _. apply keeps_bind; [apply keeps_lock_step |]. intros operations.
    apply keeps_bind; [apply keeps_lock_step |]. intros operations0.
    apply keeps_bind.
    { destruct (Schedule.toggle_airplane self0); [| apply keeps_ret].
      apply keeps_bind; [apply keeps_send |]. intros response.
      apply keeps_bind; [apply keeps_sleep |]. intros _. apply keeps_ret. }
    intros operations1. apply keeps_bind; [apply keeps_time |]. intros now.
    apply keeps_notify.
  - unfold Schedule.set_self. cbn [fst snd].
    exists r, w'. split; [reflexivity |].
    intros e ->. by apply try_except_raises in Hrun.
Qed.

(** X22 ([_auto_detect_scs_types]): the list of SCS types has one entry
    for every band, each ["0"] or ["1"], whatever the bands and ARFCNs
    are; so the test on the length of the list that follows the automatic
    choice in [_build_nr_command] never fails. *)
Theorem auto_detect_scs_types_length
    (int : pystr -> result Z) (bands arfcns : list pystr) :
  FrequencyLock.raises_only_ValueError int ->
  exists scs_list,
    FrequencyLock._auto_detect_scs_types int bands arfcns = Ok scs_list
    /\ len scs_list = len bands
    /\ Forall (fun s => s = u "0" \/ s = u "1") scs_list.
Proof. intros Hint. by apply detect_from_ok. Qed.

Section IntFacts.

Import FrequencyLock.

Lemma int_of_digits_raises : raises_only_ValueError int_of_digits.
Proof.
  intros s e. unfold int_of_digits. destruct s; [by intros [= <-] |].
  destruct (forallb _ _); [discriminate | by intros [= <-]].
Qed.

End IntFacts.

Lemma auto_detect_scs_types_length_witness :
  exists scs_list,
    FrequencyLock._auto_detect_scs_types FrequencyLock.int_of_digits
      [u "78"; u "28"; u "n41"] [u "627264"; u "152600"] = Ok scs_list
    /\ len scs_list = len [u "78"; u "28"; u "n41"]
    /\ Forall (fun s => s = u "0" \/ s = u "1") scs_list.
Proof.
  exact (auto_detect_scs_types_length FrequencyLock.int_of_digits
           [u "78"; u "28"; u "n41"] [u "627264"; u "152600"] int_of_digits_raises).
Defined.

Section ReconnectFacts.

Import Reconnect.

Variable attempts : nat -> attempt.

Lemma connect_loop_fails (self : ATClient) (n : nat) : forall (fuel k : nat) (retries : Z),
  max_retries self = 3 -> retry_delay self = 5 -> max_total_retries self = 100 ->
  0 <= retries -> retries + Z.of_nat n < 100 ->
  (forall j, (j < n)%nat -> fails (attempts (k + j)%nat)) ->
  connect_loop self true attempts (n + fuel) k retries
  = match connect_loop self true attempts fuel (k + n)%nat (retries + Z.of_nat n) with
    | Some (delays, r) => Some (map delay_after (seqZ (retries + 1) (Z.of_nat n)) ++ delays, r)
    | None => None
    end.
Proof.
  induction n as [| n IH]; intros fuel k retries Hm Hd Ht Hr Hn Hfail.
  - rewrite Nat.add_0_r, Z.add_0_r. simpl.
    by destruct (connect_loop self true attempts fuel k retries) as [[delays r] |].
  - cbn [Nat.add connect_loop].
    destruct (Hfail 0%nat ltac:(lia)) as (e & He & Hexc).
    rewrite Nat.add_0_r in He. rewrite He, Hexc. cbn [negb].
    rewrite Ht, Hm, Hd.
    destruct (Z.geb_spec (retries + 1) 100); [lia |].
    rewrite (IH fuel (S k) (retries + 1)); try done; try lia.
    2: { intros j Hj. replace (S k + j)%nat with (k + S j)%nat by lia. apply Hfail. lia. }
    replace (S k + n)%nat with (k + S n)%nat by lia.
    replace (retries + 1 + Z.of_nat n) with (retries + Z.of_nat (S n)) by lia.
    destruct (connect_loop self true attempts fuel (k + S n) (retries + Z.of_nat (S n)))
      as [[delays r] |]; [| done].
    f_equal. f_equal.
    replace (Z.of_nat (S n)) with (Z.succ (Z.of_nat n)) by lia.
    rewrite (seqZ_cons (retries + 1) (Z.succ (Z.of_nat n))) by lia. cbn [map].
    replace (Z.pred (Z.succ (Z.of_nat n))) with (Z.of_nat n) by lia.
    replace (Z.succ (retries + 1)) with (retries + 1 + 1) by lia.
    unfold delay_after at 2. by destruct (Z.leb_spec (retries + 1) 3).
Qed.

End ReconnectFacts.

(** X24 ([ATClient.connect]): with [retry] on, after [k] passes that fail
    the client has waited 5, 10 and 15 seconds and then 60 seconds each
    time; it returns [True] from the first pass that succeeds, if that is
    one of the first hundred, and it gives up with [ConnectionError] at
    the hundredth failure, after 99 waits.  It leaves [_reconnecting]
    false either way. *)
Theorem connect_backoff (attempts : nat -> Reconnect.attempt) (k : nat) :
  (forall j, (j < k)%nat -> Reconnect.fails (attempts j)) ->
  ((k < 100)%nat -> attempts k = Reconnect.Connected (Ok ()) ->
   Reconnect.connect Reconnect.init true attempts
   = Some (Reconnect.init, map Reconnect.delay_after (seqZ 1 (Z.of_nat k)), Ok true)) /\
  (k = 100%nat ->
   Reconnect.connect Reconnect.init true attempts
   = Some (Reconnect.init, map Reconnect.delay_after (seqZ 1 99), Raise ConnectionError)).
Proof.
  intros Hfail. unfold Reconnect.connect.
  cbn [Reconnect._reconnecting Reconnect.init Reconnect.max_total_retries].
  change (Z.to_nat (Z.max 1 100)) with 100%nat.
  change (Reconnect.set_reconnecting false Reconnect.init) with Reconnect.init.
  split.
  - intros Hk Hok.
    replace 100%nat with (k + (100 - k))%nat by lia.
    rewrite connect_loop_fails; try done; try lia.
    destruct (100 - k)%nat as [| fuel] eqn:E; [lia |].
    cbn [Reconnect.connect_loop Nat.add]. rewrite Hok.
    cbn [Reconnect.attempt_result mbind result_bind].
    by rewrite (app_nil_r (map Reconnect.delay_after (seqZ (0 + 1) (Z.of_nat k)))).
  - intros ->.
    change 100%nat with (99 + 1)%nat.
    rewrite connect_loop_fails; try done; try lia.
    2: { intros j Hj. apply Hfail. lia. }
    cbn [Reconnect.connect_loop Nat.add].
    destruct (Hfail 99%nat ltac:(lia)) as (e & -> & ->).
    cbn [negb]. vm_compute. reflexivity.
Qed.

Lemma connect_backoff_witness :
  Reconnect.connect Reconnect.init true
    (fun j => match j with
              | 0%nat => Reconnect.ConnectFalse
              | 1%nat => Reconnect.ConnectRaises OSError
              | _ => Reconnect.Connected (Ok ())
              end)
  = Some (Reconnect.init, map Reconnect.delay_after (seqZ 1 (Z.of_nat 2)), Ok true).
Proof.
  apply (proj1 (connect_backoff
                  (fun j => match j with
                            | 0%nat => Reconnect.ConnectFalse
                            | 1%nat => Reconnect.ConnectRaises OSError
                            | _ => Reconnect.Connected (Ok ())
                            end) 2
                  ltac:(intros [| [| j]] Hj;
                        [by exists ConnectionError | by exists OSError | lia]))).
  - lia.
  - reflexivity.
Defined.

Section ReconnectTotal.

Import Reconnect.

Variables (retry : bool) (attempts : nat -> attempt).

Lemma connect_loop_ends (self : ATClient) (fuel : nat) : forall (k : nat) (retries : Z),
  max_total_retries self <= retries + Z.of_nat fuel -> (0 < fuel)%nat ->
  exists delays r,
    connect_loop self retry attempts fuel k retries = Some (delays, r)
    /\ (List.length delays < fuel)%nat
    /\ (retry = false -> delays = []).
Proof.
  induction fuel as [| fuel IH]; intros k retries Hfuel Hpos; [lia |].
  cbn [connect_loop].
  destruct (attempt_result (attempts k)) as [b | e]; [exists [], (Ok b); simpl; split; [done | split; [lia | done]] |].
  destruct (is_Exception e); [| exists [], (Raise e); simpl; split; [done | split; [lia | done]]].
  destruct retry eqn:Hretry; cbn [negb];
    [| exists [], (Raise e); simpl; split; [done | split; [lia | done]]].
  destruct (Z.geb_spec (retries + 1) (max_total_retries self));
    [exists [], (Raise ConnectionError); simpl; split; [done | split; [lia | done]] |].
  destruct (IH (S k) (retries + 1)) as (delays & r & -> & Hlen & _); [lia | lia |].
  eexists _, r. split; [reflexivity |]. simpl. split; [lia | done].
Qed.

End ReconnectTotal.

(** X25 ([ATClient.connect]): whatever the connection does, the loop
    ends: the call returns or raises after at most a hundred passes and
    99 waits, with [_reconnecting] false; with [retry] off it never
    waits. *)
Theorem connect_terminates (retry : bool) (attempts : nat -> Reconnect.attempt) :
  exists delays r,
    Reconnect.connect Reconnect.init retry attempts = Some (Reconnect.init, delays, r)
    /\ len delays <= 99
    /\ (retry = false -> delays = []).
Proof.
  unfold Reconnect.connect.
  cbn [Reconnect._reconnecting Reconnect.init Reconnect.max_total_retries].
  change (Z.to_nat (Z.max 1 100)) with 100%nat.
  destruct (connect_loop_ends retry attempts
              (Reconnect.set_reconnecting true Reconnect.init) 100 0 0)
    as (delays & r & -> & Hlen & Hno); [simpl; lia | lia |].
  exists delays, r. split; [reflexivity |]. split; [unfold len; lia | done].
Qed.

Section ParseFacts.

Import Client SmsParser.

Variables (now now' : nat -> Pdu.datetime) (time_strftime : nat -> pystr).
Variable strftime : Pdu.datetime -> pystr.
Variable str : exn -> pystr.

Lemma read_incoming_sms_returns pdu_hex d d' :
  exists sms_dict, Pdu.read_incoming_sms pdu_hex d d' = Ok sms_dict.
Proof.
  unfold Pdu.read_incoming_sms.
  destruct (Pdu.read_incoming_sms_try pdu_hex d) as [r | e] eqn:E; simpl; [eauto |].
  apply read_incoming_sms_try_exn in E as ->. eauto.
Qed.

Lemma parse_lines_spec (n : nat) : forall (lines : list pystr) (i : nat),
  (List.length lines <= n)%nat ->
  exists sms_list,
    parse_lines now now' time_strftime strftime str i lines = Ok sms_list
    /\ Forall (fun sms => index sms = u "0") sms_list
    /\ (List.length sms_list <= List.length (headers lines))%nat.
Proof.
  induction n as [| n IH]; intros lines i Hn.
  - destruct lines; [| simpl in Hn; lia]. exists []. by repeat split.
  - destruct lines as [| line rest]; [exists []; by repeat split |].
    simpl in Hn. cbn [parse_lines]. unfold headers. cbn [List.filter].
    destruct (startswith (u "+CMG") line) eqn:Hline.
    + destruct rest as [| next rest'].
      * eexists. split; [reflexivity |].
        split; [by repeat constructor | cbn [List.length List.filter]; lia].
      * destruct (IH rest' (i + 2)%nat ltac:(simpl in Hn; lia)) as (l2 & E2 & H2 & L2).
        assert (List.length (List.filter (startswith (u "+CMG")) rest')
                <= List.length (List.filter (startswith (u "+CMG")) (next :: rest')))%nat
          as Hmono by (cbn [List.filter]; destruct (startswith _ next); simpl; lia).
        unfold headers in *.
        destruct (_ && _).
        -- destruct (read_incoming_sms_returns (Schedule.strip next) (now i) (now' i))
             as [sms_dict ->].
           rewrite E2. cbn [mbind result_bind]. eexists. split; [reflexivity |].
           split; [by constructor | cbn [List.length]; lia].
        -- exists l2. split; [done |]. split; [done |]. cbn [List.length]. lia.
    + destruct (IH rest (i + 1)%nat ltac:(lia)) as (l & E & H & L).
      exists l. by repeat split.
Qed.

Lemma parse_lines_no_header (lines : list pystr) : forall (i : nat),
  Forall (fun line => startswith (u "+CMG") line = false) lines ->
  parse_lines now now' time_strftime strftime str i lines = Ok [].
Proof.
  induction lines as [| line rest IH]; intros i H; [done |].
  apply list.Forall_cons in H as [Hline Hrest].
  cbn [parse_lines]. rewrite Hline. by apply IH.
Qed.

End ParseFacts.

(** X26 ([ATClient._parse_sms]): the call always returns a list; every
    [SMS] in it has the index ["0"], whatever index the modem reported;
    and the list has at most one [SMS] for each line that starts with
    [+CMG]. *)
Theorem parse_sms_index_zero
    (now now' : nat -> Pdu.datetime) (time_strftime : nat -> pystr)
    (strftime : Pdu.datetime -> pystr) (str : exn -> pystr) (response : bytes) :
  exists sms_list,
    SmsParser._parse_sms now now' time_strftime strftime str response = Ok sms_list
    /\ Forall (fun sms => Client.index sms = u "0") sms_list
    /\ len sms_list
       <= len (SmsParser.headers
                 (SmsParser.split_crlf (Schedule.decode_ascii_ignore response))).
Proof.
  unfold SmsParser._parse_sms.
  destruct (parse_lines_spec now now' time_strftime strftime str
              (List.length (SmsParser.split_crlf (Schedule.decode_ascii_ignore response)))
              (SmsParser.split_crlf (Schedule.decode_ascii_ignore response)) 0%nat (le_n _))
    as (sms_list & E & H & L).
  exists sms_list. split; [exact E |]. split; [exact H |]. unfold len. lia.
Qed.

(** X27 ([ATClient._parse_sms]): a header line followed by a PDU line of
    upper-case hexadecimal digits, with no further header, gives the one
    [SMS] that [read_incoming_sms] decodes from the PDU; a PDU line that
    is blank or holds any other character (a lower-case digit, say) is
    dropped without an [SMS] and without an error. *)
Theorem parse_sms_one_message
    (now now' : nat -> Pdu.datetime) (time_strftime : nat -> pystr)
    (strftime : Pdu.datetime -> pystr) (str : exn -> pystr)
    (i : nat) (header pdu_line : pystr) (rest : list pystr) :
  startswith (u "+CMG") header = true ->
  Forall (fun line => startswith (u "+CMG") line = false) rest ->
  (Schedule.strip pdu_line <> [] ->
   forallb SmsParser.is_upper_hex (Schedule.strip pdu_line) = true ->
   exists sms_dict,
     Pdu.read_incoming_sms (Schedule.strip pdu_line) (now i) (now' i) = Ok sms_dict
     /\ SmsParser.parse_lines now now' time_strftime strftime str i
          (header :: pdu_line :: rest)
        = Ok [Client.mk_SMS (u "0") (Pdu.sender sms_dict) (Pdu.content sms_dict)
                (strftime (Pdu.date sms_dict)) (Pdu.partial sms_dict)]) /\
  (Schedule.strip pdu_line = []
   \/ forallb SmsParser.is_upper_hex (Schedule.strip pdu_line) = false ->
   SmsParser.parse_lines now now' time_strftime strftime str i (header :: pdu_line :: rest)
   = Ok []).
Proof.
  intros Hheader Hrest. split.
  - intros Hne Hhex.
    destruct (read_incoming_sms_returns (Schedule.strip pdu_line) (now i) (now' i))
      as [sms_dict E].
    exists sms_dict. split; [exact E |].
    cbn [SmsParser.parse_lines]. rewrite Hheader.
    rewrite bool_decide_eq_false_2 by done. rewrite Hhex. cbn [negb andb].
    rewrite E. by rewrite parse_lines_no_header.
  - intros Hbad. cbn [SmsParser.parse_lines]. rewrite Hheader.
    assert (negb (bool_decide (Schedule.strip pdu_line = []))
            && forallb SmsParser.is_upper_hex (Schedule.strip pdu_line) = false) as ->.
    { destruct Hbad as [-> | ->]; [done | apply andb_false_r]. }
    by apply parse_lines_no_header.
Qed.

Lemma parse_sms_one_message_witness :
  SmsParser.parse_lines
    (fun _ => Pdu.mk_datetime 2026 11 4 12 0 0) (fun _ => Pdu.mk_datetime 2026 11 4 12 0 0)
    (fun _ => u "2026-11-04 12:00:00") (fun _ => u "2024-11-10 14:00:00") (fun _ => [])
    0 [u "+CMGR: 0,,24"; u "0011000b913108108300f00000"; []; u "OK"; []]
  = Ok [].
Proof.
  apply (proj2 (parse_sms_one_message
                  (fun _ => Pdu.mk_datetime 2026 11 4 12 0 0)
                  (fun _ => Pdu.mk_datetime 2026 11 4 12 0 0)
                  (fun _ => u "2026-11-04 12:00:00") (fun _ => u "2024-11-10 14:00:00")
                  (fun _ => []) 0 (u "+CMGR: 0,,24") (u "0011000b913108108300f00000")
                  [[]; u "OK"; []]
                  ltac:(vm_compute; reflexivity)
                  ltac:(repeat constructor))).
  right. vm_compute. reflexivity.
Defined.

Section SignalFacts.

Import Signal.

Variable int : pystr -> result Z.

Lemma getitem_at_length {A} (l : list A) :
  getitem l (len l) = Raise IndexError.
Proof.
  unfold getitem. pose proof (len_nonneg l). cbv zeta.
  destruct (Z.ltb_spec (len l) 0); [lia |].
  destruct (Z.ltb_spec (len l) 0); [lia |].
  by rewrite lookup_ge_None_2 by (unfold len; lia).
Qed.

End SignalFacts.

(** X28 ([NetworkSignalHandler.handle]): a [^CERSSI:] report of exactly
    19 fields passes the test [len(parts) >= 19] and then fails on
    [parts[19]]; the error is swallowed, so such a report is never
    notified and leaves the handler as it was. *)
Theorem cerssi_nineteen_fields
    (int : pystr -> result Z) (self : Signal.NetworkSignalHandler) (line : pystr) :
  (forall s e, int s = Raise e -> is_Exception e = true) ->
  contains (u "^CERSSI:") (Signal.first_line line) = true ->
  len (Schedule.split_comma
         (Schedule.strip (Signal.remove (u "^CERSSI:") (Signal.first_line line)))) = 19 ->
  Signal.handle int self line = (self, [], Ok ()).
Proof.
  intros Hint Hin Hlen. unfold Signal.handle, Signal.read_signal. rewrite Hin.
  set (parts := Schedule.split_comma _) in *.
  rewrite Hlen. change (19 >=? 19) with true. cbv iota.
  unfold Signal.int_at.
  destruct (getitem parts 18) as [p |] eqn:E18; cbn [mbind result_bind].
  2: { apply getitem_exn in E18 as ->. reflexivity. }
  destruct (int p) as [v |] eqn:Ep; cbn [mbind result_bind].
  2: { by rewrite (Hint _ _ Ep). }
  rewrite <- Hlen, getitem_at_length. reflexivity.
Qed.

Lemma cerssi_nineteen_fields_witness :
  Signal.handle FrequencyLock.int_of_digits Signal.init
    (u "^CERSSI: 0,0,255,0,0,0,0,0,0,0,0,0,0,0,0,0,0,0,95")
  = (Signal.init, [], Ok ()).
Proof.
  apply cerssi_nineteen_fields.
  - intros s e H. by rewrite (int_of_digits_raises s e H).
  - vm_compute. reflexivity.
  - vm_compute. reflexivity.
Defined.

(** X29 ([NetworkSignalHandler.handle]): with the threshold of 1, a
    reading is passed to [_send_notification] unless it repeats the last
    one notified, in RSRP and in mode; so the same report twice in a row
    is notified once. *)
Theorem signal_notified_on_change
    (int : pystr -> result Z) (self : Signal.NetworkSignalHandler) (line : pystr)
    (data : Signal.signal_data) :
  Signal.signal_change_threshold self = 1 ->
  Signal.read_signal int (Signal.first_line line) = Ok (Some data) ->
  ((Signal.handle int self line).1.2 = []
   <-> (exists last, Signal.last_signal_data self = Some last
                     /\ Signal.rsrp last = Signal.rsrp data)
       /\ Signal.last_sys_mode self = Some (Signal.sys_mode data)) /\
  ((Signal.handle int self line).1.2 <> [] ->
   (Signal.handle int self line).1.2 = [Signal.SendNotification data (Signal.sys_mode data)]
   /\ (Signal.handle int (Signal.handle int self line).1.1 line).1.2 = []).
Proof.
  intros Hth Hread. unfold Signal.handle. rewrite Hread.
  assert (Signal.force_notify self data = false
          <-> (exists last, Signal.last_signal_data self = Some last
                            /\ Signal.rsrp last = Signal.rsrp data)
              /\ Signal.last_sys_mode self = Some (Signal.sys_mode data)) as Hforce.
  { unfold Signal.force_notify. rewrite Hth. rewrite orb_false_iff, negb_false_iff.
    rewrite bool_decide_eq_true.
    destruct (Signal.last_signal_data self) as [last |].
    - split.
      + intros [H1 H2]. split; [| done]. exists last. split; [done |].
        destruct (Z.geb_spec (Z.abs (Signal.rsrp data - Signal.rsrp last)) 1); [done | lia].
      + intros [(last' & [= <-] & Heq) H2]. split; [| done].
        destruct (Z.geb_spec (Z.abs (Signal.rsrp data - Signal.rsrp last)) 1); [lia | done].
    - split; [by intros [? _] | by intros [(? & ? & _) _]]. }
  destruct (Signal.force_notify self data) eqn:E; cbn [fst snd].
  - split.
    + split; [discriminate | intros H; apply Hforce in H; discriminate].
    + intros _. split; [done |].
      assert (Signal.force_notify
                (Signal.mk_handler (Some data) (Some (Signal.sys_mode data))
                   (Signal.signal_change_threshold self)) data = false) as ->; [| done].
      unfold Signal.force_notify. cbn [Signal.last_signal_data Signal.last_sys_mode
        Signal.signal_change_threshold]. rewrite Hth.
      rewrite bool_decide_eq_true_2 by done. rewrite Z.sub_diag. reflexivity.
  - split; [| done]. split; [intros _; by apply Hforce | done].
Qed.

Lemma signal_notified_on_change_witness :
  ((Signal.handle FrequencyLock.int_of_digits Signal.init
      (u "^HCSQ:" ++ [34%N] ++ u "LTE" ++ [34%N] ++ u ",45,30,20")).1.2 = []
   <-> (exists last, Signal.last_signal_data Signal.init = Some last
                     /\ Signal.rsrp last = Signal.rsrp (Signal.mk_signal (u "LTE") (-95)))
       /\ Signal.last_sys_mode Signal.init
          = Some (Signal.sys_mode (Signal.mk_signal (u "LTE") (-95)))) /\
  ((Signal.handle FrequencyLock.int_of_digits Signal.init
      (u "^HCSQ:" ++ [34%N] ++ u "LTE" ++ [34%N] ++ u ",45,30,20")).1.2 <> [] ->
   (Signal.handle FrequencyLock.int_of_digits Signal.init
      (u "^HCSQ:" ++ [34%N] ++ u "LTE" ++ [34%N] ++ u ",45,30,20")).1.2
   = [Signal.SendNotification (Signal.mk_signal (u "LTE") (-95))
        (Signal.sys_mode (Signal.mk_signal (u "LTE") (-95)))]
   /\ (Signal.handle FrequencyLock.int_of_digits
         (Signal.handle FrequencyLock.int_of_digits Signal.init
            (u "^HCSQ:" ++ [34%N] ++ u "LTE" ++ [34%N] ++ u ",45,30,20")).1.1
         (u "^HCSQ:" ++ [34%N] ++ u "LTE" ++ [34%N] ++ u ",45,30,20")).1.2 = []).
Proof.
  apply (signal_notified_on_change FrequencyLock.int_of_digits Signal.init
           (u "^HCSQ:" ++ [34%N] ++ u "LTE" ++ [34%N] ++ u ",45,30,20")
           (Signal.mk_signal (u "LTE") (-95))).
  - reflexivity.
  - vm_compute. reflexivity.
Defined.

(** X30 ([MessageProcessor.process]): a line goes to the first handler
    of the list that accepts it and to no other: the handler chosen
    accepts the line and none before it does; no handler is chosen only
    when none accepts; and a line that contains [RING] goes to the call
    handler whatever else it contains. *)
Theorem process_first_handler (is_decimal : N -> bool) (line : pystr) :
  (forall h, Processor.process is_decimal line = Some h ->
     Processor.can_handle is_decimal h line = true
     /\ forall before after,
          Processor.handlers = before ++ h :: after ->
          Forall (fun h' => Processor.can_handle is_decimal h' line = false) before) /\
  (Processor.process is_decimal line = None <->
   Forall (fun h => Processor.can_handle is_decimal h line = false) Processor.handlers) /\
  (contains (u "RING") line = true ->
   Processor.process is_decimal line = Some Processor.Call).
Proof.
  unfold Processor.process, Processor.handlers. cbn [List.find].
  split; [| split].
  - intros h.
    destruct (Processor.can_handle is_decimal Processor.Call line) eqn:E1.
    { intros [= <-]. split; [done |]. intros [| b before] after; [done |].
      intros [= <- H]. exfalso.
      assert (Processor.Call ∈ [Processor.MemoryFull; Processor.NewSMS;
                Processor.NetworkSignal; Processor.PDCPData]) as Hin
        by (rewrite H; apply elem_of_app; right; left).
      repeat (apply elem_of_cons in Hin as [Hin | Hin]; [discriminate |]).
      by apply elem_of_nil in Hin. }
    destruct (Processor.can_handle is_decimal Processor.MemoryFull line) eqn:E2.
    { intros [= <-]. split; [done |].
      intros [| b1 [| b2 before]] after; [done | by intros [= <- _]; repeat constructor |].
      intros [= <- <- H]. exfalso.
      assert (Processor.MemoryFull ∈ [Processor.NewSMS;
                Processor.NetworkSignal; Processor.PDCPData]) as Hin
        by (rewrite H; apply elem_of_app; right; left).
      repeat (apply elem_of_cons in Hin as [Hin | Hin]; [discriminate |]).
      by apply elem_of_nil in Hin. }
    destruct (Processor.can_handle is_decimal Processor.NewSMS line) eqn:E3.
    { intros [= <-]. split; [done |].
      intros [| b1 [| b2 [| b3 before]]] after;
        [done | by intros [= _ ?] | by intros [= <- <- _]; repeat constructor |].
      intros [= <- <- <- H]. exfalso.
      assert (Processor.NewSMS ∈ [Processor.NetworkSignal; Processor.PDCPData]) as Hin
        by (rewrite H; apply elem_of_app; right; left).
      repeat (apply elem_of_cons in Hin as [Hin | Hin]; [discriminate |]).
      by apply elem_of_nil in Hin. }
    destruct (Processor.can_handle is_decimal Processor.NetworkSignal line) eqn:E4.
    { intros [= <-]. split; [done |].
      intros [| b1 [| b2 [| b3 [| b4 before]]]] after;
        [done | by intros [= _ ?] | by intros [= _ _ ?]
         | by intros [= <- <- <- _]; repeat constructor |].
      intros [= <- <- <- <- H]. exfalso.
      assert (Processor.NetworkSignal ∈ [Processor.PDCPData]) as Hin
        by (rewrite H; apply elem_of_app; right; left).
      repeat (apply elem_of_cons in Hin as [Hin | Hin]; [discriminate |]).
      by apply elem_of_nil in Hin. }
    destruct (Processor.can_handle is_decimal Processor.PDCPData line) eqn:E5; [| discriminate].
    intros [= <-]. split; [done |].
    intros [| b1 [| b2 [| b3 [| b4 [| b5 before]]]]] after;
      [done | by intros [= _ ?] | by intros [= _ _ ?] | by intros [= _ _ _ ?]
       | by intros [= <- <- <- <- _]; repeat constructor |].
    intros [= _ _ _ _ _ H]. by destruct before.
  - destruct (Processor.can_handle is_decimal Processor.Call line) eqn:E1.
    { split; [discriminate |]. intros H. apply list.Forall_cons in H as [H _]. congruence. }
    destruct (Processor.can_handle is_decimal Processor.MemoryFull line) eqn:E2.
    { split; [discriminate |]. intros H.
      apply list.Forall_cons in H as [_ H]. apply list.Forall_cons in H as [H _]. congruence. }
    destruct (Processor.can_handle is_decimal Processor.NewSMS line) eqn:E3.
    { split; [discriminate |]. intros H.
      do 2 apply list.Forall_cons in H as [_ H]. apply list.Forall_cons in H as [H _].
      congruence. }
    destruct (Processor.can_handle is_decimal Processor.NetworkSignal line) eqn:E4.
    { split; [discriminate |]. intros H.
      do 3 apply list.Forall_cons in H as [_ H]. apply list.Forall_cons in H as [H _].
      congruence. }
    destruct (Processor.can_handle is_decimal Processor.PDCPData line) eqn:E5.
    { split; [discriminate |]. intros H.
      do 4 apply list.Forall_cons in H as [_ H]. apply list.Forall_cons in H as [H _].
      congruence. }
    split; [| done]. intros _. by repeat constructor.
  - intros Hring. cbn [Processor.can_handle]. unfold Processor.CallHandler.can_handle.
    by rewrite Hring.
Qed.
